(** * EmbeddedFS: the two backend adapters of the filesystem facade

    A shallow embedding of [filesys.h], [LittleFSImpl.cpp] and
    [FatFSImpl.cpp].  The adapters are thin: every method validates its
    handle or the mounted flag, calls into the wrapped library and
    translates the native status.  The wrapped libraries (littlefs, FatFs)
    are external, so a method is embedded as a finite program over the
    library's entry points: each native call is a node of the program, answered
    by whatever library the program is run against.  Properties are then
    stated for every library, with the exact sequence of native calls. *)

From Stdlib Require Import ZArith List String Ascii Bool Lia.
From Stdlib Require Import Strings.Byte.
Import ListNotations.
Local Open Scope Z_scope.

Set Implicit Arguments.

(** ** Programs over a native library *)

(** [M E A]: a program that returns an [A], calls native entry points [E]
    on the way, or runs into undefined behaviour ([Trap], e.g. a null
    dereference). *)
Inductive M (E : Type -> Type) (A : Type) : Type :=
| Ret (a : A)
| Vis (X : Type) (e : E X) (k : X -> M E A)
| Trap.

Arguments Ret {E A} a.
Arguments Vis {E A X} e k.
Arguments Trap {E A}.

Fixpoint bind {E : Type -> Type} {A B : Type} (m : M E A) (f : A -> M E B) : M E B :=
  match m with
  | Ret a => f a
  | Vis e k => Vis e (fun x => bind (k x) f)
  | Trap => Trap
  end.

Definition call {E : Type -> Type} {X : Type} (e : E X) : M E X := Vis e Ret.

Declare Scope prog_scope.
Delimit Scope prog_scope with prog.
Notation "x <- c1 ;; c2" := (bind c1 (fun x => c2))
  (at level 61, c1 at next level, right associativity) : prog_scope.
Notation "' pat <- c1 ;; c2" := (bind c1 (fun x => match x with pat => c2 end))
  (at level 61, pat pattern, c1 at next level, right associativity) : prog_scope.
Local Open Scope prog_scope.

(** One native call together with what the library answered. *)
Record event (E : Type -> Type) : Type :=
  Ev { ev_type : Type; ev_call : E ev_type; ev_answer : ev_type }.

Arguments Ev {E ev_type} ev_call ev_answer.

(** A library: it answers every call from its own state [S]. *)
Definition lib (E : Type -> Type) (S : Type) : Type :=
  forall X : Type, E X -> S -> X * S.

(** Running a program against a library: the result ([None] after a trap),
    the library's final state and the native calls in the order made. *)
Fixpoint run {E : Type -> Type} {S A : Type} (L : lib E S) (m : M E A) (s : S)
  : option A * S * list (event E) :=
  match m with
  | Ret a => (Some a, s, [])
  | Trap => (None, s, [])
  | Vis e k =>
      let (x, s1) := L _ e s in
      let '(r, s2, tr) := run L (k x) s1 in
      (r, s2, Ev e x :: tr)
  end.

(** A program that returns [a] without any native call. *)
Definition silent {E : Type -> Type} {A : Type} (m : M E A) (a : A) : Prop :=
  forall (S : Type) (L : lib E S) (s : S), run L m s = (Some a, s, []).

(** ** filesys.h *)

Definition MAX_FILENAME_LENGTH : nat := 64.

(** [enum class FSResult : int8_t] *)
Inductive FSResult : Type :=
| OK
| ERROR_IO
| ERROR_CORRUPT
| ERROR_NO_ENT
| ERROR_EXIST
| ERROR_NOT_DIR
| ERROR_IS_DIR
| ERROR_NO_EMPTY
| ERROR_BAD_FILE
| ERROR_FB_BIG
| ERROR_NO_SPC
| ERROR_NO_MEM
| ERROR_INVALID
| ERROR_NOT_MOUNTED
| ERROR_NOT_SUPPORTED.

Definition FSResult_value (r : FSResult) : Z :=
  match r with
  | OK => 0
  | ERROR_IO => -1
  | ERROR_CORRUPT => -2
  | ERROR_NO_ENT => -3
  | ERROR_EXIST => -4
  | ERROR_NOT_DIR => -5
  | ERROR_IS_DIR => -6
  | ERROR_NO_EMPTY => -7
  | ERROR_BAD_FILE => -8
  | ERROR_FB_BIG => -9
  | ERROR_NO_SPC => -10
  | ERROR_NO_MEM => -11
  | ERROR_INVALID => -12
  | ERROR_NOT_MOUNTED => -13
  | ERROR_NOT_SUPPORTED => -14
  end.

(** [enum class OpenMode : uint8_t]: bit flags, combined with [operator|],
    so a mode is any 8-bit word. *)
Module OpenMode.
Definition READ : Z := 0x01.
Definition WRITE : Z := 0x02.
Definition CREATE : Z := 0x04.
Definition EXCL : Z := 0x08.
Definition TRUNC : Z := 0x10.
Definition APPEND : Z := 0x20.
End OpenMode.

(** [operator|] and [operator&] on [OpenMode]. *)
Definition OpenMode_or (a b : Z) : Z := Z.lor a b.
Definition OpenMode_and (a b : Z) : Z := Z.land a b.

(** [enum class SeekOrigin : uint8_t]; the adapters switch on it with a
    [default] branch, so it is kept as its 8-bit value. *)
Module SeekOrigin.
Definition SET : Z := 0.
Definition CUR : Z := 1.
Definition END : Z := 2.
End SeekOrigin.

(** [struct FileInfo]; [name] is the C string held in [char name[64]]. *)
Record FileInfo : Type := mkFileInfo {
  name : string;
  size : Z;
  is_directory : bool;
  modified_time : Z
}.

(** [FileInfo::FileInfo()] *)
Definition FileInfo_new : FileInfo :=
  {| name := EmptyString; size := 0; is_directory := false; modified_time := 0 |}.

(** An [IFileSystemImpl*]: [None] is [nullptr], [Some a] the adapter
    object at address [a]. *)
Definition addr : Type := N.
Definition impl_ptr : Type := option addr.

Definition ptr_eqb (p q : impl_ptr) : bool :=
  match p, q with
  | None, None => true
  | Some a, Some b => N.eqb a b
  | _, _ => false
  end.

(** The anonymous union of a handle: one piece of storage that is handed
    to the owning library by address, whichever member names it. *)
Definition storage : Type := list byte.

(** [struct FileHandle] *)
Record FileHandle : Type := mkFileHandle {
  is_open : bool;
  fs_impl : impl_ptr;
  file_union : storage
}.

Definition lfs_file (h : FileHandle) : storage := file_union h.
Definition fat_file (h : FileHandle) : storage := file_union h.

(** [FileHandle::FileHandle()]; the union is left as it was. *)
Definition FileHandle_new (raw : storage) : FileHandle :=
  {| is_open := false; fs_impl := None; file_union := raw |}.

(** [struct DirHandle] *)
Record DirHandle : Type := mkDirHandle {
  dir_is_open : bool;
  dir_fs_impl : impl_ptr;
  dir_union : storage
}.

Definition lfs_dir (h : DirHandle) : storage := dir_union h.
Definition fat_dir (h : DirHandle) : storage := dir_union h.

Definition DirHandle_new (raw : storage) : DirHandle :=
  {| dir_is_open := false; dir_fs_impl := None; dir_union := raw |}.

(** ** <cstring> *)

(** The text after the last occurrence of [c]: [strrchr(s, c) + 1], or
    [None] when [strrchr] returns null. *)
Fixpoint strrchr_next (c : ascii) (s : string) : option string :=
  match s with
  | EmptyString => None
  | String a rest =>
      match strrchr_next c rest with
      | Some t => Some t
      | None => if Ascii.eqb a c then Some rest else None
      end
  end.

(** [strncpy(dst, src, n); dst[n] = 0]: the first [n] characters. *)
Fixpoint strncpy (n : nat) (src : string) : string :=
  match n, src with
  | S n', String a rest => String a (strncpy n' rest)
  | _, _ => EmptyString
  end.

(** ** Fixed-width integers *)

Definition wrap (bits : Z) (x : Z) : Z := x mod 2 ^ bits.

(** Two's complement value of the low [bits] bits. *)
Definition swrap (bits : Z) (x : Z) : Z :=
  let m := x mod 2 ^ bits in
  if m <? 2 ^ (bits - 1) then m else m - 2 ^ bits.

Definition uint8 : Z -> Z := wrap 8.
Definition uint32 : Z -> Z := wrap 32.
Definition uint64 : Z -> Z := wrap 64.
Definition int32 : Z -> Z := swrap 32.

(** A [switch] over integer case labels: the first matching label wins
    (labels of a C++ switch are distinct), else the [default]. *)
Fixpoint switch {A : Type} (x : Z) (cases : list (Z * A)) (default : A) : A :=
  match cases with
  | [] => default
  | (label, a) :: rest => if x =? label then a else switch x rest default
  end.

(** ** lfs.h (littlefs)

    The header is not among the sources.  The constants the adapter names
    are parameters of the development; [littlefs_h] below gives the values
    of the upstream header for concrete runs. *)
Class lfs_h : Type := {
  LFS_ERR_OK : Z;
  LFS_ERR_IO : Z;
  LFS_ERR_CORRUPT : Z;
  LFS_ERR_NOENT : Z;
  LFS_ERR_EXIST : Z;
  LFS_ERR_NOTDIR : Z;
  LFS_ERR_ISDIR : Z;
  LFS_ERR_NOTEMPTY : Z;
  LFS_ERR_BADF : Z;
  LFS_ERR_FBIG : Z;
  LFS_ERR_NOSPC : Z;
  LFS_ERR_NOMEM : Z;
  LFS_ERR_INVAL : Z;
  LFS_O_RDONLY : Z;
  LFS_O_WRONLY : Z;
  LFS_O_RDWR : Z;
  LFS_O_CREAT : Z;
  LFS_O_EXCL : Z;
  LFS_O_TRUNC : Z;
  LFS_O_APPEND : Z;
  LFS_SEEK_SET : Z;
  LFS_SEEK_CUR : Z;
  LFS_SEEK_END : Z;
  LFS_TYPE_DIR : Z
}.

(** The fields of [struct lfs_config] that the adapter reads; callbacks,
    buffers and the rest of the geometry only pass through to littlefs. *)
Record lfs_config_t : Type := mk_lfs_config {
  block_size : Z;
  block_count : Z
}.

(** [struct lfs_info] *)
Record lfs_info : Type := mk_lfs_info {
  lfs_info_type : Z;
  lfs_info_size : Z;
  lfs_info_name : string
}.

(** The entry points of littlefs the adapter calls.  The [lfs_t] object is
    the library's own state; a file or directory object is handed over and
    comes back as the library left it. *)
Inductive lfsE : Type -> Type :=
| lfs_mount (config : lfs_config_t) : lfsE Z
| lfs_format (config : lfs_config_t) : lfsE Z
| lfs_unmount : lfsE Z
| lfs_file_open (file : storage) (path : string) (flags : Z) : lfsE (Z * storage)
| lfs_file_close (file : storage) : lfsE (Z * storage)
| lfs_file_read (file : storage) (size : Z) : lfsE (Z * storage * list byte)
| lfs_file_write (file : storage) (buffer : list byte) (size : Z) : lfsE (Z * storage)
| lfs_file_seek (file : storage) (off : Z) (whence : Z) : lfsE (Z * storage)
| lfs_file_tell (file : storage) : lfsE (Z * storage)
| lfs_file_sync (file : storage) : lfsE (Z * storage)
| lfs_file_truncate (file : storage) (size : Z) : lfsE (Z * storage)
| lfs_remove (path : string) : lfsE Z
| lfs_rename (oldpath newpath : string) : lfsE Z
| lfs_stat (path : string) : lfsE (Z * lfs_info)
| lfs_mkdir (path : string) : lfsE Z
| lfs_dir_open (dir : storage) (path : string) : lfsE (Z * storage)
| lfs_dir_close (dir : storage) : lfsE (Z * storage)
| lfs_dir_read (dir : storage) : lfsE (Z * storage * lfs_info)
| lfs_dir_rewind (dir : storage) : lfsE (Z * storage)
| lfs_fs_size : lfsE Z.

(** ** LittleFSImpl.cpp *)
Module LittleFSImpl.

(** The adapter object: [this] is its address; the member [lfs_] is the
    library's state and lives on the library's side of [run]. *)
Record t : Type := mk {
  this : addr;
  config_ : option lfs_config_t;
  mounted_ : bool
}.

Definition set_mounted (fs : t) (b : bool) : t :=
  {| this := this fs; config_ := config_ fs; mounted_ := b |}.

(** The constructor [LittleFSImpl(config)]; [None] is a null [config]. *)
Definition new (self : addr) (config : option lfs_config_t) : t :=
  {| this := self; config_ := config; mounted_ := false |}.

Definition is_mounted (fs : t) : bool := mounted_ fs.

(** [!handle.is_open || handle.fs_impl != this] *)
Definition bad_file (fs : t) (handle : FileHandle) : bool :=
  negb (is_open handle) || negb (ptr_eqb (fs_impl handle) (Some (this fs))).

Definition bad_dir (fs : t) (handle : DirHandle) : bool :=
  negb (dir_is_open handle) || negb (ptr_eqb (dir_fs_impl handle) (Some (this fs))).

Definition set_lfs_file (handle : FileHandle) (file : storage) : FileHandle :=
  {| is_open := is_open handle; fs_impl := fs_impl handle; file_union := file |}.

Definition set_lfs_dir (handle : DirHandle) (dir : storage) : DirHandle :=
  {| dir_is_open := dir_is_open handle; dir_fs_impl := dir_fs_impl handle;
     dir_union := dir |}.

Section WithHeader.
Context {lfsh : lfs_h}.

Definition convert_lfs_error (lfs_error : Z) : FSResult :=
  switch lfs_error
    [ (LFS_ERR_OK, OK);
      (LFS_ERR_IO, ERROR_IO);
      (LFS_ERR_CORRUPT, ERROR_CORRUPT);
      (LFS_ERR_NOENT, ERROR_NO_ENT);
      (LFS_ERR_EXIST, ERROR_EXIST);
      (LFS_ERR_NOTDIR, ERROR_NOT_DIR);
      (LFS_ERR_ISDIR, ERROR_IS_DIR);
      (LFS_ERR_NOTEMPTY, ERROR_NO_EMPTY);
      (LFS_ERR_BADF, ERROR_BAD_FILE);
      (LFS_ERR_FBIG, ERROR_FB_BIG);
      (LFS_ERR_NOSPC, ERROR_NO_SPC);
      (LFS_ERR_NOMEM, ERROR_NO_MEM);
      (LFS_ERR_INVAL, ERROR_INVALID) ]
    ERROR_IO.

(** The local [int lfs_flags] of [convert_open_mode] when it reaches the
    [return]. *)
Definition lfs_flags (mode : Z) : Z :=
  let mode_bits := uint8 mode in
  let read_flag := negb (Z.land mode_bits OpenMode.READ =? 0) in
  let write_flag := negb (Z.land mode_bits OpenMode.WRITE =? 0) in
  let create_flag := negb (Z.land mode_bits OpenMode.CREATE =? 0) in
  let trunc_flag := negb (Z.land mode_bits OpenMode.TRUNC =? 0) in
  let append_flag := negb (Z.land mode_bits OpenMode.APPEND =? 0) in
  let excl_flag := negb (Z.land mode_bits OpenMode.EXCL =? 0) in
  let flags := 0 in
  let flags := if read_flag then Z.lor flags LFS_O_RDONLY else flags in
  let flags :=
    if write_flag then
      if read_flag then Z.lor (Z.land flags (Z.lnot LFS_O_RDONLY)) LFS_O_RDWR
      else Z.lor flags LFS_O_WRONLY
    else flags in
  let flags :=
    if create_flag then
      let flags := Z.lor flags LFS_O_CREAT in
      if excl_flag then Z.lor flags LFS_O_EXCL else flags
    else flags in
  let flags := if trunc_flag then Z.lor flags LFS_O_TRUNC else flags in
  let flags := if append_flag then Z.lor flags LFS_O_APPEND else flags in
  flags.

(** [uint8_t convert_open_mode(OpenMode)]: the flags leave through
    [static_cast<uint8_t>]. *)
Definition convert_open_mode (mode : Z) : Z := uint8 (lfs_flags mode).

Definition mount (fs : t) : M lfsE (FSResult * t) :=
  if mounted_ fs then Ret (OK, fs)
  else
    match config_ fs with
    | None => Ret (ERROR_INVALID, fs)
    | Some config =>
        res <- call (lfs_mount config) ;;
        if res =? LFS_ERR_OK then Ret (OK, set_mounted fs true)
        else if res =? LFS_ERR_CORRUPT then
          res <- call (lfs_format config) ;;
          if res =? LFS_ERR_OK then
            res <- call (lfs_mount config) ;;
            if res =? LFS_ERR_OK then Ret (OK, set_mounted fs true)
            else Ret (convert_lfs_error res, fs)
          else Ret (convert_lfs_error res, fs)
        else Ret (convert_lfs_error res, fs)
    end.

Definition unmount (fs : t) : M lfsE (FSResult * t) :=
  if negb (mounted_ fs) then Ret (OK, fs)
  else
    res <- call lfs_unmount ;;
    Ret (convert_lfs_error res, set_mounted fs false).

(** The destructor [~LittleFSImpl()]; the status of the unmount is dropped. *)
Definition destroy (fs : t) : M lfsE t :=
  if mounted_ fs then
    '(_, fs) <- unmount fs ;;
    Ret fs
  else Ret fs.

Definition open (fs : t) (handle : FileHandle) (path : string) (mode : Z)
  : M lfsE (FSResult * FileHandle) :=
  if negb (mounted_ fs) then Ret (ERROR_NOT_MOUNTED, handle)
  else if is_open handle then Ret (ERROR_BAD_FILE, handle)
  else
    let flags := convert_open_mode mode in
    '(res, file) <- call (lfs_file_open (lfs_file handle) path flags) ;;
    if res =? LFS_ERR_OK then
      Ret (OK, {| is_open := true; fs_impl := Some (this fs); file_union := file |})
    else Ret (convert_lfs_error res, set_lfs_file handle file).

Definition close (fs : t) (handle : FileHandle) : M lfsE (FSResult * FileHandle) :=
  if bad_file fs handle then Ret (ERROR_BAD_FILE, handle)
  else
    '(res, file) <- call (lfs_file_close (lfs_file handle)) ;;
    Ret (convert_lfs_error res,
         {| is_open := false; fs_impl := None; file_union := file |}).

(** [buffer] and [bytes_read] are what the caller's variables hold before
    the call; the result carries what they hold after it. *)
Definition read (fs : t) (handle : FileHandle) (buffer : list byte) (size : Z)
    (bytes_read : Z) : M lfsE (FSResult * FileHandle * list byte * Z) :=
  if bad_file fs handle then Ret (ERROR_BAD_FILE, handle, buffer, bytes_read)
  else
    '(res, file, data) <- call (lfs_file_read (lfs_file handle) size) ;;
    if 0 <=? res then Ret (OK, set_lfs_file handle file, data, res)
    else Ret (convert_lfs_error res, set_lfs_file handle file, data, 0).

Definition write (fs : t) (handle : FileHandle) (buffer : list byte) (size : Z)
    (bytes_written : Z) : M lfsE (FSResult * FileHandle * Z) :=
  if bad_file fs handle then Ret (ERROR_BAD_FILE, handle, bytes_written)
  else
    '(res, file) <- call (lfs_file_write (lfs_file handle) buffer size) ;;
    if 0 <=? res then Ret (OK, set_lfs_file handle file, res)
    else Ret (convert_lfs_error res, set_lfs_file handle file, 0).

Definition seek (fs : t) (handle : FileHandle) (offset : Z) (origin : Z)
  : M lfsE (FSResult * FileHandle) :=
  if bad_file fs handle then Ret (ERROR_BAD_FILE, handle)
  else
    match switch origin
            [ (SeekOrigin.SET, Some LFS_SEEK_SET);
              (SeekOrigin.CUR, Some LFS_SEEK_CUR);
              (SeekOrigin.END, Some LFS_SEEK_END) ]
            None
    with
    | None => Ret (ERROR_INVALID, handle)
    | Some whence =>
        '(res, file) <- call (lfs_file_seek (lfs_file handle) offset whence) ;;
        if 0 <=? res then Ret (OK, set_lfs_file handle file)
        else Ret (convert_lfs_error res, set_lfs_file handle file)
    end.

Definition tell (fs : t) (handle : FileHandle) (position : Z)
  : M lfsE (FSResult * FileHandle * Z) :=
  if bad_file fs handle then Ret (ERROR_BAD_FILE, handle, position)
  else
    '(res, file) <- call (lfs_file_tell (lfs_file handle)) ;;
    if 0 <=? res then Ret (OK, set_lfs_file handle file, uint32 res)
    else Ret (convert_lfs_error res, set_lfs_file handle file, position).

Definition sync (fs : t) (handle : FileHandle) : M lfsE (FSResult * FileHandle) :=
  if bad_file fs handle then Ret (ERROR_BAD_FILE, handle)
  else
    '(res, file) <- call (lfs_file_sync (lfs_file handle)) ;;
    Ret (convert_lfs_error res, set_lfs_file handle file).

Definition truncate (fs : t) (handle : FileHandle) (size : Z)
  : M lfsE (FSResult * FileHandle) :=
  if bad_file fs handle then Ret (ERROR_BAD_FILE, handle)
  else
    '(res, file) <- call (lfs_file_truncate (lfs_file handle) size) ;;
    Ret (convert_lfs_error res, set_lfs_file handle file).

Definition remove (fs : t) (path : string) : M lfsE FSResult :=
  if negb (mounted_ fs) then Ret ERROR_NOT_MOUNTED
  else
    res <- call (lfs_remove path) ;;
    Ret (convert_lfs_error res).

Definition rename (fs : t) (old_path new_path : string) : M lfsE FSResult :=
  if negb (mounted_ fs) then Ret ERROR_NOT_MOUNTED
  else
    res <- call (lfs_rename old_path new_path) ;;
    Ret (convert_lfs_error res).

Definition stat (fs : t) (path : string) (info : FileInfo) : M lfsE (FSResult * FileInfo) :=
  if negb (mounted_ fs) then Ret (ERROR_NOT_MOUNTED, info)
  else
    '(res, li) <- call (lfs_stat path) ;;
    if res =? LFS_ERR_OK then
      let filename :=
        match strrchr_next "/"%char path with
        | Some next => next
        | None => path
        end in
      Ret (OK, {| name := strncpy (MAX_FILENAME_LENGTH - 1) filename;
                  size := uint32 (lfs_info_size li);
                  is_directory := lfs_info_type li =? LFS_TYPE_DIR;
                  modified_time := 0 |})
    else Ret (convert_lfs_error res, info).

Definition mkdir (fs : t) (path : string) : M lfsE FSResult :=
  if negb (mounted_ fs) then Ret ERROR_NOT_MOUNTED
  else
    res <- call (lfs_mkdir path) ;;
    Ret (convert_lfs_error res).

Definition rmdir (fs : t) (path : string) : M lfsE FSResult :=
  if negb (mounted_ fs) then Ret ERROR_NOT_MOUNTED
  else
    res <- call (lfs_remove path) ;;
    Ret (convert_lfs_error res).

Definition opendir (fs : t) (handle : DirHandle) (path : string)
  : M lfsE (FSResult * DirHandle) :=
  if negb (mounted_ fs) then Ret (ERROR_NOT_MOUNTED, handle)
  else if dir_is_open handle then Ret (ERROR_BAD_FILE, handle)
  else
    '(res, dir) <- call (lfs_dir_open (lfs_dir handle) path) ;;
    if res =? LFS_ERR_OK then
      Ret (OK, {| dir_is_open := true; dir_fs_impl := Some (this fs); dir_union := dir |})
    else Ret (convert_lfs_error res, set_lfs_dir handle dir).

Definition closedir (fs : t) (handle : DirHandle) : M lfsE (FSResult * DirHandle) :=
  if bad_dir fs handle then Ret (ERROR_BAD_FILE, handle)
  else
    '(res, dir) <- call (lfs_dir_close (lfs_dir handle)) ;;
    Ret (convert_lfs_error res,
         {| dir_is_open := false; dir_fs_impl := None; dir_union := dir |}).

Definition readdir (fs : t) (handle : DirHandle) (info : FileInfo)
  : M lfsE (FSResult * DirHandle * FileInfo) :=
  if bad_dir fs handle then Ret (ERROR_BAD_FILE, handle, info)
  else
    '(res, dir, li) <- call (lfs_dir_read (lfs_dir handle)) ;;
    if 0 <? res then
      Ret (OK, set_lfs_dir handle dir,
           {| name := strncpy (MAX_FILENAME_LENGTH - 1) (lfs_info_name li);
              size := uint32 (lfs_info_size li);
              is_directory := lfs_info_type li =? LFS_TYPE_DIR;
              modified_time := 0 |})
    else if res =? 0 then
      Ret (OK, set_lfs_dir handle dir,
           {| name := EmptyString; size := size info;
              is_directory := is_directory info;
              modified_time := modified_time info |})
    else Ret (convert_lfs_error res, set_lfs_dir handle dir, info).

Definition rewinddir (fs : t) (handle : DirHandle) : M lfsE (FSResult * DirHandle) :=
  if bad_dir fs handle then Ret (ERROR_BAD_FILE, handle)
  else
    '(res, dir) <- call (lfs_dir_rewind (lfs_dir handle)) ;;
    Ret (convert_lfs_error res, set_lfs_dir handle dir).

(** [config_->block_count] with a null [config_] is a null dereference. *)
Definition get_free_space (fs : t) (free_bytes : Z) : M lfsE (FSResult * Z) :=
  if negb (mounted_ fs) then Ret (ERROR_NOT_MOUNTED, free_bytes)
  else
    res <- call lfs_fs_size ;;
    if 0 <=? res then
      match config_ fs with
      | None => Trap
      | Some config =>
          let used_blocks := uint32 res in
          let total_blocks := block_count config in
          let free_blocks :=
            if total_blocks >? used_blocks then uint32 (total_blocks - used_blocks)
            else 0 in
          Ret (OK, uint64 (free_blocks * block_size config))
      end
    else Ret (convert_lfs_error res, free_bytes).

Definition get_total_space (fs : t) (total_bytes : Z) : M lfsE (FSResult * Z) :=
  if negb (mounted_ fs) then Ret (ERROR_NOT_MOUNTED, total_bytes)
  else
    match config_ fs with
    | None => Trap
    | Some config => Ret (OK, uint64 (block_count config * block_size config))
    end.

End WithHeader.
End LittleFSImpl.

(** ** ff.h (FatFs)

    Not among the sources either: the status codes, mode flags and integer
    widths the adapter depends on are parameters; [fatfs_h] below gives the
    values of the upstream header. *)
Class ff_h : Type := {
  FR_OK : Z;
  FR_DISK_ERR : Z;
  FR_INT_ERR : Z;
  FR_NOT_READY : Z;
  FR_NO_FILE : Z;
  FR_NO_PATH : Z;
  FR_INVALID_NAME : Z;
  FR_DENIED : Z;
  FR_EXIST : Z;
  FR_INVALID_OBJECT : Z;
  FR_WRITE_PROTECTED : Z;
  FR_INVALID_DRIVE : Z;
  FR_NOT_ENABLED : Z;
  FR_NO_FILESYSTEM : Z;
  FR_MKFS_ABORTED : Z;
  FR_TIMEOUT : Z;
  FR_LOCKED : Z;
  FR_NOT_ENOUGH_CORE : Z;
  FR_TOO_MANY_OPEN_FILES : Z;
  FR_INVALID_PARAMETER : Z;
  FA_READ : Z;
  FA_WRITE : Z;
  FA_OPEN_EXISTING : Z;
  FA_CREATE_NEW : Z;
  FA_CREATE_ALWAYS : Z;
  FA_OPEN_APPEND : Z;
  AM_DIR : Z;
  FSIZE_bits : Z;
  UINT_bits : Z
}.

(** [FILINFO] *)
Record FILINFO : Type := mk_FILINFO {
  fsize : Z;
  fdate : Z;
  ftime : Z;
  fattrib : Z;
  fname : string
}.

(** The fields of [FATFS] read through the pointer [f_getfree] hands out. *)
Record FATFS : Type := mk_FATFS {
  csize : Z;
  n_fatent : Z
}.

(** The entry points of FatFs the adapter calls.  [f_mount] takes the
    address of the adapter's filesystem object, or null to unregister;
    [f_tell] and [f_size] query a file object without changing it. *)
Inductive ffE : Type -> Type :=
| f_mount (fs : option addr) (path : string) (opt : Z) : ffE Z
| f_open (fp : storage) (path : string) (mode : Z) : ffE (Z * storage)
| f_close (fp : storage) : ffE (Z * storage)
| f_read (fp : storage) (btr : Z) : ffE (Z * storage * list byte * Z)
| f_write (fp : storage) (buff : list byte) (btw : Z) : ffE (Z * storage * Z)
| f_tell (fp : storage) : ffE Z
| f_size (fp : storage) : ffE Z
| f_lseek (fp : storage) (ofs : Z) : ffE (Z * storage)
| f_sync (fp : storage) : ffE (Z * storage)
| f_truncate (fp : storage) : ffE (Z * storage)
| f_unlink (path : string) : ffE Z
| f_rename (path_old path_new : string) : ffE Z
| f_stat (path : string) : ffE (Z * FILINFO)
| f_mkdir (path : string) : ffE Z
| f_opendir (dp : storage) (path : string) : ffE (Z * storage)
| f_closedir (dp : storage) : ffE (Z * storage)
| f_readdir (dp : storage) : ffE (Z * storage * FILINFO)
| f_rewinddir (dp : storage) : ffE (Z * storage)
| f_getfree (path : string) : ffE (Z * Z * FATFS).

(** ** FatFSImpl.cpp *)
Module FatFSImpl.

(** The adapter object; the member [fatfs_] is the library's state. *)
Record t : Type := mk {
  this : addr;
  drive_path_ : string;
  mounted_ : bool
}.

Definition set_mounted (fs : t) (b : bool) : t :=
  {| this := this fs; drive_path_ := drive_path_ fs; mounted_ := b |}.

(** The constructor; [None] is a null [drive_path], and
    [sizeof(drive_path_)] is 8. *)
Definition new (self : addr) (drive_path : option string) : t :=
  {| this := self;
     drive_path_ :=
       match drive_path with
       | Some p => if (Z.of_nat (String.length p) <? 8) then p else "0:"%string
       | None => "0:"%string
       end;
     mounted_ := false |}.

Definition is_mounted (fs : t) : bool := mounted_ fs.

(** [!handle.is_open || handle.fs_impl != this] *)
Definition bad_file (fs : t) (handle : FileHandle) : bool :=
  negb (is_open handle) || negb (ptr_eqb (fs_impl handle) (Some (this fs))).

Definition bad_dir (fs : t) (handle : DirHandle) : bool :=
  negb (dir_is_open handle) || negb (ptr_eqb (dir_fs_impl handle) (Some (this fs))).

Definition set_fat_file (handle : FileHandle) (fp : storage) : FileHandle :=
  {| is_open := is_open handle; fs_impl := fs_impl handle; file_union := fp |}.

Definition set_fat_dir (handle : DirHandle) (dp : storage) : DirHandle :=
  {| dir_is_open := dir_is_open handle; dir_fs_impl := dir_fs_impl handle;
     dir_union := dp |}.

Section WithHeader.
Context {ffh : ff_h}.

(** Conversions to [FSIZE_t] and [UINT]. *)
Definition FSIZE_t (x : Z) : Z := wrap FSIZE_bits x.
Definition UINT (x : Z) : Z := wrap UINT_bits x.

Definition convert_fatfs_error (fresult : Z) : FSResult :=
  switch fresult
    [ (FR_OK, OK);
      (FR_DISK_ERR, ERROR_IO);
      (FR_INT_ERR, ERROR_CORRUPT);
      (FR_NOT_READY, ERROR_IO);
      (FR_NO_FILE, ERROR_NO_ENT);
      (FR_NO_PATH, ERROR_NO_ENT);
      (FR_INVALID_NAME, ERROR_INVALID);
      (FR_DENIED, ERROR_INVALID);
      (FR_EXIST, ERROR_EXIST);
      (FR_INVALID_OBJECT, ERROR_BAD_FILE);
      (FR_WRITE_PROTECTED, ERROR_INVALID);
      (FR_INVALID_DRIVE, ERROR_NOT_MOUNTED);
      (FR_NOT_ENABLED, ERROR_NOT_MOUNTED);
      (FR_NO_FILESYSTEM, ERROR_CORRUPT);
      (FR_MKFS_ABORTED, ERROR_IO);
      (FR_TIMEOUT, ERROR_IO);
      (FR_LOCKED, ERROR_INVALID);
      (FR_NOT_ENOUGH_CORE, ERROR_NO_MEM);
      (FR_TOO_MANY_OPEN_FILES, ERROR_NO_MEM);
      (FR_INVALID_PARAMETER, ERROR_INVALID) ]
    ERROR_IO.

(** [BYTE convert_open_mode(OpenMode)].  The source tests the write bit
    against [OpenMode::write]; the enumerator is [WRITE]. *)
Definition convert_open_mode (mode : Z) : Z :=
  let mode_bits := uint8 mode in
  let read_flag := negb (Z.land mode_bits OpenMode.READ =? 0) in
  let write_flag := negb (Z.land mode_bits OpenMode.WRITE =? 0) in
  let create_flag := negb (Z.land mode_bits OpenMode.CREATE =? 0) in
  let trunc_flag := negb (Z.land mode_bits OpenMode.TRUNC =? 0) in
  let append_flag := negb (Z.land mode_bits OpenMode.APPEND =? 0) in
  let excl_flag := negb (Z.land mode_bits OpenMode.EXCL =? 0) in
  let fat_mode := 0 in
  let fat_mode :=
    if read_flag && negb write_flag then uint8 FA_READ
    else if write_flag && negb read_flag then uint8 FA_WRITE
    else if read_flag && write_flag then uint8 (Z.lor FA_READ FA_WRITE)
    else fat_mode in
  let fat_mode :=
    if create_flag then
      if excl_flag then uint8 (Z.lor fat_mode FA_CREATE_NEW)
      else uint8 (Z.lor fat_mode FA_CREATE_ALWAYS)
    else if write_flag then uint8 (Z.lor fat_mode FA_OPEN_EXISTING)
    else fat_mode in
  let fat_mode :=
    if append_flag then uint8 (Z.lor fat_mode FA_OPEN_APPEND) else fat_mode in
  fat_mode.

Definition mount (fs : t) : M ffE (FSResult * t) :=
  if mounted_ fs then Ret (OK, fs)
  else
    res <- call (f_mount (Some (this fs)) (drive_path_ fs) 1) ;;
    if res =? FR_OK then Ret (OK, set_mounted fs true)
    else Ret (convert_fatfs_error res, fs).

Definition unmount (fs : t) : M ffE (FSResult * t) :=
  if negb (mounted_ fs) then Ret (OK, fs)
  else
    res <- call (f_mount None (drive_path_ fs) 0) ;;
    Ret (convert_fatfs_error res, set_mounted fs false).

(** The destructor [~FatFSImpl()]; the status of the unmount is dropped. *)
Definition destroy (fs : t) : M ffE t :=
  if mounted_ fs then
    '(_, fs) <- unmount fs ;;
    Ret fs
  else Ret fs.

Definition open (fs : t) (handle : FileHandle) (path : string) (mode : Z)
  : M ffE (FSResult * FileHandle) :=
  if negb (mounted_ fs) then Ret (ERROR_NOT_MOUNTED, handle)
  else if is_open handle then Ret (ERROR_BAD_FILE, handle)
  else
    let fat_mode := convert_open_mode mode in
    '(res, fp) <- call (f_open (fat_file handle) path fat_mode) ;;
    if res =? FR_OK then
      Ret (OK, {| is_open := true; fs_impl := Some (this fs); file_union := fp |})
    else Ret (convert_fatfs_error res, set_fat_file handle fp).

Definition close (fs : t) (handle : FileHandle) : M ffE (FSResult * FileHandle) :=
  if bad_file fs handle then Ret (ERROR_BAD_FILE, handle)
  else
    '(res, fp) <- call (f_close (fat_file handle)) ;;
    Ret (convert_fatfs_error res,
         {| is_open := false; fs_impl := None; file_union := fp |}).

Definition read (fs : t) (handle : FileHandle) (buffer : list byte) (size : Z)
    (bytes_read : Z) : M ffE (FSResult * FileHandle * list byte * Z) :=
  if bad_file fs handle then Ret (ERROR_BAD_FILE, handle, buffer, bytes_read)
  else
    '(res, fp, data, br) <- call (f_read (fat_file handle) (UINT size)) ;;
    Ret (convert_fatfs_error res, set_fat_file handle fp, data, br).

Definition write (fs : t) (handle : FileHandle) (buffer : list byte) (size : Z)
    (bytes_written : Z) : M ffE (FSResult * FileHandle * Z) :=
  if bad_file fs handle then Ret (ERROR_BAD_FILE, handle, bytes_written)
  else
    '(res, fp, bw) <- call (f_write (fat_file handle) buffer (UINT size)) ;;
    Ret (convert_fatfs_error res, set_fat_file handle fp, bw).

(** The [new_pos] the switch of [seek] computes; [None] is its [default]
    branch.  [-offset] is taken in 32-bit [int]. *)
Definition seek_new_pos (current_pos file_size : Z) (offset : Z) (origin : Z)
  : option Z :=
  switch origin
    [ (SeekOrigin.SET,
       Some (FSIZE_t (if offset >=? 0 then offset else 0)));
      (SeekOrigin.CUR,
       Some (if offset >=? 0 then FSIZE_t (current_pos + FSIZE_t offset)
             else
               let abs_offset := FSIZE_t (int32 (- offset)) in
               if current_pos >=? abs_offset then FSIZE_t (current_pos - abs_offset)
               else 0));
      (SeekOrigin.END,
       Some (if offset >=? 0 then FSIZE_t (file_size + FSIZE_t offset)
             else
               let abs_offset := FSIZE_t (int32 (- offset)) in
               if file_size >=? abs_offset then FSIZE_t (file_size - abs_offset)
               else 0)) ]
    None.

Definition seek (fs : t) (handle : FileHandle) (offset : Z) (origin : Z)
  : M ffE (FSResult * FileHandle) :=
  if bad_file fs handle then Ret (ERROR_BAD_FILE, handle)
  else
    current_pos <- call (f_tell (fat_file handle)) ;;
    file_size <- call (f_size (fat_file handle)) ;;
    match seek_new_pos current_pos file_size offset origin with
    | None => Ret (ERROR_INVALID, handle)
    | Some new_pos =>
        '(res, fp) <- call (f_lseek (fat_file handle) new_pos) ;;
        Ret (convert_fatfs_error res, set_fat_file handle fp)
    end.

Definition tell (fs : t) (handle : FileHandle) (position : Z)
  : M ffE (FSResult * FileHandle * Z) :=
  if bad_file fs handle then Ret (ERROR_BAD_FILE, handle, position)
  else
    pos <- call (f_tell (fat_file handle)) ;;
    Ret (OK, handle, uint32 pos).

Definition sync (fs : t) (handle : FileHandle) : M ffE (FSResult * FileHandle) :=
  if bad_file fs handle then Ret (ERROR_BAD_FILE, handle)
  else
    '(res, fp) <- call (f_sync (fat_file handle)) ;;
    Ret (convert_fatfs_error res, set_fat_file handle fp).

Definition truncate (fs : t) (handle : FileHandle) (size : Z)
  : M ffE (FSResult * FileHandle) :=
  if bad_file fs handle then Ret (ERROR_BAD_FILE, handle)
  else
    current_pos <- call (f_tell (fat_file handle)) ;;
    '(res, fp) <- call (f_lseek (fat_file handle) (FSIZE_t size)) ;;
    if negb (res =? FR_OK) then Ret (convert_fatfs_error res, set_fat_file handle fp)
    else
      '(res, fp) <- call (f_truncate fp) ;;
      if negb (res =? FR_OK) then Ret (convert_fatfs_error res, set_fat_file handle fp)
      else if current_pos <=? size then
        '(_, fp) <- call (f_lseek fp current_pos) ;;
        Ret (OK, set_fat_file handle fp)
      else Ret (OK, set_fat_file handle fp).

Definition remove (fs : t) (path : string) : M ffE FSResult :=
  if negb (mounted_ fs) then Ret ERROR_NOT_MOUNTED
  else
    res <- call (f_unlink path) ;;
    Ret (convert_fatfs_error res).

Definition rename (fs : t) (old_path new_path : string) : M ffE FSResult :=
  if negb (mounted_ fs) then Ret ERROR_NOT_MOUNTED
  else
    res <- call (f_rename old_path new_path) ;;
    Ret (convert_fatfs_error res).

(** [static_cast<uint32_t>(fno.fdate) << 16 | fno.ftime] *)
Definition packed_time (fno : FILINFO) : Z :=
  uint32 (Z.lor (uint32 (Z.shiftl (uint32 (fdate fno)) 16)) (ftime fno)).

Definition stat (fs : t) (path : string) (info : FileInfo) : M ffE (FSResult * FileInfo) :=
  if negb (mounted_ fs) then Ret (ERROR_NOT_MOUNTED, info)
  else
    '(res, fno) <- call (f_stat path) ;;
    if res =? FR_OK then
      let filename :=
        match strrchr_next "/"%char path with
        | Some next => next
        | None => path
        end in
      Ret (OK, {| name := strncpy (MAX_FILENAME_LENGTH - 1) filename;
                  size := uint32 (fsize fno);
                  is_directory := negb (Z.land (fattrib fno) AM_DIR =? 0);
                  modified_time := packed_time fno |})
    else Ret (convert_fatfs_error res, info).

Definition mkdir (fs : t) (path : string) : M ffE FSResult :=
  if negb (mounted_ fs) then Ret ERROR_NOT_MOUNTED
  else
    res <- call (f_mkdir path) ;;
    Ret (convert_fatfs_error res).

Definition rmdir (fs : t) (path : string) : M ffE FSResult :=
  if negb (mounted_ fs) then Ret ERROR_NOT_MOUNTED
  else
    res <- call (f_unlink path) ;;
    Ret (convert_fatfs_error res).

Definition opendir (fs : t) (handle : DirHandle) (path : string)
  : M ffE (FSResult * DirHandle) :=
  if negb (mounted_ fs) then Ret (ERROR_NOT_MOUNTED, handle)
  else if dir_is_open handle then Ret (ERROR_BAD_FILE, handle)
  else
    '(res, dp) <- call (f_opendir (fat_dir handle) path) ;;
    if res =? FR_OK then
      Ret (OK, {| dir_is_open := true; dir_fs_impl := Some (this fs); dir_union := dp |})
    else Ret (convert_fatfs_error res, set_fat_dir handle dp).

Definition closedir (fs : t) (handle : DirHandle) : M ffE (FSResult * DirHandle) :=
  if bad_dir fs handle then Ret (ERROR_BAD_FILE, handle)
  else
    '(res, dp) <- call (f_closedir (fat_dir handle)) ;;
    Ret (convert_fatfs_error res,
         {| dir_is_open := false; dir_fs_impl := None; dir_union := dp |}).

Definition readdir (fs : t) (handle : DirHandle) (info : FileInfo)
  : M ffE (FSResult * DirHandle * FileInfo) :=
  if bad_dir fs handle then Ret (ERROR_BAD_FILE, handle, info)
  else
    '(res, dp, fno) <- call (f_readdir (fat_dir handle)) ;;
    if res =? FR_OK then
      match fname fno with
      | EmptyString =>
          Ret (OK, set_fat_dir handle dp,
               {| name := EmptyString; size := size info;
                  is_directory := is_directory info;
                  modified_time := modified_time info |})
      | _ =>
          Ret (OK, set_fat_dir handle dp,
               {| name := strncpy (MAX_FILENAME_LENGTH - 1) (fname fno);
                  size := uint32 (fsize fno);
                  is_directory := negb (Z.land (fattrib fno) AM_DIR =? 0);
                  modified_time := packed_time fno |})
      end
    else Ret (convert_fatfs_error res, set_fat_dir handle dp, info).

Definition rewinddir (fs : t) (handle : DirHandle) : M ffE (FSResult * DirHandle) :=
  if bad_dir fs handle then Ret (ERROR_BAD_FILE, handle)
  else
    '(res, dp) <- call (f_rewinddir (fat_dir handle)) ;;
    Ret (convert_fatfs_error res, set_fat_dir handle dp).

Definition get_free_space (fs : t) (free_bytes : Z) : M ffE (FSResult * Z) :=
  if negb (mounted_ fs) then Ret (ERROR_NOT_MOUNTED, free_bytes)
  else
    '(res, free_clusters, fatfs) <- call (f_getfree (drive_path_ fs)) ;;
    if res =? FR_OK then
      Ret (OK, uint64 (uint64 (uint32 free_clusters * csize fatfs) * 512))
    else Ret (convert_fatfs_error res, free_bytes).

Definition get_total_space (fs : t) (total_bytes : Z) : M ffE (FSResult * Z) :=
  if negb (mounted_ fs) then Ret (ERROR_NOT_MOUNTED, total_bytes)
  else
    '(res, free_clusters, fatfs) <- call (f_getfree (drive_path_ fs)) ;;
    if res =? FR_OK then
      let total_clusters := uint32 (n_fatent fatfs - 2) in
      Ret (OK, uint64 (uint64 (total_clusters * csize fatfs) * 512))
    else Ret (convert_fatfs_error res, total_bytes).

End WithHeader.
End FatFSImpl.

(** ** Concrete headers and library stand-ins for concrete runs *)

(** The constants of littlefs's [lfs.h]. *)
Definition littlefs_h : lfs_h := {|
  LFS_ERR_OK := 0;
  LFS_ERR_IO := -5;
  LFS_ERR_CORRUPT := -84;
  LFS_ERR_NOENT := -2;
  LFS_ERR_EXIST := -17;
  LFS_ERR_NOTDIR := -20;
  LFS_ERR_ISDIR := -21;
  LFS_ERR_NOTEMPTY := -39;
  LFS_ERR_BADF := -9;
  LFS_ERR_FBIG := -27;
  LFS_ERR_NOSPC := -28;
  LFS_ERR_NOMEM := -12;
  LFS_ERR_INVAL := -22;
  LFS_O_RDONLY := 1;
  LFS_O_WRONLY := 2;
  LFS_O_RDWR := 3;
  LFS_O_CREAT := 0x0100;
  LFS_O_EXCL := 0x0200;
  LFS_O_TRUNC := 0x0400;
  LFS_O_APPEND := 0x0800;
  LFS_SEEK_SET := 0;
  LFS_SEEK_CUR := 1;
  LFS_SEEK_END := 2;
  LFS_TYPE_DIR := 0x002
|}.

(** The constants of FatFs's [ff.h], with 32-bit [FSIZE_t] and [UINT]. *)
Definition fatfs_h : ff_h := {|
  FR_OK := 0;
  FR_DISK_ERR := 1;
  FR_INT_ERR := 2;
  FR_NOT_READY := 3;
  FR_NO_FILE := 4;
  FR_NO_PATH := 5;
  FR_INVALID_NAME := 6;
  FR_DENIED := 7;
  FR_EXIST := 8;
  FR_INVALID_OBJECT := 9;
  FR_WRITE_PROTECTED := 10;
  FR_INVALID_DRIVE := 11;
  FR_NOT_ENABLED := 12;
  FR_NO_FILESYSTEM := 13;
  FR_MKFS_ABORTED := 14;
  FR_TIMEOUT := 15;
  FR_LOCKED := 16;
  FR_NOT_ENOUGH_CORE := 17;
  FR_TOO_MANY_OPEN_FILES := 18;
  FR_INVALID_PARAMETER := 19;
  FA_READ := 0x01;
  FA_WRITE := 0x02;
  FA_OPEN_EXISTING := 0x00;
  FA_CREATE_NEW := 0x04;
  FA_CREATE_ALWAYS := 0x08;
  FA_OPEN_APPEND := 0x30;
  AM_DIR := 0x10;
  FSIZE_bits := 32;
  UINT_bits := 32
|}.

(** The next status of a script of statuses; 0 once it is used up. *)
Definition next_code (script : list Z) : Z * list Z :=
  match script with
  | [] => (0, [])
  | c :: rest => (c, rest)
  end.

(** A littlefs stand-in that answers every call with the next status of
    its script and leaves the objects it is handed as they are. *)
Definition scripted_lfs : lib lfsE (list Z) :=
  fun X e =>
    match e in lfsE X return list Z -> X * list Z with
    | lfs_mount _ | lfs_format _ | lfs_unmount
    | lfs_remove _ | lfs_rename _ _ | lfs_mkdir _ | lfs_fs_size =>
        fun s => next_code s
    | lfs_file_open o _ _ | lfs_file_close o | lfs_file_write o _ _
    | lfs_file_seek o _ _ | lfs_file_tell o | lfs_file_sync o
    | lfs_file_truncate o _ | lfs_dir_open o _ | lfs_dir_close o
    | lfs_dir_rewind o =>
        fun s => let (c, rest) := next_code s in ((c, o), rest)
    | lfs_file_read o _ =>
        fun s => let (c, rest) := next_code s in ((c, o, []), rest)
    | lfs_stat _ =>
        fun s => let (c, rest) := next_code s in
                 ((c, mk_lfs_info 0 0 EmptyString), rest)
    | lfs_dir_read o =>
        fun s => let (c, rest) := next_code s in
                 ((c, o, mk_lfs_info 0 0 EmptyString), rest)
    end.

(** A FatFs stand-in with one file: a script of statuses, the file's
    read/write pointer and its size. *)
Record one_file : Type := mk_one_file {
  script : list Z;
  fptr : Z;
  objsize : Z
}.

Definition scripted_ff : lib ffE one_file :=
  fun X e =>
    match e in ffE X return one_file -> X * one_file with
    | f_mount _ _ _ | f_unlink _ | f_rename _ _ | f_mkdir _ =>
        fun s => let (c, rest) := next_code (script s) in
                 (c, mk_one_file rest (fptr s) (objsize s))
    | f_open o _ _ | f_close o | f_sync o
    | f_opendir o _ | f_closedir o | f_rewinddir o =>
        fun s => let (c, rest) := next_code (script s) in
                 ((c, o), mk_one_file rest (fptr s) (objsize s))
    | f_read o _ =>
        fun s => let (c, rest) := next_code (script s) in
                 ((c, o, [], 0), mk_one_file rest (fptr s) (objsize s))
    | f_write o _ _ =>
        fun s => let (c, rest) := next_code (script s) in
                 ((c, o, 0), mk_one_file rest (fptr s) (objsize s))
    | f_tell _ => fun s => (fptr s, s)
    | f_size _ => fun s => (objsize s, s)
    | f_lseek o ofs =>
        fun s => let (c, rest) := next_code (script s) in
                 ((c, o), mk_one_file rest (if c =? 0 then ofs else fptr s) (objsize s))
    | f_truncate o =>
        fun s => let (c, rest) := next_code (script s) in
                 ((c, o), mk_one_file rest (fptr s) (if c =? 0 then fptr s else objsize s))
    | f_stat _ =>
        fun s => let (c, rest) := next_code (script s) in
                 ((c, mk_FILINFO 0 0 0 0 EmptyString),
                  mk_one_file rest (fptr s) (objsize s))
    | f_readdir o =>
        fun s => let (c, rest) := next_code (script s) in
                 ((c, o, mk_FILINFO 0 0 0 0 EmptyString),
                  mk_one_file rest (fptr s) (objsize s))
    | f_getfree _ =>
        fun s => let (c, rest) := next_code (script s) in
                 ((c, 0, mk_FATFS 0 0), mk_one_file rest (fptr s) (objsize s))
    end.

(** The case labels of the two error switches, in source order. *)
Definition lfs_error_labels {lfsh : lfs_h} : list Z :=
  [ LFS_ERR_OK; LFS_ERR_IO; LFS_ERR_CORRUPT; LFS_ERR_NOENT; LFS_ERR_EXIST;
    LFS_ERR_NOTDIR; LFS_ERR_ISDIR; LFS_ERR_NOTEMPTY; LFS_ERR_BADF;
    LFS_ERR_FBIG; LFS_ERR_NOSPC; LFS_ERR_NOMEM; LFS_ERR_INVAL ].

Definition fatfs_error_labels {ffh : ff_h} : list Z :=
  [ FR_OK; FR_DISK_ERR; FR_INT_ERR; FR_NOT_READY; FR_NO_FILE; FR_NO_PATH;
    FR_INVALID_NAME; FR_DENIED; FR_EXIST; FR_INVALID_OBJECT;
    FR_WRITE_PROTECTED; FR_INVALID_DRIVE; FR_NOT_ENABLED; FR_NO_FILESYSTEM;
    FR_MKFS_ABORTED; FR_TIMEOUT; FR_LOCKED; FR_NOT_ENOUGH_CORE;
    FR_TOO_MANY_OPEN_FILES; FR_INVALID_PARAMETER ].

(** Whether flag word [w] has every bit of [flag]. *)
Definition has_flag (w flag : Z) : Prop := Z.land w flag = flag.

(** Objects for concrete runs: a 128-block volume, adapters at addresses
    1 and 2 in both mount states, and a file and a directory handle each
    adapter owns. *)
Definition config0 : lfs_config_t := mk_lfs_config 4096 128.

Definition lfs0 : LittleFSImpl.t := LittleFSImpl.new 1%N (Some config0).
Definition lfs0_mounted : LittleFSImpl.t := LittleFSImpl.set_mounted lfs0 true.
Definition lfs_null : LittleFSImpl.t := LittleFSImpl.new 1%N None.

Definition fat0 : FatFSImpl.t := FatFSImpl.new 2%N None.
Definition fat0_mounted : FatFSImpl.t := FatFSImpl.set_mounted fat0 true.

Definition lfs_handle : FileHandle := mkFileHandle true (Some 1%N) [].
Definition fat_handle : FileHandle := mkFileHandle true (Some 2%N) [].
Definition lfs_dirhandle : DirHandle := mkDirHandle true (Some 1%N) [].
Definition fat_dirhandle : DirHandle := mkDirHandle true (Some 2%N) [].

(** States of the one-file library: the pointer at 4 or at 60 in a file of
    100 bytes, and what seeks and truncations below turn them into. *)
Definition at4 : one_file := mk_one_file [] 4 100.
Definition at0 : one_file := mk_one_file [] 0 100.
Definition at50 : one_file := mk_one_file [] 50 100.
Definition at60 : one_file := mk_one_file [] 60 100.
Definition cut50_at50 : one_file := mk_one_file [] 50 50.
Definition cut50_at4 : one_file := mk_one_file [] 4 50.

(** The FatFs mode flags fit the [BYTE] they are stored in. *)
Definition fa_flags_are_bytes {ffh : ff_h} : bool :=
  forallb (fun f => (0 <=? f) && (f <? 256))
    [ FA_READ; FA_WRITE; FA_OPEN_EXISTING; FA_CREATE_NEW; FA_CREATE_ALWAYS;
      FA_OPEN_APPEND ].

(** [LFS_O_TRUNC] is a flag of its own: not zero, and sharing no bit with
    the access, create and append flags. *)
Definition lfs_trunc_is_separate {lfsh : lfs_h} : bool :=
  negb (LFS_O_TRUNC =? 0) &&
  forallb (fun f => Z.land f LFS_O_TRUNC =? 0)
    [ LFS_O_RDONLY; LFS_O_WRONLY; LFS_O_RDWR; LFS_O_CREAT; LFS_O_APPEND ].

(** A mounted flash-log adapter has a configuration. *)
Definition lfs_config_ok (fs : LittleFSImpl.t) : bool :=
  negb (LittleFSImpl.mounted_ fs) ||
  match LittleFSImpl.config_ fs with
  | Some _ => true
  | None => false
  end.

(** An adapter refuses a file handle: each of its seven file operations
    returns [ERROR_BAD_FILE] without a native call and changes nothing. *)
Definition lfs_refuses {lfsh : lfs_h} (fs : LittleFSImpl.t) (h : FileHandle) : Prop :=
  silent (LittleFSImpl.close fs h) (ERROR_BAD_FILE, h) /\
  (forall buffer size bytes_read,
     silent (LittleFSImpl.read fs h buffer size bytes_read)
            (ERROR_BAD_FILE, h, buffer, bytes_read)) /\
  (forall buffer size bytes_written,
     silent (LittleFSImpl.write fs h buffer size bytes_written)
            (ERROR_BAD_FILE, h, bytes_written)) /\
  (forall offset origin,
     silent (LittleFSImpl.seek fs h offset origin) (ERROR_BAD_FILE, h)) /\
  (forall position,
     silent (LittleFSImpl.tell fs h position) (ERROR_BAD_FILE, h, position)) /\
  silent (LittleFSImpl.sync fs h) (ERROR_BAD_FILE, h) /\
  (forall size,
     silent (LittleFSImpl.truncate fs h size) (ERROR_BAD_FILE, h)).

Definition fat_refuses {ffh : ff_h} (fs : FatFSImpl.t) (h : FileHandle) : Prop :=
  silent (FatFSImpl.close fs h) (ERROR_BAD_FILE, h) /\
  (forall buffer size bytes_read,
     silent (FatFSImpl.read fs h buffer size bytes_read)
            (ERROR_BAD_FILE, h, buffer, bytes_read)) /\
  (forall buffer size bytes_written,
     silent (FatFSImpl.write fs h buffer size bytes_written)
            (ERROR_BAD_FILE, h, bytes_written)) /\
  (forall offset origin,
     silent (FatFSImpl.seek fs h offset origin) (ERROR_BAD_FILE, h)) /\
  (forall position,
     silent (FatFSImpl.tell fs h position) (ERROR_BAD_FILE, h, position)) /\
  silent (FatFSImpl.sync fs h) (ERROR_BAD_FILE, h) /\
  (forall size,
     silent (FatFSImpl.truncate fs h size) (ERROR_BAD_FILE, h)).


(** The flag layout of littlefs: the access flags fit in a byte, the
    create, exclusive, truncate and append flags have no bit below bit 8. *)
Definition lfs_flags_above_byte {lfsh : lfs_h} : bool :=
  forallb (fun f => (0 <=? f) && (f <? 256)) [ LFS_O_RDONLY; LFS_O_WRONLY; LFS_O_RDWR ] &&
  forallb (fun f => Z.land f 255 =? 0)
    [ LFS_O_CREAT; LFS_O_EXCL; LFS_O_TRUNC; LFS_O_APPEND ].

(** More objects for concrete runs: closed handles, a second flash-log
    adapter at address 3, and library states with scripted statuses. *)
Definition closed_handle : FileHandle := FileHandle_new [].
Definition closed_dirhandle : DirHandle := DirHandle_new [].
Definition lfs_other : LittleFSImpl.t :=
  LittleFSImpl.set_mounted (LittleFSImpl.new 3%N (Some config0)) true.
Definition ff_script (codes : list Z) : one_file := mk_one_file codes 0 0.

(** Pairwise distinct labels, as a check that runs. *)
Fixpoint distinct (l : list Z) : bool :=
  match l with
  | [] => true
  | x :: rest => negb (existsb (Z.eqb x) rest) && distinct rest
  end.

(** * Properties *)

(** ** Running programs *)

Lemma run_call {E : Type -> Type} {S A X : Type} (L : lib E S) (e : E X)
    (f : X -> M E A) (s s1 : S) (x : X) :
  L _ e s = (x, s1) ->
  run L (bind (call e) f) s =
    (let '(r, s2, tr) := run L (f x) s1 in (r, s2, Ev e x :: tr)).
Proof.
  intros HL. simpl. rewrite HL. reflexivity.
Qed.

Lemma silent_ret {E : Type -> Type} {A : Type} (a : A) : silent (E := E) (Ret a) a.
Proof.
  intros S L s. reflexivity.
Qed.

(** ** Pointers and the handle check *)

Lemma ptr_eqb_eq (p q : impl_ptr) : ptr_eqb p q = true <-> p = q.
Proof.
  destruct p as [a|], q as [b|]; simpl; split; intros H;
    try discriminate; try reflexivity.
  - apply N.eqb_eq in H. now subst.
  - inversion H. apply N.eqb_refl.
Qed.

Lemma ptr_eqb_refl (p : impl_ptr) : ptr_eqb p p = true.
Proof.
  now apply ptr_eqb_eq.
Qed.

Lemma ptr_eqb_neq (p q : impl_ptr) : p <> q -> ptr_eqb p q = false.
Proof.
  intros Hne. destruct (ptr_eqb p q) eqn:Heq; [|reflexivity].
  apply ptr_eqb_eq in Heq. contradiction.
Qed.

Lemma lfs_bad_file_stale (fs : LittleFSImpl.t) (h : FileHandle) :
  is_open h = false \/ fs_impl h <> Some (LittleFSImpl.this fs) ->
  LittleFSImpl.bad_file fs h = true.
Proof.
  unfold LittleFSImpl.bad_file. intros [Hc | Hne].
  - now rewrite Hc.
  - rewrite (ptr_eqb_neq Hne). apply orb_true_r.
Qed.

Lemma lfs_bad_dir_stale (fs : LittleFSImpl.t) (d : DirHandle) :
  dir_is_open d = false \/ dir_fs_impl d <> Some (LittleFSImpl.this fs) ->
  LittleFSImpl.bad_dir fs d = true.
Proof.
  unfold LittleFSImpl.bad_dir. intros [Hc | Hne].
  - now rewrite Hc.
  - rewrite (ptr_eqb_neq Hne). apply orb_true_r.
Qed.

Lemma fat_bad_file_stale (fs : FatFSImpl.t) (h : FileHandle) :
  is_open h = false \/ fs_impl h <> Some (FatFSImpl.this fs) ->
  FatFSImpl.bad_file fs h = true.
Proof.
  unfold FatFSImpl.bad_file. intros [Hc | Hne].
  - now rewrite Hc.
  - rewrite (ptr_eqb_neq Hne). apply orb_true_r.
Qed.

Lemma fat_bad_dir_stale (fs : FatFSImpl.t) (d : DirHandle) :
  dir_is_open d = false \/ dir_fs_impl d <> Some (FatFSImpl.this fs) ->
  FatFSImpl.bad_dir fs d = true.
Proof.
  unfold FatFSImpl.bad_dir. intros [Hc | Hne].
  - now rewrite Hc.
  - rewrite (ptr_eqb_neq Hne). apply orb_true_r.
Qed.

Lemma lfs_bad_file_owned (fs : LittleFSImpl.t) (h : FileHandle) :
  is_open h = true -> fs_impl h = Some (LittleFSImpl.this fs) ->
  LittleFSImpl.bad_file fs h = false.
Proof.
  unfold LittleFSImpl.bad_file. intros -> ->. now rewrite ptr_eqb_refl.
Qed.

Lemma lfs_bad_dir_owned (fs : LittleFSImpl.t) (d : DirHandle) :
  dir_is_open d = true -> dir_fs_impl d = Some (LittleFSImpl.this fs) ->
  LittleFSImpl.bad_dir fs d = false.
Proof.
  unfold LittleFSImpl.bad_dir. intros -> ->. now rewrite ptr_eqb_refl.
Qed.

Lemma fat_bad_file_owned (fs : FatFSImpl.t) (h : FileHandle) :
  is_open h = true -> fs_impl h = Some (FatFSImpl.this fs) ->
  FatFSImpl.bad_file fs h = false.
Proof.
  unfold FatFSImpl.bad_file. intros -> ->. now rewrite ptr_eqb_refl.
Qed.

Lemma fat_bad_dir_owned (fs : FatFSImpl.t) (d : DirHandle) :
  dir_is_open d = true -> dir_fs_impl d = Some (FatFSImpl.this fs) ->
  FatFSImpl.bad_dir fs d = false.
Proof.
  unfold FatFSImpl.bad_dir. intros -> ->. now rewrite ptr_eqb_refl.
Qed.

(** ** The switch *)

Lemma distinct_NoDup (l : list Z) : distinct l = true -> NoDup l.
Proof.
  induction l as [|x rest IH]; simpl; intros H.
  - constructor.
  - apply andb_true_iff in H. destruct H as [Hx Hrest].
    constructor; [|now apply IH].
    intros Hin. apply negb_true_iff in Hx.
    assert (existsb (Z.eqb x) rest = true) as Hex.
    { apply existsb_exists. exists x. split; [assumption | apply Z.eqb_refl]. }
    congruence.
Qed.

Lemma switch_default {A : Type} (x : Z) (cases : list (Z * A)) (d : A) :
  ~ In x (map fst cases) -> switch x cases d = d.
Proof.
  induction cases as [|[l a] rest IH]; simpl; intros Hn.
  - reflexivity.
  - destruct (Z.eqb_spec x l) as [-> | Hne].
    + exfalso. apply Hn. now left.
    + apply IH. intros Hin. apply Hn. now right.
Qed.

Lemma switch_hit {A : Type} (x : Z) (a : A) (cases : list (Z * A)) (d : A) :
  NoDup (map fst cases) -> In (x, a) cases -> switch x cases d = a.
Proof.
  induction cases as [|[l b] rest IH]; simpl; intros Hnd Hin.
  - contradiction.
  - inversion Hnd as [|? ? Hnotin Hnd']; subst.
    destruct Hin as [Heq | Hin].
    + inversion Heq; subst. now rewrite Z.eqb_refl.
    + destruct (Z.eqb_spec x l) as [-> | Hne].
      * exfalso. apply Hnotin. change l with (fst (l, a)). now apply in_map.
      * now apply IH.
Qed.

Lemma switch_cases {A : Type} (x : Z) (cases : list (Z * A)) (d : A) :
  In (x, switch x cases d) cases \/ switch x cases d = d.
Proof.
  induction cases as [|[l b] rest IH]; simpl.
  - now right.
  - destruct (Z.eqb_spec x l) as [-> | Hne].
    + left. now left.
    + destruct IH as [Hin | Hd]; [left; now right | now right].
Qed.

(** ** Error translation *)

Section ErrorTranslation.
Context {lfsh : lfs_h} {ffh : ff_h}.

(** C7.  Both error translators are total functions giving each native
    status one result.  With the case labels of each switch pairwise
    distinct: native OK gives [OK]; the resource-exhaustion statuses
    (out of memory, working buffer not allocated, too many open files) give
    [ERROR_NO_MEM]; denied, write-protected and locked give
    [ERROR_INVALID]; a status that is no case label gives [ERROR_IO]; and
    no status other than native OK gives [OK]. *)
Theorem error_translation_total :
  distinct lfs_error_labels = true ->
  distinct fatfs_error_labels = true ->
  (forall c : Z, exists r : FSResult,
      LittleFSImpl.convert_lfs_error c = r /\
      forall r' : FSResult, LittleFSImpl.convert_lfs_error c = r' -> r' = r) /\
  (forall c : Z, exists r : FSResult,
      FatFSImpl.convert_fatfs_error c = r /\
      forall r' : FSResult, FatFSImpl.convert_fatfs_error c = r' -> r' = r) /\
  LittleFSImpl.convert_lfs_error LFS_ERR_OK = OK /\
  FatFSImpl.convert_fatfs_error FR_OK = OK /\
  LittleFSImpl.convert_lfs_error LFS_ERR_NOMEM = ERROR_NO_MEM /\
  FatFSImpl.convert_fatfs_error FR_NOT_ENOUGH_CORE = ERROR_NO_MEM /\
  FatFSImpl.convert_fatfs_error FR_TOO_MANY_OPEN_FILES = ERROR_NO_MEM /\
  FatFSImpl.convert_fatfs_error FR_DENIED = ERROR_INVALID /\
  FatFSImpl.convert_fatfs_error FR_WRITE_PROTECTED = ERROR_INVALID /\
  FatFSImpl.convert_fatfs_error FR_LOCKED = ERROR_INVALID /\
  (forall c : Z, ~ In c lfs_error_labels ->
      LittleFSImpl.convert_lfs_error c = ERROR_IO) /\
  (forall c : Z, ~ In c fatfs_error_labels ->
      FatFSImpl.convert_fatfs_error c = ERROR_IO) /\
  (forall c : Z, c <> LFS_ERR_OK -> LittleFSImpl.convert_lfs_error c <> OK) /\
  (forall c : Z, c <> FR_OK -> FatFSImpl.convert_fatfs_error c <> OK).
Proof.
  intros Hl Hf.
  apply distinct_NoDup in Hl. apply distinct_NoDup in Hf.
  repeat match goal with |- _ /\ _ => split end.
  - intros c. eexists. split; [reflexivity | congruence].
  - intros c. eexists. split; [reflexivity | congruence].
  - unfold LittleFSImpl.convert_lfs_error. apply switch_hit; simpl; auto.
  - unfold FatFSImpl.convert_fatfs_error. apply switch_hit; simpl; auto.
  - unfold LittleFSImpl.convert_lfs_error. apply switch_hit; simpl; auto 20.
  - unfold FatFSImpl.convert_fatfs_error. apply switch_hit; simpl; auto 30.
  - unfold FatFSImpl.convert_fatfs_error. apply switch_hit; simpl; auto 30.
  - unfold FatFSImpl.convert_fatfs_error. apply switch_hit; simpl; auto 30.
  - unfold FatFSImpl.convert_fatfs_error. apply switch_hit; simpl; auto 30.
  - unfold FatFSImpl.convert_fatfs_error. apply switch_hit; simpl; auto 30.
  - intros c Hc. unfold LittleFSImpl.convert_lfs_error.
    apply switch_default. exact Hc.
  - intros c Hc. unfold FatFSImpl.convert_fatfs_error.
    apply switch_default. exact Hc.
  - intros c Hc Hok. unfold LittleFSImpl.convert_lfs_error in Hok.
    match type of Hok with switch ?x ?cs ?d = _ =>
      destruct (switch_cases x cs d) as [Hin | Hd] end.
    + rewrite Hok in Hin. simpl in Hin.
      repeat (destruct Hin as [Hin | Hin]; [inversion Hin; congruence|]).
      contradiction.
    + rewrite Hok in Hd. discriminate.
  - intros c Hc Hok. unfold FatFSImpl.convert_fatfs_error in Hok.
    match type of Hok with switch ?x ?cs ?d = _ =>
      destruct (switch_cases x cs d) as [Hin | Hd] end.
    + rewrite Hok in Hin. simpl in Hin.
      repeat (destruct Hin as [Hin | Hin]; [inversion Hin; congruence|]).
      contradiction.
    + rewrite Hok in Hd. discriminate.
Qed.

End ErrorTranslation.

Lemma error_translation_total_witness :
  LittleFSImpl.convert_lfs_error (lfsh := littlefs_h) (-12) = ERROR_NO_MEM /\
  FatFSImpl.convert_fatfs_error (ffh := fatfs_h) 16 = ERROR_INVALID /\
  LittleFSImpl.convert_lfs_error (lfsh := littlefs_h) (-61) = ERROR_IO /\
  FatFSImpl.convert_fatfs_error (ffh := fatfs_h) 20 = ERROR_IO.
Proof.
  destruct (@error_translation_total littlefs_h fatfs_h eq_refl eq_refl)
    as (_ & _ & _ & _ & Hnomem & _ & _ & _ & _ & Hlocked & Hlfs & Hfat & _ & _).
  split; [exact Hnomem|].
  split; [exact Hlocked|].
  split.
  - apply Hlfs. vm_compute. intuition discriminate.
  - apply Hfat. vm_compute. intuition discriminate.
Defined.

(** ** Mounting *)

Section Adapters.
Context {lfsh : lfs_h} {ffh : ff_h}.

(** C9.  For both adapters, [unmount] on an unmounted adapter returns [OK]
    without any native call and leaves it unmounted, and [mount] on a
    mounted adapter returns [OK] without any native call and leaves it
    mounted. *)
Theorem mount_unmount_idempotent (lfs : LittleFSImpl.t) (fat : FatFSImpl.t) :
  (LittleFSImpl.mounted_ lfs = false ->
     silent (LittleFSImpl.unmount lfs) (OK, lfs)) /\
  (LittleFSImpl.mounted_ lfs = true ->
     silent (LittleFSImpl.mount lfs) (OK, lfs)) /\
  (FatFSImpl.mounted_ fat = false ->
     silent (FatFSImpl.unmount fat) (OK, fat)) /\
  (FatFSImpl.mounted_ fat = true ->
     silent (FatFSImpl.mount fat) (OK, fat)).
Proof.
  repeat split; intros Hm S L s.
  - unfold LittleFSImpl.unmount. rewrite Hm. reflexivity.
  - unfold LittleFSImpl.mount. rewrite Hm. reflexivity.
  - unfold FatFSImpl.unmount. rewrite Hm. reflexivity.
  - unfold FatFSImpl.mount. rewrite Hm. reflexivity.
Qed.

(** C3.  Mounting an unmounted flash-log adapter that has a configuration.
    The native mount is called first.  If it answers OK the adapter is
    mounted and returns [OK].  If it answers anything but OK and corrupt,
    that status is translated and returned and the adapter stays
    unmounted.  If it answers corrupt, the volume is formatted once; a
    failed format is translated and returned, unmounted; after a
    successful format the native mount is called once more, and its answer
    decides: OK mounts and returns [OK], the same result as a clean mount,
    anything else is translated and returned, unmounted.  No other native
    call is made. *)
Theorem mount_reformats_once_on_corrupt (S : Type) (L : lib lfsE S) (s s1 : S)
    (fs : LittleFSImpl.t) (config : lfs_config_t) (r1 : Z) :
  LittleFSImpl.mounted_ fs = false ->
  LittleFSImpl.config_ fs = Some config ->
  L _ (lfs_mount config) s = (r1, s1) ->
  (r1 = LFS_ERR_OK ->
     run L (LittleFSImpl.mount fs) s =
       (Some (OK, LittleFSImpl.set_mounted fs true), s1,
        [Ev (lfs_mount config) r1])) /\
  (r1 <> LFS_ERR_OK -> r1 <> LFS_ERR_CORRUPT ->
     run L (LittleFSImpl.mount fs) s =
       (Some (LittleFSImpl.convert_lfs_error r1, fs), s1,
        [Ev (lfs_mount config) r1])) /\
  (r1 <> LFS_ERR_OK -> r1 = LFS_ERR_CORRUPT ->
     forall (r2 : Z) (s2 : S),
       L _ (lfs_format config) s1 = (r2, s2) ->
       (r2 <> LFS_ERR_OK ->
          run L (LittleFSImpl.mount fs) s =
            (Some (LittleFSImpl.convert_lfs_error r2, fs), s2,
             [Ev (lfs_mount config) r1; Ev (lfs_format config) r2])) /\
       (r2 = LFS_ERR_OK ->
          forall (r3 : Z) (s3 : S),
            L _ (lfs_mount config) s2 = (r3, s3) ->
            (r3 = LFS_ERR_OK ->
               run L (LittleFSImpl.mount fs) s =
                 (Some (OK, LittleFSImpl.set_mounted fs true), s3,
                  [Ev (lfs_mount config) r1; Ev (lfs_format config) r2;
                   Ev (lfs_mount config) r3])) /\
            (r3 <> LFS_ERR_OK ->
               run L (LittleFSImpl.mount fs) s =
                 (Some (LittleFSImpl.convert_lfs_error r3, fs), s3,
                  [Ev (lfs_mount config) r1; Ev (lfs_format config) r2;
                   Ev (lfs_mount config) r3])))).
Proof.
  intros Hm Hc H1.
  unfold LittleFSImpl.mount. rewrite Hm, Hc.
  rewrite (run_call L _ _ s H1).
  split; [|split].
  - intros ->. rewrite Z.eqb_refl. reflexivity.
  - intros Hok Hcor.
    apply Z.eqb_neq in Hok. apply Z.eqb_neq in Hcor.
    rewrite Hok, Hcor. reflexivity.
  - intros Hok Hcor r2 s2 H2.
    apply Z.eqb_neq in Hok. rewrite Hok.
    apply Z.eqb_eq in Hcor. rewrite Hcor.
    rewrite (run_call L _ _ s1 H2).
    split.
    + intros Hok2. apply Z.eqb_neq in Hok2. rewrite Hok2. reflexivity.
    + intros Hok2 r3 s3 H3. apply Z.eqb_eq in Hok2. rewrite Hok2.
      rewrite (run_call L _ _ s2 H3).
      split.
      * intros ->. rewrite Z.eqb_refl. reflexivity.
      * intros Hok3. apply Z.eqb_neq in Hok3. rewrite Hok3. reflexivity.
Qed.

End Adapters.

Lemma mount_unmount_idempotent_witness :
  silent (LittleFSImpl.unmount (lfsh := littlefs_h) lfs0) (OK, lfs0) /\
  silent (LittleFSImpl.mount (lfsh := littlefs_h) lfs0_mounted) (OK, lfs0_mounted) /\
  silent (FatFSImpl.unmount (ffh := fatfs_h) fat0) (OK, fat0) /\
  silent (FatFSImpl.mount (ffh := fatfs_h) fat0_mounted) (OK, fat0_mounted).
Proof.
  destruct (@mount_unmount_idempotent littlefs_h fatfs_h lfs0 fat0)
    as (Hlu & _ & Hfu & _).
  destruct (@mount_unmount_idempotent littlefs_h fatfs_h lfs0_mounted fat0_mounted)
    as (_ & Hlm & _ & Hfm).
  split; [apply Hlu; reflexivity|].
  split; [apply Hlm; reflexivity|].
  split; [apply Hfu; reflexivity|].
  apply Hfm; reflexivity.
Defined.

Lemma mount_reformats_once_on_corrupt_witness :
  run scripted_lfs (LittleFSImpl.mount (lfsh := littlefs_h) lfs0) [-84; 0; 0] =
    (Some (OK, lfs0_mounted), [],
     [Ev (lfs_mount config0) (-84); Ev (lfs_format config0) 0;
      Ev (lfs_mount config0) 0]).
Proof.
  destruct (@mount_reformats_once_on_corrupt littlefs_h (list Z) scripted_lfs
              [-84; 0; 0] [0; 0] lfs0 config0 (-84) eq_refl eq_refl eq_refl)
    as (_ & _ & Hcorrupt).
  assert (-84 <> @LFS_ERR_OK littlefs_h) as Hne by (simpl; lia).
  destruct (Hcorrupt Hne eq_refl 0 [0] eq_refl) as (_ & Hformatted).
  destruct (Hformatted eq_refl 0 [] eq_refl) as (Hmounted & _).
  exact (Hmounted eq_refl).
Defined.

(** ** Handles *)

Section Handles.
Context {lfsh : lfs_h} {ffh : ff_h}.

(** The flash-log adapter refuses a file handle it does not hold open. *)
Lemma lfs_file_ops_refuse (lfs : LittleFSImpl.t) (h : FileHandle) :
  is_open h = false \/ fs_impl h <> Some (LittleFSImpl.this lfs) ->
  silent (LittleFSImpl.close lfs h) (ERROR_BAD_FILE, h) /\
  (forall buffer size bytes_read,
     silent (LittleFSImpl.read lfs h buffer size bytes_read)
            (ERROR_BAD_FILE, h, buffer, bytes_read)) /\
  (forall buffer size bytes_written,
     silent (LittleFSImpl.write lfs h buffer size bytes_written)
            (ERROR_BAD_FILE, h, bytes_written)) /\
  (forall offset origin,
     silent (LittleFSImpl.seek lfs h offset origin) (ERROR_BAD_FILE, h)) /\
  (forall position,
     silent (LittleFSImpl.tell lfs h position) (ERROR_BAD_FILE, h, position)) /\
  silent (LittleFSImpl.sync lfs h) (ERROR_BAD_FILE, h) /\
  (forall size,
     silent (LittleFSImpl.truncate lfs h size) (ERROR_BAD_FILE, h)).
Proof.
  intros Hstale. apply lfs_bad_file_stale in Hstale.
  unfold LittleFSImpl.close, LittleFSImpl.read, LittleFSImpl.write,
    LittleFSImpl.seek, LittleFSImpl.tell, LittleFSImpl.sync,
    LittleFSImpl.truncate.
  rewrite Hstale. repeat split; intros; apply silent_ret.
Qed.

(** And a directory handle it does not hold open. *)
Lemma lfs_dir_ops_refuse (lfs : LittleFSImpl.t) (d : DirHandle) :
  dir_is_open d = false \/ dir_fs_impl d <> Some (LittleFSImpl.this lfs) ->
  silent (LittleFSImpl.closedir lfs d) (ERROR_BAD_FILE, d) /\
  (forall info,
     silent (LittleFSImpl.readdir lfs d info) (ERROR_BAD_FILE, d, info)) /\
  silent (LittleFSImpl.rewinddir lfs d) (ERROR_BAD_FILE, d).
Proof.
  intros Hstale. apply lfs_bad_dir_stale in Hstale.
  unfold LittleFSImpl.closedir, LittleFSImpl.readdir, LittleFSImpl.rewinddir.
  rewrite Hstale. repeat split; intros; apply silent_ret.
Qed.

(** C1.  In both adapters, each of close, read, write, seek, tell, sync,
    truncate, closedir, readdir and rewinddir, given a handle that is not
    open or whose [fs_impl] is not the adapter performing the call,
    returns [ERROR_BAD_FILE] without any native call and leaves the handle
    and the caller's output variables as they were.  The check depends on
    the handle alone, so it holds after any earlier calls. *)
Theorem handle_check_first (lfs : LittleFSImpl.t) (fat : FatFSImpl.t) :
  (forall h : FileHandle,
     is_open h = false \/ fs_impl h <> Some (LittleFSImpl.this lfs) ->
     silent (LittleFSImpl.close lfs h) (ERROR_BAD_FILE, h) /\
     (forall buffer size bytes_read,
        silent (LittleFSImpl.read lfs h buffer size bytes_read)
               (ERROR_BAD_FILE, h, buffer, bytes_read)) /\
     (forall buffer size bytes_written,
        silent (LittleFSImpl.write lfs h buffer size bytes_written)
               (ERROR_BAD_FILE, h, bytes_written)) /\
     (forall offset origin,
        silent (LittleFSImpl.seek lfs h offset origin) (ERROR_BAD_FILE, h)) /\
     (forall position,
        silent (LittleFSImpl.tell lfs h position) (ERROR_BAD_FILE, h, position)) /\
     silent (LittleFSImpl.sync lfs h) (ERROR_BAD_FILE, h) /\
     (forall size,
        silent (LittleFSImpl.truncate lfs h size) (ERROR_BAD_FILE, h))) /\
  (forall d : DirHandle,
     dir_is_open d = false \/ dir_fs_impl d <> Some (LittleFSImpl.this lfs) ->
     silent (LittleFSImpl.closedir lfs d) (ERROR_BAD_FILE, d) /\
     (forall info,
        silent (LittleFSImpl.readdir lfs d info) (ERROR_BAD_FILE, d, info)) /\
     silent (LittleFSImpl.rewinddir lfs d) (ERROR_BAD_FILE, d)) /\
  (forall h : FileHandle,
     is_open h = false \/ fs_impl h <> Some (FatFSImpl.this fat) ->
     silent (FatFSImpl.close fat h) (ERROR_BAD_FILE, h) /\
     (forall buffer size bytes_read,
        silent (FatFSImpl.read fat h buffer size bytes_read)
               (ERROR_BAD_FILE, h, buffer, bytes_read)) /\
     (forall buffer size bytes_written,
        silent (FatFSImpl.write fat h buffer size bytes_written)
               (ERROR_BAD_FILE, h, bytes_written)) /\
     (forall offset origin,
        silent (FatFSImpl.seek fat h offset origin) (ERROR_BAD_FILE, h)) /\
     (forall position,
        silent (FatFSImpl.tell fat h position) (ERROR_BAD_FILE, h, position)) /\
     silent (FatFSImpl.sync fat h) (ERROR_BAD_FILE, h) /\
     (forall size,
        silent (FatFSImpl.truncate fat h size) (ERROR_BAD_FILE, h))) /\
  (forall d : DirHandle,
     dir_is_open d = false \/ dir_fs_impl d <> Some (FatFSImpl.this fat) ->
     silent (FatFSImpl.closedir fat d) (ERROR_BAD_FILE, d) /\
     (forall info,
        silent (FatFSImpl.readdir fat d info) (ERROR_BAD_FILE, d, info)) /\
     silent (FatFSImpl.rewinddir fat d) (ERROR_BAD_FILE, d)).
Proof.
  split; [|split; [|split]].
  - intros h Hstale. now apply lfs_file_ops_refuse.
  - intros d Hstale. now apply lfs_dir_ops_refuse.
  - intros h Hstale. apply fat_bad_file_stale in Hstale.
    unfold FatFSImpl.close, FatFSImpl.read, FatFSImpl.write, FatFSImpl.seek,
      FatFSImpl.tell, FatFSImpl.sync, FatFSImpl.truncate.
    rewrite Hstale. repeat split; intros; apply silent_ret.
  - intros d Hstale. apply fat_bad_dir_stale in Hstale.
    unfold FatFSImpl.closedir, FatFSImpl.readdir, FatFSImpl.rewinddir.
    rewrite Hstale. repeat split; intros; apply silent_ret.
Qed.

(** C8.  In both adapters, close and closedir on an open handle the
    adapter owns make the one native close call and, whatever status it
    answers, return that status translated together with the handle
    closed and its [fs_impl] null; closing that handle again returns
    [ERROR_BAD_FILE] without a native call and leaves it closed. *)
Theorem close_always_releases :
  (forall (S : Type) (L : lib lfsE S) (s s1 : S) (fs : LittleFSImpl.t)
          (h : FileHandle) (res : Z) (file : storage),
     is_open h = true -> fs_impl h = Some (LittleFSImpl.this fs) ->
     L _ (lfs_file_close (lfs_file h)) s = ((res, file), s1) ->
     let h' := {| is_open := false; fs_impl := None; file_union := file |} in
     run L (LittleFSImpl.close fs h) s =
       (Some (LittleFSImpl.convert_lfs_error res, h'), s1,
        [Ev (lfs_file_close (lfs_file h)) (res, file)]) /\
     run L (LittleFSImpl.close fs h') s1 = (Some (ERROR_BAD_FILE, h'), s1, [])) /\
  (forall (S : Type) (L : lib lfsE S) (s s1 : S) (fs : LittleFSImpl.t)
          (d : DirHandle) (res : Z) (dir : storage),
     dir_is_open d = true -> dir_fs_impl d = Some (LittleFSImpl.this fs) ->
     L _ (lfs_dir_close (lfs_dir d)) s = ((res, dir), s1) ->
     let d' := {| dir_is_open := false; dir_fs_impl := None; dir_union := dir |} in
     run L (LittleFSImpl.closedir fs d) s =
       (Some (LittleFSImpl.convert_lfs_error res, d'), s1,
        [Ev (lfs_dir_close (lfs_dir d)) (res, dir)]) /\
     run L (LittleFSImpl.closedir fs d') s1 = (Some (ERROR_BAD_FILE, d'), s1, [])) /\
  (forall (S : Type) (L : lib ffE S) (s s1 : S) (fs : FatFSImpl.t)
          (h : FileHandle) (res : Z) (fp : storage),
     is_open h = true -> fs_impl h = Some (FatFSImpl.this fs) ->
     L _ (f_close (fat_file h)) s = ((res, fp), s1) ->
     let h' := {| is_open := false; fs_impl := None; file_union := fp |} in
     run L (FatFSImpl.close fs h) s =
       (Some (FatFSImpl.convert_fatfs_error res, h'), s1,
        [Ev (f_close (fat_file h)) (res, fp)]) /\
     run L (FatFSImpl.close fs h') s1 = (Some (ERROR_BAD_FILE, h'), s1, [])) /\
  (forall (S : Type) (L : lib ffE S) (s s1 : S) (fs : FatFSImpl.t)
          (d : DirHandle) (res : Z) (dp : storage),
     dir_is_open d = true -> dir_fs_impl d = Some (FatFSImpl.this fs) ->
     L _ (f_closedir (fat_dir d)) s = ((res, dp), s1) ->
     let d' := {| dir_is_open := false; dir_fs_impl := None; dir_union := dp |} in
     run L (FatFSImpl.closedir fs d) s =
       (Some (FatFSImpl.convert_fatfs_error res, d'), s1,
        [Ev (f_closedir (fat_dir d)) (res, dp)]) /\
     run L (FatFSImpl.closedir fs d') s1 = (Some (ERROR_BAD_FILE, d'), s1, [])).
Proof.
  split; [|split; [|split]].
  - intros S L s s1 fs h res file Ho Hf HL h'. split.
    + unfold LittleFSImpl.close. rewrite (lfs_bad_file_owned fs h Ho Hf).
      rewrite (run_call L _ _ s HL). reflexivity.
    + unfold LittleFSImpl.close.
      rewrite (lfs_bad_file_stale fs h' (or_introl eq_refl)). reflexivity.
  - intros S L s s1 fs d res dir Ho Hf HL d'. split.
    + unfold LittleFSImpl.closedir. rewrite (lfs_bad_dir_owned fs d Ho Hf).
      rewrite (run_call L _ _ s HL). reflexivity.
    + unfold LittleFSImpl.closedir.
      rewrite (lfs_bad_dir_stale fs d' (or_introl eq_refl)). reflexivity.
  - intros S L s s1 fs h res fp Ho Hf HL h'. split.
    + unfold FatFSImpl.close. rewrite (fat_bad_file_owned fs h Ho Hf).
      rewrite (run_call L _ _ s HL). reflexivity.
    + unfold FatFSImpl.close.
      rewrite (fat_bad_file_stale fs h' (or_introl eq_refl)). reflexivity.
  - intros S L s s1 fs d res dp Ho Hf HL d'. split.
    + unfold FatFSImpl.closedir. rewrite (fat_bad_dir_owned fs d Ho Hf).
      rewrite (run_call L _ _ s HL). reflexivity.
    + unfold FatFSImpl.closedir.
      rewrite (fat_bad_dir_stale fs d' (or_introl eq_refl)). reflexivity.
Qed.

End Handles.

Lemma handle_check_first_witness :
  silent (LittleFSImpl.read (lfsh := littlefs_h) lfs0_mounted fat_handle [] 16 0)
         (ERROR_BAD_FILE, fat_handle, [], 0) /\
  silent (LittleFSImpl.readdir (lfsh := littlefs_h) lfs0_mounted
            (DirHandle_new []) FileInfo_new)
         (ERROR_BAD_FILE, DirHandle_new [], FileInfo_new) /\
  silent (FatFSImpl.seek (ffh := fatfs_h) fat0_mounted (FileHandle_new [])
            5 SeekOrigin.SET)
         (ERROR_BAD_FILE, FileHandle_new []) /\
  silent (FatFSImpl.closedir (ffh := fatfs_h) fat0_mounted lfs_dirhandle)
         (ERROR_BAD_FILE, lfs_dirhandle).
Proof.
  destruct (@handle_check_first littlefs_h fatfs_h lfs0_mounted fat0_mounted)
    as (Hlf & Hld & Hff & Hfd).
  split.
  { assert (is_open fat_handle = false \/
            fs_impl fat_handle <> Some (LittleFSImpl.this lfs0_mounted)) as Hstale
      by (right; simpl; discriminate).
    destruct (Hlf fat_handle Hstale) as (_ & Hread & _). apply Hread. }
  split.
  { assert (dir_is_open (DirHandle_new []) = false \/
            dir_fs_impl (DirHandle_new []) <> Some (LittleFSImpl.this lfs0_mounted))
      as Hstale by (left; reflexivity).
    destruct (Hld (DirHandle_new []) Hstale) as (_ & Hreaddir & _).
    apply Hreaddir. }
  split.
  { assert (is_open (FileHandle_new []) = false \/
            fs_impl (FileHandle_new []) <> Some (FatFSImpl.this fat0_mounted))
      as Hstale by (left; reflexivity).
    destruct (Hff (FileHandle_new []) Hstale) as (_ & _ & _ & Hseek & _).
    apply Hseek. }
  assert (dir_is_open lfs_dirhandle = false \/
          dir_fs_impl lfs_dirhandle <> Some (FatFSImpl.this fat0_mounted))
    as Hstale by (right; simpl; discriminate).
  destruct (Hfd lfs_dirhandle Hstale) as (Hclosedir & _). exact Hclosedir.
Defined.

Lemma close_always_releases_witness :
  run scripted_lfs (LittleFSImpl.close (lfsh := littlefs_h) lfs0_mounted lfs_handle)
      [-5] =
    (Some (ERROR_IO, FileHandle_new []), [],
     [Ev (lfs_file_close []) (-5, [])]) /\
  run scripted_lfs
      (LittleFSImpl.close (lfsh := littlefs_h) lfs0_mounted (FileHandle_new [])) [] =
    (Some (ERROR_BAD_FILE, FileHandle_new []), [], []) /\
  run scripted_ff (FatFSImpl.closedir (ffh := fatfs_h) fat0_mounted fat_dirhandle)
      (mk_one_file [1] 0 0) =
    (Some (ERROR_IO, DirHandle_new []), mk_one_file [] 0 0,
     [Ev (f_closedir []) (1, [])]).
Proof.
  destruct (@close_always_releases littlefs_h fatfs_h) as (Hclose & _ & _ & Hclosedir).
  destruct (Hclose (list Z) scripted_lfs [-5] [] lfs0_mounted lfs_handle (-5) []
              eq_refl eq_refl eq_refl) as (Hfirst & Hsecond).
  destruct (Hclosedir one_file scripted_ff (mk_one_file [1] 0 0) (mk_one_file [] 0 0)
              fat0_mounted fat_dirhandle 1 [] eq_refl eq_refl eq_refl)
    as (Hdir & _).
  split; [exact Hfirst|]. split; [exact Hsecond | exact Hdir].
Defined.

(** ** Seeking and truncating on the FAT adapter *)

Section FatPositions.
Context {ffh : ff_h}.

Lemma FSIZE_t_small (x : Z) : 0 <= x < 2 ^ FSIZE_bits -> FatFSImpl.FSIZE_t x = x.
Proof.
  intros Hx. unfold FatFSImpl.FSIZE_t, wrap. now apply Z.mod_small.
Qed.

Lemma FSIZE_t_0 : FatFSImpl.FSIZE_t 0 = 0.
Proof.
  unfold FatFSImpl.FSIZE_t, wrap. apply Zmod_0_l.
Qed.

Lemma pow_FSIZE_bits : 32 <= FSIZE_bits -> 2 ^ 32 <= 2 ^ FSIZE_bits.
Proof.
  intros Hw. apply Z.pow_le_mono_r; lia.
Qed.

Lemma int32_small (x : Z) : 0 <= x < 2 ^ 31 -> int32 x = x.
Proof.
  intros Hx. unfold int32, swrap.
  change (2 ^ (32 - 1)) with (2 ^ 31).
  assert (2 ^ 31 < 2 ^ 32) by (vm_compute; reflexivity).
  rewrite Z.mod_small by lia.
  destruct (Z.ltb_spec x (2 ^ 31)); lia.
Qed.

(** The position a relative seek asks the library for: the queried base
    plus the offset, in [FSIZE_t] arithmetic, and 0 when that sum is
    negative. *)
Lemma seek_new_pos_relative (base offset : Z) :
  32 <= FSIZE_bits ->
  - 2 ^ 31 < offset < 2 ^ 31 ->
  0 <= base < 2 ^ FSIZE_bits ->
  (if offset >=? 0 then FatFSImpl.FSIZE_t (base + FatFSImpl.FSIZE_t offset)
   else
     let abs_offset := FatFSImpl.FSIZE_t (int32 (- offset)) in
     if base >=? abs_offset then FatFSImpl.FSIZE_t (base - abs_offset) else 0) =
  (if base + offset <? 0 then 0 else FatFSImpl.FSIZE_t (base + offset)).
Proof.
  intros Hw Hoff Hbase.
  pose proof (pow_FSIZE_bits Hw) as Hpow.
  assert (2 ^ 31 < 2 ^ 32) as H31 by (vm_compute; reflexivity).
  rewrite Z.geb_leb.
  destruct (Z.leb_spec 0 offset) as [Hnonneg | Hneg].
  - destruct (Z.ltb_spec (base + offset) 0) as [Hlt | _]; [lia|].
    unfold FatFSImpl.FSIZE_t, wrap. apply Zplus_mod_idemp_r.
  - cbv zeta. rewrite int32_small by lia.
    rewrite (FSIZE_t_small (x := - offset)) by lia.
    rewrite Z.geb_leb.
    destruct (Z.leb_spec (- offset) base) as [Hfits | Hclamp];
      destruct (Z.ltb_spec (base + offset) 0) as [Hlt | Hge]; try lia.
    f_equal. lia.
Qed.

(** C5.  On an open FAT file handle the adapter owns, a seek from the
    current position or from the end queries position and size, takes the
    queried position (or size) plus the signed offset as target, clamps
    the target to 0 when that sum is negative, and then makes the native
    absolute seek to the target; the result is the translated status of
    that seek, never an error of the adapter's own.  The sum is formed in
    [FSIZE_t], so it is exact whenever it fits that type.  Assumed: an
    [FSIZE_t] of at least 32 bits holding the queried values, and an offset
    above [INT32_MIN], the one offset whose negation in [int] C++ leaves
    undefined. *)
Theorem fat_seek_relative_clamps (S : Type) (L : lib ffE S) (s s1 s2 s3 : S)
    (fs : FatFSImpl.t) (h : FileHandle) (offset origin pos fsz res : Z)
    (fp : storage) :
  is_open h = true -> fs_impl h = Some (FatFSImpl.this fs) ->
  32 <= FSIZE_bits ->
  - 2 ^ 31 < offset < 2 ^ 31 ->
  origin = SeekOrigin.CUR \/ origin = SeekOrigin.END ->
  L _ (f_tell (fat_file h)) s = (pos, s1) -> 0 <= pos < 2 ^ FSIZE_bits ->
  L _ (f_size (fat_file h)) s1 = (fsz, s2) -> 0 <= fsz < 2 ^ FSIZE_bits ->
  let base := if origin =? SeekOrigin.CUR then pos else fsz in
  let target := if base + offset <? 0 then 0 else FatFSImpl.FSIZE_t (base + offset) in
  L _ (f_lseek (fat_file h) target) s2 = ((res, fp), s3) ->
  run L (FatFSImpl.seek fs h offset origin) s =
    (Some (FatFSImpl.convert_fatfs_error res, FatFSImpl.set_fat_file h fp), s3,
     [Ev (f_tell (fat_file h)) pos; Ev (f_size (fat_file h)) fsz;
      Ev (f_lseek (fat_file h) target) (res, fp)]) /\
  (base + offset < 2 ^ FSIZE_bits -> target = Z.max 0 (base + offset)).
Proof.
  intros Ho Hf Hw Hoff Horigin Htell Hpos Hsize Hfsz base target Hseek.
  split.
  - unfold FatFSImpl.seek. rewrite (fat_bad_file_owned fs h Ho Hf).
    rewrite (run_call L _ _ s Htell). rewrite (run_call L _ _ s1 Hsize).
    assert (FatFSImpl.seek_new_pos pos fsz offset origin = Some target) as ->.
    { unfold FatFSImpl.seek_new_pos, target, base.
      destruct Horigin as [-> | ->]; simpl; f_equal;
        now apply seek_new_pos_relative. }
    rewrite (run_call L _ _ s2 Hseek). reflexivity.
  - intros Hfits. unfold target.
    destruct (Z.ltb_spec (base + offset) 0) as [Hlt | Hge]; [lia|].
    rewrite FSIZE_t_small by lia. lia.
Qed.

(** C10.  On an open FAT file handle the adapter owns, a seek from the
    start with a negative offset makes the native absolute seek to
    position 0 and returns its translated status. *)
Theorem fat_seek_set_clamps (S : Type) (L : lib ffE S) (s s1 s2 s3 : S)
    (fs : FatFSImpl.t) (h : FileHandle) (offset pos fsz res : Z) (fp : storage) :
  is_open h = true -> fs_impl h = Some (FatFSImpl.this fs) ->
  offset < 0 ->
  L _ (f_tell (fat_file h)) s = (pos, s1) ->
  L _ (f_size (fat_file h)) s1 = (fsz, s2) ->
  L _ (f_lseek (fat_file h) 0) s2 = ((res, fp), s3) ->
  run L (FatFSImpl.seek fs h offset SeekOrigin.SET) s =
    (Some (FatFSImpl.convert_fatfs_error res, FatFSImpl.set_fat_file h fp), s3,
     [Ev (f_tell (fat_file h)) pos; Ev (f_size (fat_file h)) fsz;
      Ev (f_lseek (fat_file h) 0) (res, fp)]).
Proof.
  intros Ho Hf Hneg Htell Hsize Hseek.
  unfold FatFSImpl.seek. rewrite (fat_bad_file_owned fs h Ho Hf).
  rewrite (run_call L _ _ s Htell). rewrite (run_call L _ _ s1 Hsize).
  assert (FatFSImpl.seek_new_pos pos fsz offset SeekOrigin.SET = Some 0) as ->.
  { unfold FatFSImpl.seek_new_pos. simpl. rewrite Z.geb_leb.
    destruct (Z.leb_spec 0 offset); [lia|]. now rewrite FSIZE_t_0. }
  rewrite (run_call L _ _ s2 Hseek). reflexivity.
Qed.

(** C6.  On an open FAT file handle the adapter owns, truncate to [size]
    queries the current position, seeks to [size] and, if that seek
    failed, returns its translated status at once; otherwise it calls the
    native truncate and, if that failed, returns its translated status at
    once; otherwise it seeks back to the saved position exactly when that
    position is at most [size], and returns [OK].  Assumed: [size] is a
    32-bit value and [FSIZE_t] has at least 32 bits, so the conversion of
    [size] to [FSIZE_t] keeps it. *)
Theorem fat_truncate_steps (S : Type) (L : lib ffE S) (s s1 s2 : S)
    (fs : FatFSImpl.t) (h : FileHandle) (size pos r1 : Z) (fp1 : storage) :
  is_open h = true -> fs_impl h = Some (FatFSImpl.this fs) ->
  32 <= FSIZE_bits ->
  0 <= size < 2 ^ 32 ->
  L _ (f_tell (fat_file h)) s = (pos, s1) ->
  L _ (f_lseek (fat_file h) size) s1 = ((r1, fp1), s2) ->
  (r1 <> FR_OK ->
     run L (FatFSImpl.truncate fs h size) s =
       (Some (FatFSImpl.convert_fatfs_error r1, FatFSImpl.set_fat_file h fp1), s2,
        [Ev (f_tell (fat_file h)) pos; Ev (f_lseek (fat_file h) size) (r1, fp1)])) /\
  (r1 = FR_OK ->
     forall (r2 : Z) (fp2 : storage) (s3 : S),
       L _ (f_truncate fp1) s2 = ((r2, fp2), s3) ->
       (r2 <> FR_OK ->
          run L (FatFSImpl.truncate fs h size) s =
            (Some (FatFSImpl.convert_fatfs_error r2, FatFSImpl.set_fat_file h fp2),
             s3,
             [Ev (f_tell (fat_file h)) pos;
              Ev (f_lseek (fat_file h) size) (r1, fp1);
              Ev (f_truncate fp1) (r2, fp2)])) /\
       (r2 = FR_OK ->
          (size < pos ->
             run L (FatFSImpl.truncate fs h size) s =
               (Some (OK, FatFSImpl.set_fat_file h fp2), s3,
                [Ev (f_tell (fat_file h)) pos;
                 Ev (f_lseek (fat_file h) size) (r1, fp1);
                 Ev (f_truncate fp1) (r2, fp2)])) /\
          (pos <= size ->
             forall (r3 : Z) (fp3 : storage) (s4 : S),
               L _ (f_lseek fp2 pos) s3 = ((r3, fp3), s4) ->
               run L (FatFSImpl.truncate fs h size) s =
                 (Some (OK, FatFSImpl.set_fat_file h fp3), s4,
                  [Ev (f_tell (fat_file h)) pos;
                   Ev (f_lseek (fat_file h) size) (r1, fp1);
                   Ev (f_truncate fp1) (r2, fp2);
                   Ev (f_lseek fp2 pos) (r3, fp3)])))).
Proof.
  intros Ho Hf Hw Hsize Htell Hseek.
  pose proof (pow_FSIZE_bits Hw) as Hpow.
  unfold FatFSImpl.truncate. rewrite (fat_bad_file_owned fs h Ho Hf).
  rewrite (run_call L _ _ s Htell).
  rewrite (FSIZE_t_small (x := size)) by lia.
  rewrite (run_call L _ _ s1 Hseek).
  split.
  - intros Hr1. apply Z.eqb_neq in Hr1. rewrite Hr1. reflexivity.
  - intros Hr1 r2 fp2 s3 Htrunc. apply Z.eqb_eq in Hr1. rewrite Hr1. simpl negb.
    cbv iota. rewrite (run_call L _ _ s2 Htrunc).
    split.
    + intros Hr2. apply Z.eqb_neq in Hr2. rewrite Hr2. reflexivity.
    + intros Hr2. apply Z.eqb_eq in Hr2. rewrite Hr2. simpl negb. cbv iota.
      split.
      * intros Hgt. destruct (Z.leb_spec pos size); [lia|]. reflexivity.
      * intros Hle r3 fp3 s4 Hback.
        destruct (Z.leb_spec pos size); [|lia].
        rewrite (run_call L _ _ s3 Hback). reflexivity.
Qed.

End FatPositions.

Lemma fat_seek_relative_clamps_witness :
  run scripted_ff
      (FatFSImpl.seek (ffh := fatfs_h) fat0_mounted fat_handle (-10) SeekOrigin.CUR)
      at4 =
    (Some (OK, fat_handle), at0,
     [Ev (f_tell []) 4; Ev (f_size []) 100; Ev (f_lseek [] 0) (0, [])]).
Proof.
  assert (32 <= @FSIZE_bits fatfs_h) as Hw by (simpl; lia).
  assert (- 2 ^ 31 < -10 < 2 ^ 31) as Hoff by lia.
  assert (0 <= 4 < 2 ^ @FSIZE_bits fatfs_h) as Hpos by (simpl; lia).
  assert (0 <= 100 < 2 ^ @FSIZE_bits fatfs_h) as Hfsz by (simpl; lia).
  destruct (@fat_seek_relative_clamps fatfs_h one_file scripted_ff at4 at4 at4 at0
              fat0_mounted fat_handle (-10) SeekOrigin.CUR 4 100 0 []
              eq_refl eq_refl Hw Hoff (or_introl eq_refl) eq_refl Hpos eq_refl Hfsz
              eq_refl) as [Hrun _].
  exact Hrun.
Defined.

Lemma fat_seek_set_clamps_witness :
  run scripted_ff
      (FatFSImpl.seek (ffh := fatfs_h) fat0_mounted fat_handle (-10) SeekOrigin.SET)
      at4 =
    (Some (OK, fat_handle), at0,
     [Ev (f_tell []) 4; Ev (f_size []) 100; Ev (f_lseek [] 0) (0, [])]).
Proof.
  assert (-10 < 0) as Hneg by lia.
  exact (@fat_seek_set_clamps fatfs_h one_file scripted_ff at4 at4 at4 at0
           fat0_mounted fat_handle (-10) 4 100 0 []
           eq_refl eq_refl Hneg eq_refl eq_refl eq_refl).
Defined.

Lemma fat_truncate_steps_witness :
  run scripted_ff (FatFSImpl.truncate (ffh := fatfs_h) fat0_mounted fat_handle 50) at4 =
    (Some (OK, fat_handle), cut50_at4,
     [Ev (f_tell []) 4; Ev (f_lseek [] 50) (0, []); Ev (f_truncate []) (0, []);
      Ev (f_lseek [] 4) (0, [])]) /\
  run scripted_ff (FatFSImpl.truncate (ffh := fatfs_h) fat0_mounted fat_handle 50) at60 =
    (Some (OK, fat_handle), cut50_at50,
     [Ev (f_tell []) 60; Ev (f_lseek [] 50) (0, []); Ev (f_truncate []) (0, [])]).
Proof.
  assert (32 <= @FSIZE_bits fatfs_h) as Hw by (simpl; lia).
  assert (0 <= 50 < 2 ^ 32) as Hsize by lia.
  split.
  - destruct (@fat_truncate_steps fatfs_h one_file scripted_ff at4 at4 at50
                fat0_mounted fat_handle 50 4 0 []
                eq_refl eq_refl Hw Hsize eq_refl eq_refl) as [_ Hsought].
    destruct (Hsought eq_refl 0 [] cut50_at50 eq_refl) as [_ Hcut].
    destruct (Hcut eq_refl) as [_ Hrestore].
    assert (4 <= 50) as Hle by lia.
    exact (Hrestore Hle 0 [] cut50_at4 eq_refl).
  - destruct (@fat_truncate_steps fatfs_h one_file scripted_ff at60 at60 at50
                fat0_mounted fat_handle 50 60 0 []
                eq_refl eq_refl Hw Hsize eq_refl eq_refl) as [_ Hsought].
    destruct (Hsought eq_refl 0 [] cut50_at50 eq_refl) as [_ Hcut].
    destruct (Hcut eq_refl) as [Hstay _].
    assert (50 < 60) as Hlt by lia.
    exact (Hstay Hlt).
Defined.

(** ** A flash-log adapter without configuration *)

Section NullConfig.
Context {lfsh : lfs_h}.

(** C2, as the code has it.  A flash-log adapter constructed with a null
    configuration is unmounted; [mount] fails with [ERROR_INVALID] and
    leaves it as constructed, so it never becomes mounted.  Every other
    operation stops at the first guard it meets, without a native call and
    without reading the configuration: [unmount] returns [OK]; open,
    opendir, remove, rename, stat, mkdir, rmdir and the two space queries
    fail with [ERROR_NOT_MOUNTED]; the handle operations fail with
    [ERROR_BAD_FILE] on every handle the adapter does not hold open, and
    it holds none, as open and opendir leave the handle untouched. *)
Theorem null_config_never_mounts (self : addr) :
  let fs := LittleFSImpl.new self None in
  LittleFSImpl.is_mounted fs = false /\
  silent (LittleFSImpl.mount fs) (ERROR_INVALID, fs) /\
  silent (LittleFSImpl.unmount fs) (OK, fs) /\
  (forall h path mode,
     silent (LittleFSImpl.open fs h path mode) (ERROR_NOT_MOUNTED, h)) /\
  (forall d path,
     silent (LittleFSImpl.opendir fs d path) (ERROR_NOT_MOUNTED, d)) /\
  (forall path, silent (LittleFSImpl.remove fs path) ERROR_NOT_MOUNTED) /\
  (forall old_path new_path,
     silent (LittleFSImpl.rename fs old_path new_path) ERROR_NOT_MOUNTED) /\
  (forall path info,
     silent (LittleFSImpl.stat fs path info) (ERROR_NOT_MOUNTED, info)) /\
  (forall path, silent (LittleFSImpl.mkdir fs path) ERROR_NOT_MOUNTED) /\
  (forall path, silent (LittleFSImpl.rmdir fs path) ERROR_NOT_MOUNTED) /\
  (forall free_bytes,
     silent (LittleFSImpl.get_free_space fs free_bytes)
            (ERROR_NOT_MOUNTED, free_bytes)) /\
  (forall total_bytes,
     silent (LittleFSImpl.get_total_space fs total_bytes)
            (ERROR_NOT_MOUNTED, total_bytes)) /\
  (forall h : FileHandle,
     is_open h = false \/ fs_impl h <> Some self ->
     silent (LittleFSImpl.close fs h) (ERROR_BAD_FILE, h) /\
     (forall buffer size bytes_read,
        silent (LittleFSImpl.read fs h buffer size bytes_read)
               (ERROR_BAD_FILE, h, buffer, bytes_read)) /\
     (forall buffer size bytes_written,
        silent (LittleFSImpl.write fs h buffer size bytes_written)
               (ERROR_BAD_FILE, h, bytes_written)) /\
     (forall offset origin,
        silent (LittleFSImpl.seek fs h offset origin) (ERROR_BAD_FILE, h)) /\
     (forall position,
        silent (LittleFSImpl.tell fs h position) (ERROR_BAD_FILE, h, position)) /\
     silent (LittleFSImpl.sync fs h) (ERROR_BAD_FILE, h) /\
     (forall size,
        silent (LittleFSImpl.truncate fs h size) (ERROR_BAD_FILE, h))) /\
  (forall d : DirHandle,
     dir_is_open d = false \/ dir_fs_impl d <> Some self ->
     silent (LittleFSImpl.closedir fs d) (ERROR_BAD_FILE, d) /\
     (forall info,
        silent (LittleFSImpl.readdir fs d info) (ERROR_BAD_FILE, d, info)) /\
     silent (LittleFSImpl.rewinddir fs d) (ERROR_BAD_FILE, d)).
Proof.
  intros fs.
  split; [reflexivity|].
  do 11 (split; [intros; apply silent_ret|]).
  split.
  - intros h Hstale. now apply lfs_file_ops_refuse.
  - intros d Hstale. now apply lfs_dir_ops_refuse.
Qed.

End NullConfig.

(** C2 as stated fails: on an adapter constructed with a null
    configuration, remove returns [ERROR_NOT_MOUNTED], not
    [ERROR_INVALID]. *)
Lemma null_config_remove_not_invalid :
  run scripted_lfs (LittleFSImpl.remove (lfsh := littlefs_h) lfs_null "/a.txt") [] =
    (Some ERROR_NOT_MOUNTED, [], []) /\
  ERROR_NOT_MOUNTED <> ERROR_INVALID.
Proof.
  split; [reflexivity | discriminate].
Qed.

Lemma null_config_never_mounts_witness :
  silent (LittleFSImpl.mount (lfsh := littlefs_h) lfs_null) (ERROR_INVALID, lfs_null) /\
  silent (LittleFSImpl.get_free_space (lfsh := littlefs_h) lfs_null 0)
         (ERROR_NOT_MOUNTED, 0) /\
  silent (LittleFSImpl.read (lfsh := littlefs_h) lfs_null (FileHandle_new []) [] 16 0)
         (ERROR_BAD_FILE, FileHandle_new [], [], 0).
Proof.
  destruct (@null_config_never_mounts littlefs_h 1%N)
    as (_ & Hmount & _ & _ & _ & _ & _ & _ & _ & _ & Hfree & _ & Hfile & _).
  split; [exact Hmount|]. split; [apply Hfree|].
  assert (is_open (FileHandle_new []) = false \/
          fs_impl (FileHandle_new []) <> Some 1%N) as Hstale by (left; reflexivity).
  destruct (Hfile (FileHandle_new []) Hstale) as (_ & Hread & _). apply Hread.
Defined.

(** ** Open modes *)

Lemma land_pow2 (a k : Z) :
  0 <= k -> Z.land a (2 ^ k) = if Z.testbit a k then 2 ^ k else 0.
Proof.
  intros Hk. apply Z.bits_inj'. intros n Hn.
  rewrite Z.land_spec, Z.pow2_bits_eqb by assumption.
  destruct (Z.eqb_spec k n) as [-> | Hne].
  - destruct (Z.testbit a n); simpl.
    + rewrite Z.pow2_bits_eqb by assumption. now rewrite Z.eqb_refl.
    + now rewrite Z.bits_0.
  - rewrite andb_false_r. destruct (Z.testbit a k).
    + rewrite Z.pow2_bits_eqb by assumption.
      symmetry. now apply Z.eqb_neq.
    + now rewrite Z.bits_0.
Qed.

Lemma pow2_nonzero (k : Z) : 0 <= k -> 2 ^ k <> 0.
Proof.
  intros Hk. assert (0 < 2 ^ k) by (apply Z.pow_pos_nonneg; lia). lia.
Qed.

(** A flag test of the translators reads one bit of the mode. *)
Lemma mode_flag (mode k : Z) :
  0 <= k < 8 -> negb (Z.land (uint8 mode) (2 ^ k) =? 0) = Z.testbit mode k.
Proof.
  intros Hk. rewrite land_pow2 by lia.
  unfold uint8, wrap. rewrite Z.mod_pow2_bits_low by lia.
  pose proof (@pow2_nonzero k) as Hnz.
  destruct (Z.testbit mode k).
  - destruct (Z.eqb_spec (2 ^ k) 0); [lia | reflexivity].
  - reflexivity.
Qed.

Lemma has_flag_pow2 (w k : Z) :
  0 <= k -> (has_flag w (2 ^ k) <-> Z.testbit w k = true).
Proof.
  intros Hk. unfold has_flag. rewrite land_pow2 by assumption.
  pose proof (@pow2_nonzero k Hk) as Hnz.
  destruct (Z.testbit w k); split; intros H; try reflexivity; try discriminate.
  symmetry in H. contradiction.
Qed.

Lemma has_flag_lor_r (w f : Z) : has_flag (Z.lor w f) f.
Proof.
  unfold has_flag. apply Z.bits_inj'. intros n _.
  rewrite Z.land_spec, Z.lor_spec.
  destruct (Z.testbit w n), (Z.testbit f n); reflexivity.
Qed.

Lemma has_flag_lor_l (w f g : Z) : has_flag w f -> has_flag (Z.lor w g) f.
Proof.
  unfold has_flag. intros H. apply Z.bits_inj'. intros n _.
  apply (f_equal (fun x => Z.testbit x n)) in H.
  rewrite Z.land_spec in H. rewrite Z.land_spec, Z.lor_spec.
  destruct (Z.testbit w n), (Z.testbit f n), (Z.testbit g n);
    simpl in *; congruence.
Qed.

Lemma no_flag_lor (a b t : Z) :
  Z.land a t = 0 -> Z.land b t = 0 -> Z.land (Z.lor a b) t = 0.
Proof.
  intros Ha Hb. rewrite Z.land_lor_distr_l, Ha, Hb. reflexivity.
Qed.

Lemma uint8_range (x : Z) : 0 <= uint8 x < 256.
Proof.
  unfold uint8, wrap. change (2 ^ 8) with 256. apply Z.mod_pos_bound. lia.
Qed.

Lemma uint8_small (x : Z) : 0 <= x < 256 -> uint8 x = x.
Proof.
  intros Hx. unfold uint8, wrap. change (2 ^ 8) with 256. now apply Z.mod_small.
Qed.

Lemma lor_byte (a b : Z) : 0 <= a < 256 -> 0 <= b < 256 -> 0 <= Z.lor a b < 256.
Proof.
  intros Ha Hb.
  assert (0 <= Z.lor a b) as Hnn by (apply Z.lor_nonneg; lia).
  split; [assumption|].
  assert (forall x, 0 <= x < 256 -> Z.log2 x < 8) as Hlog.
  { intros x Hx. destruct (Z.eq_dec x 0) as [-> | Hnz]; [reflexivity|].
    apply Z.log2_lt_pow2; [lia|]. change (2 ^ 8) with 256. lia. }
  destruct (Z.eq_dec (Z.lor a b) 0) as [Hz | Hnz]; [lia|].
  change 256 with (2 ^ 8). apply Z.log2_lt_pow2; [lia|].
  rewrite Z.log2_lor by lia.
  apply Z.max_lub_lt; apply Hlog; assumption.
Qed.

Lemma uint8_lor (a b : Z) :
  0 <= a < 256 -> 0 <= b < 256 -> uint8 (Z.lor a b) = Z.lor a b.
Proof.
  intros Ha Hb. apply uint8_small. now apply lor_byte.
Qed.

Create HintDb flags.
#[local] Hint Resolve has_flag_lor_r has_flag_lor_l no_flag_lor uint8_range : flags.

Section OpenModes.
Context {lfsh : lfs_h} {ffh : ff_h}.

(** The translators in terms of the bits of the mode. *)
Lemma lfs_flags_bits (mode : Z) :
  LittleFSImpl.lfs_flags mode =
    (let flags := if Z.testbit mode 0 then Z.lor 0 LFS_O_RDONLY else 0 in
     let flags :=
       if Z.testbit mode 1 then
         if Z.testbit mode 0 then Z.lor (Z.land flags (Z.lnot LFS_O_RDONLY)) LFS_O_RDWR
         else Z.lor flags LFS_O_WRONLY
       else flags in
     let flags :=
       if Z.testbit mode 2 then
         if Z.testbit mode 3 then Z.lor (Z.lor flags LFS_O_CREAT) LFS_O_EXCL
         else Z.lor flags LFS_O_CREAT
       else flags in
     let flags := if Z.testbit mode 4 then Z.lor flags LFS_O_TRUNC else flags in
     if Z.testbit mode 5 then Z.lor flags LFS_O_APPEND else flags).
Proof.
  unfold LittleFSImpl.lfs_flags.
  change OpenMode.READ with (2 ^ 0). change OpenMode.WRITE with (2 ^ 1).
  change OpenMode.CREATE with (2 ^ 2). change OpenMode.EXCL with (2 ^ 3).
  change OpenMode.TRUNC with (2 ^ 4). change OpenMode.APPEND with (2 ^ 5).
  rewrite !mode_flag by lia. reflexivity.
Qed.

Lemma fat_mode_bits (mode : Z) :
  FatFSImpl.convert_open_mode mode =
    (let fat_mode :=
       if Z.testbit mode 0 && negb (Z.testbit mode 1) then uint8 FA_READ
       else if Z.testbit mode 1 && negb (Z.testbit mode 0) then uint8 FA_WRITE
       else if Z.testbit mode 0 && Z.testbit mode 1 then uint8 (Z.lor FA_READ FA_WRITE)
       else 0 in
     let fat_mode :=
       if Z.testbit mode 2 then
         if Z.testbit mode 3 then uint8 (Z.lor fat_mode FA_CREATE_NEW)
         else uint8 (Z.lor fat_mode FA_CREATE_ALWAYS)
       else if Z.testbit mode 1 then uint8 (Z.lor fat_mode FA_OPEN_EXISTING)
       else fat_mode in
     if Z.testbit mode 5 then uint8 (Z.lor fat_mode FA_OPEN_APPEND) else fat_mode).
Proof.
  unfold FatFSImpl.convert_open_mode.
  change OpenMode.READ with (2 ^ 0). change OpenMode.WRITE with (2 ^ 1).
  change OpenMode.CREATE with (2 ^ 2). change OpenMode.EXCL with (2 ^ 3).
  change OpenMode.TRUNC with (2 ^ 4). change OpenMode.APPEND with (2 ^ 5).
  rewrite !mode_flag by lia. reflexivity.
Qed.

Lemma fa_bytes :
  fa_flags_are_bytes = true ->
  0 <= FA_READ < 256 /\ 0 <= FA_WRITE < 256 /\ 0 <= FA_OPEN_EXISTING < 256 /\
  0 <= FA_CREATE_NEW < 256 /\ 0 <= FA_CREATE_ALWAYS < 256 /\
  0 <= FA_OPEN_APPEND < 256.
Proof.
  unfold fa_flags_are_bytes. simpl forallb. intros H.
  repeat (apply andb_true_iff in H; destruct H as [? H]).
  repeat match goal with
         | Hle : (_ <=? _) = true |- _ => apply Z.leb_le in Hle
         | Hlt : (_ <? _) = true |- _ => apply Z.ltb_lt in Hlt
         end.
  lia.
Qed.

Lemma lfs_trunc_separate :
  lfs_trunc_is_separate = true ->
  LFS_O_TRUNC <> 0 /\
  Z.land LFS_O_RDONLY LFS_O_TRUNC = 0 /\ Z.land LFS_O_WRONLY LFS_O_TRUNC = 0 /\
  Z.land LFS_O_RDWR LFS_O_TRUNC = 0 /\ Z.land LFS_O_CREAT LFS_O_TRUNC = 0 /\
  Z.land LFS_O_APPEND LFS_O_TRUNC = 0.
Proof.
  unfold lfs_trunc_is_separate. simpl forallb. intros H.
  repeat (apply andb_true_iff in H; destruct H as [? H]).
  repeat match goal with
         | Heq : (_ =? _) = true |- _ => apply Z.eqb_eq in Heq
         | Hne : negb (_ =? _) = true |- _ =>
             apply negb_true_iff in Hne; apply Z.eqb_neq in Hne
         end.
  tauto.
Qed.

(** C4, as the code has it.  For every open mode with Create and
    Exclusive, the FAT translator's result has [FA_CREATE_NEW] and the
    flag word the flash-log translator builds has [LFS_O_CREAT] and
    [LFS_O_EXCL].  For every open mode with Create and without Exclusive,
    the flash-log translator's flag word has [LFS_O_CREAT], and has
    [LFS_O_TRUNC] exactly when the mode has Truncate; the FAT translator's
    result has [FA_CREATE_ALWAYS], FatFs's create-or-truncate-existing
    flag, and a Truncate bit in the mode does not change its result. *)
Theorem open_mode_create_flags (mode : Z) :
  fa_flags_are_bytes = true ->
  lfs_trunc_is_separate = true ->
  has_flag mode OpenMode.CREATE ->
  (has_flag mode OpenMode.EXCL ->
     has_flag (FatFSImpl.convert_open_mode mode) FA_CREATE_NEW /\
     has_flag (LittleFSImpl.lfs_flags mode) LFS_O_CREAT /\
     has_flag (LittleFSImpl.lfs_flags mode) LFS_O_EXCL) /\
  (~ has_flag mode OpenMode.EXCL ->
     has_flag (LittleFSImpl.lfs_flags mode) LFS_O_CREAT /\
     (has_flag (LittleFSImpl.lfs_flags mode) LFS_O_TRUNC <->
      has_flag mode OpenMode.TRUNC) /\
     has_flag (FatFSImpl.convert_open_mode mode) FA_CREATE_ALWAYS /\
     FatFSImpl.convert_open_mode (OpenMode_or mode OpenMode.TRUNC) =
       FatFSImpl.convert_open_mode mode).
Proof.
  intros Hbytes Hsep Hcreate.
  apply fa_bytes in Hbytes.
  destruct Hbytes as (Hread & Hwrite & Hexisting & Hnew & Halways & Happend).
  apply lfs_trunc_separate in Hsep.
  destruct Hsep as (Htrunc & Hrd & Hwr & Hrw & Hcr & Hap).
  change OpenMode.CREATE with (2 ^ 2) in Hcreate.
  apply has_flag_pow2 in Hcreate; [|lia].
  change OpenMode.EXCL with (2 ^ 3). change OpenMode.TRUNC with (2 ^ 4).
  rewrite !has_flag_pow2 by lia.
  rewrite !fat_mode_bits, !lfs_flags_bits. cbv zeta.
  unfold OpenMode_or. rewrite !Z.lor_spec.
  change (Z.testbit (2 ^ 4) 0) with false. change (Z.testbit (2 ^ 4) 1) with false.
  change (Z.testbit (2 ^ 4) 2) with false. change (Z.testbit (2 ^ 4) 3) with false.
  change (Z.testbit (2 ^ 4) 5) with false.
  rewrite !orb_false_r. rewrite Hcreate.
  set (access :=
         if Z.testbit mode 0 && negb (Z.testbit mode 1) then uint8 FA_READ
         else if Z.testbit mode 1 && negb (Z.testbit mode 0) then uint8 FA_WRITE
         else if Z.testbit mode 0 && Z.testbit mode 1
              then uint8 (Z.lor FA_READ FA_WRITE)
              else 0).
  assert (0 <= access < 256) as Haccess.
  { unfold access.
    destruct (Z.testbit mode 0), (Z.testbit mode 1); simpl;
      auto with flags; lia. }
  split.
  - intros Hexcl. rewrite Hexcl. split; [|split].
    + destruct (Z.testbit mode 5).
      * rewrite (uint8_lor Haccess Hnew).
        rewrite (uint8_lor (lor_byte Haccess Hnew) Happend). auto with flags.
      * rewrite (uint8_lor Haccess Hnew). auto with flags.
    + destruct (Z.testbit mode 4), (Z.testbit mode 5); auto 6 with flags.
    + destruct (Z.testbit mode 4), (Z.testbit mode 5); auto 6 with flags.
  - intros Hexcl. apply not_true_is_false in Hexcl. rewrite Hexcl.
    split; [|split; [|split]].
    + destruct (Z.testbit mode 4), (Z.testbit mode 5); auto 6 with flags.
    + destruct (Z.testbit mode 4).
      * split; [reflexivity|]. intros _.
        destruct (Z.testbit mode 5); auto 6 with flags.
      * split; [|discriminate]. unfold has_flag. intros Hhas. exfalso.
        apply Htrunc. rewrite <- Hhas.
        destruct (Z.testbit mode 0), (Z.testbit mode 1), (Z.testbit mode 5);
          rewrite ?Z.lor_0_l, ?Z.land_lnot_diag, ?Z.lor_0_l;
          repeat apply no_flag_lor; auto using Z.land_0_l.
    + destruct (Z.testbit mode 5).
      * rewrite (uint8_lor Haccess Halways).
        rewrite (uint8_lor (lor_byte Haccess Halways) Happend). auto with flags.
      * rewrite (uint8_lor Haccess Halways). auto with flags.
    + reflexivity.
Qed.

End OpenModes.

(** C4 as stated fails for Write|Create: the flash-log translator does not
    ask for truncation, and the FAT translator, with no Truncate bit in the
    mode, produces the truncating [FA_CREATE_ALWAYS]. *)
Lemma create_without_excl_is_reversed :
  let mode := OpenMode_or OpenMode.WRITE OpenMode.CREATE in
  has_flag mode OpenMode.CREATE /\
  ~ has_flag mode OpenMode.EXCL /\
  ~ has_flag mode OpenMode.TRUNC /\
  ~ has_flag (LittleFSImpl.lfs_flags (lfsh := littlefs_h) mode)
             (@LFS_O_TRUNC littlefs_h) /\
  ~ has_flag (LittleFSImpl.convert_open_mode (lfsh := littlefs_h) mode)
             (@LFS_O_TRUNC littlefs_h) /\
  FatFSImpl.convert_open_mode (ffh := fatfs_h) mode =
    Z.lor (@FA_WRITE fatfs_h) (@FA_CREATE_ALWAYS fatfs_h) /\
  has_flag (FatFSImpl.convert_open_mode (ffh := fatfs_h) mode)
           (@FA_CREATE_ALWAYS fatfs_h).
Proof.
  vm_compute. repeat split; intros H; discriminate H.
Qed.

(** With littlefs's constants the create, exclusive, truncate and append
    flags lie above bit 7, and the translator's 8-bit return drops them:
    for Write|Create|Exclusive the flag word is 0x302, the result 2. *)
Lemma lfs_convert_open_mode_narrows :
  LittleFSImpl.lfs_flags (lfsh := littlefs_h) 0x0E = 0x302 /\
  LittleFSImpl.convert_open_mode (lfsh := littlefs_h) 0x0E = 2.
Proof.
  split; reflexivity.
Qed.

Lemma open_mode_create_flags_witness :
  has_flag (FatFSImpl.convert_open_mode (ffh := fatfs_h) 0x0E) (@FA_CREATE_NEW fatfs_h) /\
  has_flag (LittleFSImpl.lfs_flags (lfsh := littlefs_h) 0x0E) (@LFS_O_EXCL littlefs_h) /\
  has_flag (FatFSImpl.convert_open_mode (ffh := fatfs_h) 0x06)
           (@FA_CREATE_ALWAYS fatfs_h) /\
  FatFSImpl.convert_open_mode (ffh := fatfs_h) (OpenMode_or 0x06 OpenMode.TRUNC) =
    FatFSImpl.convert_open_mode (ffh := fatfs_h) 0x06.
Proof.
  destruct (@open_mode_create_flags littlefs_h fatfs_h 0x0E eq_refl eq_refl eq_refl)
    as [Hexcl _].
  destruct (Hexcl eq_refl) as (Hnew & _ & Hlfs).
  destruct (@open_mode_create_flags littlefs_h fatfs_h 0x06 eq_refl eq_refl eq_refl)
    as [_ Hplain].
  assert (~ has_flag 0x06 OpenMode.EXCL) as Hno by (vm_compute; discriminate).
  destruct (Hplain Hno) as (_ & _ & Halways & Hsame).
  split; [exact Hnew|]. split; [exact Hlfs|]. split; [exact Halways | exact Hsame].
Defined.

(** * Further properties of the adapters *)

(** ** Sequencing *)

(** Running [m] and then [f]: the calls of [m], then the calls of [f] from
    the state [m] left; a trap in [m] ends the run. *)
Lemma run_bind {E : Type -> Type} {S A B : Type} (L : lib E S) (m : M E A)
    (f : A -> M E B) (s : S) :
  run L (bind m f) s =
    match run L m s with
    | (Some a, s1, tr1) =>
        let '(r, s2, tr2) := run L (f a) s1 in (r, s2, tr1 ++ tr2)
    | (None, s1, tr1) => (None, s1, tr1)
    end.
Proof.
  revert s. induction m as [a | X e k IH |]; intros s; simpl.
  - destruct (run L (f a) s) as [[r s2] tr2]. reflexivity.
  - destruct (L X e s) as [x s1]. rewrite IH.
    destruct (run L (k x) s1) as [[[a|] s2] tr1].
    + destruct (run L (f a) s2) as [[r s3] tr2]. reflexivity.
    + reflexivity.
  - reflexivity.
Qed.

Section Translation.
Context {lfsh : lfs_h} {ffh : ff_h}.

(** Only the first case label of each switch gives [OK]. *)
Lemma convert_lfs_error_not_ok (c : Z) :
  c <> LFS_ERR_OK -> LittleFSImpl.convert_lfs_error c <> OK.
Proof.
  intros Hc Hok. unfold LittleFSImpl.convert_lfs_error in Hok.
  match type of Hok with switch ?x ?cs ?d = _ =>
    destruct (switch_cases x cs d) as [Hin | Hd] end.
  - rewrite Hok in Hin. simpl in Hin.
    repeat (destruct Hin as [Hin | Hin]; [inversion Hin; congruence|]).
    contradiction.
  - rewrite Hok in Hd. discriminate.
Qed.

Lemma convert_fatfs_error_not_ok (c : Z) :
  c <> FR_OK -> FatFSImpl.convert_fatfs_error c <> OK.
Proof.
  intros Hc Hok. unfold FatFSImpl.convert_fatfs_error in Hok.
  match type of Hok with switch ?x ?cs ?d = _ =>
    destruct (switch_cases x cs d) as [Hin | Hd] end.
  - rewrite Hok in Hin. simpl in Hin.
    repeat (destruct Hin as [Hin | Hin]; [inversion Hin; congruence|]).
    contradiction.
  - rewrite Hok in Hd. discriminate.
Qed.

(** What [mount] of the flash-log adapter comes to under any library. *)
Lemma lfs_mount_outcome (S : Type) (L : lib lfsE S) (s : S) (fs : LittleFSImpl.t) :
  exists r fs' s' tr,
    run L (LittleFSImpl.mount fs) s = (Some (r, fs'), s', tr) /\
    LittleFSImpl.this fs' = LittleFSImpl.this fs /\
    LittleFSImpl.config_ fs' = LittleFSImpl.config_ fs /\
    (r = OK <-> LittleFSImpl.mounted_ fs' = true) /\
    (r <> OK -> fs' = fs).
Proof.
  unfold LittleFSImpl.mount.
  destruct (LittleFSImpl.mounted_ fs) eqn:Hm.
  { do 4 eexists. split; [reflexivity|]. repeat split; auto; congruence. }
  destruct (LittleFSImpl.config_ fs) as [config|] eqn:Hc.
  2:{ do 4 eexists. split; [reflexivity|].
      repeat split; auto; try congruence; discriminate. }
  destruct (L _ (lfs_mount config) s) as [r1 s1] eqn:H1.
  rewrite (run_call L _ _ s H1).
  destruct (Z.eqb_spec r1 LFS_ERR_OK) as [Hok1 | Hno1].
  { do 4 eexists. split; [reflexivity|]. simpl. repeat split; auto; congruence. }
  destruct (Z.eqb_spec r1 LFS_ERR_CORRUPT) as [Hcor | Hnc].
  2:{ do 4 eexists. split; [reflexivity|].
      pose proof (convert_lfs_error_not_ok Hno1).
      repeat split; auto; congruence. }
  destruct (L _ (lfs_format config) s1) as [r2 s2] eqn:H2.
  rewrite (run_call L _ _ s1 H2).
  destruct (Z.eqb_spec r2 LFS_ERR_OK) as [Hok2 | Hno2].
  2:{ do 4 eexists. split; [reflexivity|].
      pose proof (convert_lfs_error_not_ok Hno2).
      repeat split; auto; congruence. }
  destruct (L _ (lfs_mount config) s2) as [r3 s3] eqn:H3.
  rewrite (run_call L _ _ s2 H3).
  destruct (Z.eqb_spec r3 LFS_ERR_OK) as [Hok3 | Hno3].
  { do 4 eexists. split; [reflexivity|]. simpl. repeat split; auto; congruence. }
  do 4 eexists. split; [reflexivity|].
  pose proof (convert_lfs_error_not_ok Hno3).
  repeat split; auto; congruence.
Qed.

Lemma fat_mount_outcome (S : Type) (L : lib ffE S) (s : S) (fs : FatFSImpl.t) :
  exists r fs' s' tr,
    run L (FatFSImpl.mount fs) s = (Some (r, fs'), s', tr) /\
    FatFSImpl.this fs' = FatFSImpl.this fs /\
    FatFSImpl.drive_path_ fs' = FatFSImpl.drive_path_ fs /\
    (r = OK <-> FatFSImpl.mounted_ fs' = true) /\
    (r <> OK -> fs' = fs).
Proof.
  unfold FatFSImpl.mount.
  destruct (FatFSImpl.mounted_ fs) eqn:Hm.
  { do 4 eexists. split; [reflexivity|]. repeat split; auto; congruence. }
  destruct (L _ (f_mount (Some (FatFSImpl.this fs)) (FatFSImpl.drive_path_ fs) 1) s)
    as [r1 s1] eqn:H1.
  rewrite (run_call L _ _ s H1).
  destruct (Z.eqb_spec r1 FR_OK) as [Hok1 | Hno1].
  { do 4 eexists. split; [reflexivity|]. simpl. repeat split; auto; congruence. }
  do 4 eexists. split; [reflexivity|].
  pose proof (convert_fatfs_error_not_ok Hno1).
  repeat split; auto; congruence.
Qed.

(** X1.  Whatever the library answers, [mount] of either adapter returns
    (it never traps), keeps the adapter's address and its configuration or
    drive path, returns [OK] exactly when the adapter is mounted
    afterwards, and on any other result leaves the adapter as it was. *)
Theorem mount_result_matches_state :
  (forall (S : Type) (L : lib lfsE S) (s : S) (fs : LittleFSImpl.t),
     exists r fs' s' tr,
       run L (LittleFSImpl.mount fs) s = (Some (r, fs'), s', tr) /\
       LittleFSImpl.this fs' = LittleFSImpl.this fs /\
       LittleFSImpl.config_ fs' = LittleFSImpl.config_ fs /\
       (r = OK <-> LittleFSImpl.mounted_ fs' = true) /\
       (r <> OK -> fs' = fs)) /\
  (forall (S : Type) (L : lib ffE S) (s : S) (fs : FatFSImpl.t),
     exists r fs' s' tr,
       run L (FatFSImpl.mount fs) s = (Some (r, fs'), s', tr) /\
       FatFSImpl.this fs' = FatFSImpl.this fs /\
       FatFSImpl.drive_path_ fs' = FatFSImpl.drive_path_ fs /\
       (r = OK <-> FatFSImpl.mounted_ fs' = true) /\
       (r <> OK -> fs' = fs)).
Proof.
  split; intros S L s fs; [apply lfs_mount_outcome | apply fat_mount_outcome].
Qed.

End Translation.

(** ** Mount state *)

Section MountState.
Context {lfsh : lfs_h} {ffh : ff_h}.

(** X2.  [unmount] of a mounted adapter makes exactly one native call
    ([lfs_unmount], or [f_mount] with a null filesystem object and option
    0) and leaves the adapter unmounted whatever status the call answers;
    that status is returned translated. *)
Theorem unmount_always_unmounts :
  (forall (S : Type) (L : lib lfsE S) (s s1 : S) (fs : LittleFSImpl.t) (res : Z),
     LittleFSImpl.mounted_ fs = true ->
     L _ lfs_unmount s = (res, s1) ->
     run L (LittleFSImpl.unmount fs) s =
       (Some (LittleFSImpl.convert_lfs_error res, LittleFSImpl.set_mounted fs false),
        s1, [Ev lfs_unmount res])) /\
  (forall (S : Type) (L : lib ffE S) (s s1 : S) (fs : FatFSImpl.t) (res : Z),
     FatFSImpl.mounted_ fs = true ->
     L _ (f_mount None (FatFSImpl.drive_path_ fs) 0) s = (res, s1) ->
     run L (FatFSImpl.unmount fs) s =
       (Some (FatFSImpl.convert_fatfs_error res, FatFSImpl.set_mounted fs false),
        s1, [Ev (f_mount None (FatFSImpl.drive_path_ fs) 0) res])).
Proof.
  split; intros S L s s1 fs res Hm HL.
  - unfold LittleFSImpl.unmount. rewrite Hm. simpl negb. cbv iota.
    rewrite (run_call L _ _ s HL). reflexivity.
  - unfold FatFSImpl.unmount. rewrite Hm. simpl negb. cbv iota.
    rewrite (run_call L _ _ s HL). reflexivity.
Qed.

(** X3.  Mounting an unmounted FAT adapter makes exactly one native call,
    a forced [f_mount] of the adapter's filesystem object on its drive
    path; there is no format and no second attempt: any status but
    [FR_OK] is returned translated and the adapter stays unmounted. *)
Theorem fat_mount_single_attempt (S : Type) (L : lib ffE S) (s s1 : S)
    (fs : FatFSImpl.t) (res : Z) :
  FatFSImpl.mounted_ fs = false ->
  L _ (f_mount (Some (FatFSImpl.this fs)) (FatFSImpl.drive_path_ fs) 1) s = (res, s1) ->
  run L (FatFSImpl.mount fs) s =
    (Some (if res =? FR_OK then (OK, FatFSImpl.set_mounted fs true)
           else (FatFSImpl.convert_fatfs_error res, fs)),
     s1, [Ev (f_mount (Some (FatFSImpl.this fs)) (FatFSImpl.drive_path_ fs) 1) res]).
Proof.
  intros Hm HL. unfold FatFSImpl.mount. rewrite Hm.
  rewrite (run_call L _ _ s HL). destruct (res =? FR_OK); reflexivity.
Qed.

(** X4.  A mounted flash-log adapter always has a configuration: the
    constructor establishes this, [mount] and [unmount] keep it under
    every library, and therefore the two space queries, which read the
    configuration through the pointer, never trap. *)
Theorem lfs_mounted_has_config :
  (forall (self : addr) (config : option lfs_config_t),
     lfs_config_ok (LittleFSImpl.new self config) = true) /\
  (forall (S : Type) (L : lib lfsE S) (s : S) (fs : LittleFSImpl.t),
     lfs_config_ok fs = true ->
     (exists r fs' s' tr,
        run L (LittleFSImpl.mount fs) s = (Some (r, fs'), s', tr) /\
        lfs_config_ok fs' = true) /\
     (exists r fs' s' tr,
        run L (LittleFSImpl.unmount fs) s = (Some (r, fs'), s', tr) /\
        lfs_config_ok fs' = true) /\
     (forall free_bytes,
        fst (fst (run L (LittleFSImpl.get_free_space fs free_bytes) s)) <> None) /\
     (forall total_bytes,
        fst (fst (run L (LittleFSImpl.get_total_space fs total_bytes) s)) <> None)).
Proof.
  split; [reflexivity|].
  intros S L s fs Hok. unfold lfs_config_ok in Hok.
  split; [|split; [|split]].
  - destruct (lfs_mount_outcome L s fs)
      as (r & fs' & s' & tr & Hrun & _ & Hcfg & _ & Hsame).
    exists r, fs', s', tr. split; [exact Hrun|].
    unfold lfs_config_ok. rewrite Hcfg.
    destruct (LittleFSImpl.config_ fs) as [c|] eqn:Hc.
    + apply orb_true_r.
    + rewrite orb_false_r in Hok. apply negb_true_iff in Hok.
      unfold LittleFSImpl.mount in Hrun. rewrite Hok, Hc in Hrun.
      inversion Hrun; subst. now rewrite Hok.
  - unfold LittleFSImpl.unmount.
    destruct (LittleFSImpl.mounted_ fs) eqn:Hm.
    + destruct (L _ lfs_unmount s) as [res s1] eqn:HL.
      simpl negb. cbv iota. rewrite (run_call L _ _ s HL).
      do 4 eexists. split; [reflexivity | reflexivity].
    + do 4 eexists. split; [reflexivity|]. unfold lfs_config_ok. now rewrite Hm.
  - intros free_bytes. unfold LittleFSImpl.get_free_space.
    destruct (LittleFSImpl.mounted_ fs) eqn:Hm; [|simpl; discriminate].
    simpl negb. cbv iota.
    destruct (L _ lfs_fs_size s) as [res s1] eqn:HL.
    rewrite (run_call L _ _ s HL).
    destruct (LittleFSImpl.config_ fs) as [c|]; [|discriminate].
    destruct (0 <=? res); simpl; discriminate.
  - intros total_bytes. unfold LittleFSImpl.get_total_space.
    destruct (LittleFSImpl.mounted_ fs) eqn:Hm; [|simpl; discriminate].
    destruct (LittleFSImpl.config_ fs) as [c|]; [|discriminate].
    simpl. discriminate.
Qed.

(** X5.  The destructor of either adapter makes no native call on an
    unmounted adapter and exactly the one unmount call on a mounted one;
    either way the adapter ends unmounted, whatever the call answers. *)
Theorem destructor_unmounts :
  (forall (fs : LittleFSImpl.t),
     LittleFSImpl.mounted_ fs = false -> silent (LittleFSImpl.destroy fs) fs) /\
  (forall (S : Type) (L : lib lfsE S) (s s1 : S) (fs : LittleFSImpl.t) (res : Z),
     LittleFSImpl.mounted_ fs = true ->
     L _ lfs_unmount s = (res, s1) ->
     run L (LittleFSImpl.destroy fs) s =
       (Some (LittleFSImpl.set_mounted fs false), s1, [Ev lfs_unmount res])) /\
  (forall (fs : FatFSImpl.t),
     FatFSImpl.mounted_ fs = false -> silent (FatFSImpl.destroy fs) fs) /\
  (forall (S : Type) (L : lib ffE S) (s s1 : S) (fs : FatFSImpl.t) (res : Z),
     FatFSImpl.mounted_ fs = true ->
     L _ (f_mount None (FatFSImpl.drive_path_ fs) 0) s = (res, s1) ->
     run L (FatFSImpl.destroy fs) s =
       (Some (FatFSImpl.set_mounted fs false), s1,
        [Ev (f_mount None (FatFSImpl.drive_path_ fs) 0) res])).
Proof.
  split; [|split; [|split]].
  - intros fs Hm S L s. unfold LittleFSImpl.destroy. rewrite Hm. reflexivity.
  - intros S L s s1 fs res Hm HL.
    unfold LittleFSImpl.destroy, LittleFSImpl.unmount. rewrite Hm.
    simpl. rewrite HL. reflexivity.
  - intros fs Hm S L s. unfold FatFSImpl.destroy. rewrite Hm. reflexivity.
  - intros S L s s1 fs res Hm HL.
    unfold FatFSImpl.destroy, FatFSImpl.unmount. rewrite Hm.
    simpl. rewrite HL. reflexivity.
Qed.

End MountState.

Lemma unmount_always_unmounts_witness :
  run scripted_lfs (LittleFSImpl.unmount (lfsh := littlefs_h) lfs0_mounted) [-5] =
    (Some (ERROR_IO, lfs0), [], [Ev lfs_unmount (-5)]) /\
  run scripted_ff (FatFSImpl.unmount (ffh := fatfs_h) fat0_mounted) (ff_script [1]) =
    (Some (ERROR_IO, fat0), ff_script [], [Ev (f_mount None "0:" 0) 1]).
Proof.
  destruct (@unmount_always_unmounts littlefs_h fatfs_h) as [Hlfs Hfat].
  split.
  - exact (Hlfs (list Z) scripted_lfs [-5] [] lfs0_mounted (-5) eq_refl eq_refl).
  - exact (Hfat one_file scripted_ff (ff_script [1]) (ff_script []) fat0_mounted 1
             eq_refl eq_refl).
Defined.

Lemma fat_mount_single_attempt_witness :
  run scripted_ff (FatFSImpl.mount (ffh := fatfs_h) fat0) (ff_script [13]) =
    (Some (ERROR_CORRUPT, fat0), ff_script [], [Ev (f_mount (Some 2%N) "0:" 1) 13]).
Proof.
  exact (@fat_mount_single_attempt fatfs_h one_file scripted_ff (ff_script [13])
           (ff_script []) fat0 13 eq_refl eq_refl).
Defined.

Lemma lfs_mounted_has_config_witness :
  fst (fst (run scripted_lfs
              (LittleFSImpl.get_free_space (lfsh := littlefs_h) lfs0_mounted 0) [5]))
    <> None /\
  fst (fst (run scripted_lfs
              (LittleFSImpl.get_total_space lfs0_mounted 0) []))
    <> None.
Proof.
  destruct (@lfs_mounted_has_config littlefs_h) as [_ Hkeeps].
  destruct (Hkeeps (list Z) scripted_lfs [5] lfs0_mounted eq_refl)
    as (_ & _ & Hfree & _).
  destruct (Hkeeps (list Z) scripted_lfs [] lfs0_mounted eq_refl)
    as (_ & _ & _ & Htotal).
  split; [apply Hfree | apply Htotal].
Defined.

Lemma destructor_unmounts_witness :
  silent (LittleFSImpl.destroy (lfsh := littlefs_h) lfs0) lfs0 /\
  run scripted_lfs (LittleFSImpl.destroy (lfsh := littlefs_h) lfs0_mounted) [-5] =
    (Some lfs0, [], [Ev lfs_unmount (-5)]) /\
  silent (FatFSImpl.destroy (ffh := fatfs_h) fat0) fat0 /\
  run scripted_ff (FatFSImpl.destroy (ffh := fatfs_h) fat0_mounted) (ff_script [1]) =
    (Some fat0, ff_script [], [Ev (f_mount None "0:" 0) 1]).
Proof.
  destruct (@destructor_unmounts littlefs_h fatfs_h) as (Hl0 & Hl1 & Hf0 & Hf1).
  split; [exact (Hl0 lfs0 eq_refl)|].
  split; [exact (Hl1 (list Z) scripted_lfs [-5] [] lfs0_mounted (-5) eq_refl eq_refl)|].
  split; [exact (Hf0 fat0 eq_refl)|].
  exact (Hf1 one_file scripted_ff (ff_script [1]) (ff_script []) fat0_mounted 1
           eq_refl eq_refl).
Defined.

(** ** Opening, ownership and the life of a handle *)

Section Lifecycle.
Context {lfsh : lfs_h} {ffh : ff_h}.

Lemma fat_file_ops_refuse (fat : FatFSImpl.t) (h : FileHandle) :
  is_open h = false \/ fs_impl h <> Some (FatFSImpl.this fat) ->
  fat_refuses fat h.
Proof.
  intros Hstale. apply fat_bad_file_stale in Hstale.
  unfold fat_refuses, FatFSImpl.close, FatFSImpl.read, FatFSImpl.write,
    FatFSImpl.seek, FatFSImpl.tell, FatFSImpl.sync, FatFSImpl.truncate.
  rewrite Hstale. repeat split; intros; apply silent_ret.
Qed.

Lemma lfs_open_run (S : Type) (L : lib lfsE S) (s s1 : S) (fs : LittleFSImpl.t)
    (h : FileHandle) (path : string) (mode res : Z) (file : storage) :
  LittleFSImpl.mounted_ fs = true -> is_open h = false ->
  L _ (lfs_file_open (lfs_file h) path (LittleFSImpl.convert_open_mode mode)) s =
    ((res, file), s1) ->
  run L (LittleFSImpl.open fs h path mode) s =
    (Some (if res =? LFS_ERR_OK
           then (OK, mkFileHandle true (Some (LittleFSImpl.this fs)) file)
           else (LittleFSImpl.convert_lfs_error res, LittleFSImpl.set_lfs_file h file)),
     s1,
     [Ev (lfs_file_open (lfs_file h) path (LittleFSImpl.convert_open_mode mode))
         (res, file)]).
Proof.
  intros Hm Ho HL. unfold LittleFSImpl.open. rewrite Hm, Ho. simpl negb. cbv iota zeta.
  rewrite (run_call L _ _ s HL). destruct (res =? LFS_ERR_OK); reflexivity.
Qed.

Lemma fat_open_run (S : Type) (L : lib ffE S) (s s1 : S) (fs : FatFSImpl.t)
    (h : FileHandle) (path : string) (mode res : Z) (fp : storage) :
  FatFSImpl.mounted_ fs = true -> is_open h = false ->
  L _ (f_open (fat_file h) path (FatFSImpl.convert_open_mode mode)) s =
    ((res, fp), s1) ->
  run L (FatFSImpl.open fs h path mode) s =
    (Some (if res =? FR_OK
           then (OK, mkFileHandle true (Some (FatFSImpl.this fs)) fp)
           else (FatFSImpl.convert_fatfs_error res, FatFSImpl.set_fat_file h fp)),
     s1,
     [Ev (f_open (fat_file h) path (FatFSImpl.convert_open_mode mode)) (res, fp)]).
Proof.
  intros Hm Ho HL. unfold FatFSImpl.open. rewrite Hm, Ho. simpl negb. cbv iota zeta.
  rewrite (run_call L _ _ s HL). destruct (res =? FR_OK); reflexivity.
Qed.

Lemma lfs_close_run (S : Type) (L : lib lfsE S) (s s1 : S) (fs : LittleFSImpl.t)
    (h : FileHandle) (res : Z) (file : storage) :
  is_open h = true -> fs_impl h = Some (LittleFSImpl.this fs) ->
  L _ (lfs_file_close (lfs_file h)) s = ((res, file), s1) ->
  run L (LittleFSImpl.close fs h) s =
    (Some (LittleFSImpl.convert_lfs_error res, mkFileHandle false None file), s1,
     [Ev (lfs_file_close (lfs_file h)) (res, file)]).
Proof.
  intros Ho Hf HL. unfold LittleFSImpl.close.
  rewrite (lfs_bad_file_owned fs h Ho Hf). rewrite (run_call L _ _ s HL). reflexivity.
Qed.

Lemma fat_close_run (S : Type) (L : lib ffE S) (s s1 : S) (fs : FatFSImpl.t)
    (h : FileHandle) (res : Z) (fp : storage) :
  is_open h = true -> fs_impl h = Some (FatFSImpl.this fs) ->
  L _ (f_close (fat_file h)) s = ((res, fp), s1) ->
  run L (FatFSImpl.close fs h) s =
    (Some (FatFSImpl.convert_fatfs_error res, mkFileHandle false None fp), s1,
     [Ev (f_close (fat_file h)) (res, fp)]).
Proof.
  intros Ho Hf HL. unfold FatFSImpl.close.
  rewrite (fat_bad_file_owned fs h Ho Hf). rewrite (run_call L _ _ s HL). reflexivity.
Qed.

(** X6.  On an unmounted adapter of either backend, open, opendir,
    remove, rename, stat, mkdir, rmdir and the two space queries return
    [ERROR_NOT_MOUNTED] without any native call and leave the handle or
    output variable they were given untouched. *)
Theorem unmounted_adapter_refuses (lfs : LittleFSImpl.t) (fat : FatFSImpl.t) :
  (LittleFSImpl.mounted_ lfs = false ->
     (forall h path mode,
        silent (LittleFSImpl.open lfs h path mode) (ERROR_NOT_MOUNTED, h)) /\
     (forall d path,
        silent (LittleFSImpl.opendir lfs d path) (ERROR_NOT_MOUNTED, d)) /\
     (forall path, silent (LittleFSImpl.remove lfs path) ERROR_NOT_MOUNTED) /\
     (forall old_path new_path,
        silent (LittleFSImpl.rename lfs old_path new_path) ERROR_NOT_MOUNTED) /\
     (forall path info,
        silent (LittleFSImpl.stat lfs path info) (ERROR_NOT_MOUNTED, info)) /\
     (forall path, silent (LittleFSImpl.mkdir lfs path) ERROR_NOT_MOUNTED) /\
     (forall path, silent (LittleFSImpl.rmdir lfs path) ERROR_NOT_MOUNTED) /\
     (forall free_bytes,
        silent (LittleFSImpl.get_free_space lfs free_bytes)
               (ERROR_NOT_MOUNTED, free_bytes)) /\
     (forall total_bytes,
        silent (LittleFSImpl.get_total_space lfs total_bytes)
               (ERROR_NOT_MOUNTED, total_bytes))) /\
  (FatFSImpl.mounted_ fat = false ->
     (forall h path mode,
        silent (FatFSImpl.open fat h path mode) (ERROR_NOT_MOUNTED, h)) /\
     (forall d path,
        silent (FatFSImpl.opendir fat d path) (ERROR_NOT_MOUNTED, d)) /\
     (forall path, silent (FatFSImpl.remove fat path) ERROR_NOT_MOUNTED) /\
     (forall old_path new_path,
        silent (FatFSImpl.rename fat old_path new_path) ERROR_NOT_MOUNTED) /\
     (forall path info,
        silent (FatFSImpl.stat fat path info) (ERROR_NOT_MOUNTED, info)) /\
     (forall path, silent (FatFSImpl.mkdir fat path) ERROR_NOT_MOUNTED) /\
     (forall path, silent (FatFSImpl.rmdir fat path) ERROR_NOT_MOUNTED) /\
     (forall free_bytes,
        silent (FatFSImpl.get_free_space fat free_bytes)
               (ERROR_NOT_MOUNTED, free_bytes)) /\
     (forall total_bytes,
        silent (FatFSImpl.get_total_space fat total_bytes)
               (ERROR_NOT_MOUNTED, total_bytes))).
Proof.
  split; intros Hm.
  - unfold LittleFSImpl.open, LittleFSImpl.opendir, LittleFSImpl.remove,
      LittleFSImpl.rename, LittleFSImpl.stat, LittleFSImpl.mkdir,
      LittleFSImpl.rmdir, LittleFSImpl.get_free_space,
      LittleFSImpl.get_total_space.
    rewrite Hm. simpl negb. repeat split; intros; apply silent_ret.
  - unfold FatFSImpl.open, FatFSImpl.opendir, FatFSImpl.remove, FatFSImpl.rename,
      FatFSImpl.stat, FatFSImpl.mkdir, FatFSImpl.rmdir, FatFSImpl.get_free_space,
      FatFSImpl.get_total_space.
    rewrite Hm. simpl negb. repeat split; intros; apply silent_ret.
Qed.

(** X7.  Opening a file on a mounted adapter of either backend.  A handle
    that is already open, whoever owns it, is refused with
    [ERROR_BAD_FILE] without a native call and left untouched.  A closed
    handle leads to exactly one native open with the path as given and
    the translated mode; on native OK the handle comes back open and
    stamped with the adapter's address, on any other status the
    translated status comes back and the handle stays closed with its
    [fs_impl] as it was. *)
Theorem open_contract :
  (forall (fs : LittleFSImpl.t) (h : FileHandle) (path : string) (mode : Z),
     LittleFSImpl.mounted_ fs = true ->
     (is_open h = true ->
        silent (LittleFSImpl.open fs h path mode) (ERROR_BAD_FILE, h)) /\
     (is_open h = false ->
        forall (S : Type) (L : lib lfsE S) (s s1 : S) (res : Z) (file : storage),
          L _ (lfs_file_open (lfs_file h) path (LittleFSImpl.convert_open_mode mode)) s =
            ((res, file), s1) ->
          exists r h',
            run L (LittleFSImpl.open fs h path mode) s =
              (Some (r, h'), s1,
               [Ev (lfs_file_open (lfs_file h) path
                      (LittleFSImpl.convert_open_mode mode)) (res, file)]) /\
            file_union h' = file /\
            (res = LFS_ERR_OK ->
               r = OK /\ is_open h' = true /\
               fs_impl h' = Some (LittleFSImpl.this fs)) /\
            (res <> LFS_ERR_OK ->
               r = LittleFSImpl.convert_lfs_error res /\ r <> OK /\
               is_open h' = false /\ fs_impl h' = fs_impl h))) /\
  (forall (fs : FatFSImpl.t) (h : FileHandle) (path : string) (mode : Z),
     FatFSImpl.mounted_ fs = true ->
     (is_open h = true ->
        silent (FatFSImpl.open fs h path mode) (ERROR_BAD_FILE, h)) /\
     (is_open h = false ->
        forall (S : Type) (L : lib ffE S) (s s1 : S) (res : Z) (fp : storage),
          L _ (f_open (fat_file h) path (FatFSImpl.convert_open_mode mode)) s =
            ((res, fp), s1) ->
          exists r h',
            run L (FatFSImpl.open fs h path mode) s =
              (Some (r, h'), s1,
               [Ev (f_open (fat_file h) path (FatFSImpl.convert_open_mode mode))
                   (res, fp)]) /\
            file_union h' = fp /\
            (res = FR_OK ->
               r = OK /\ is_open h' = true /\
               fs_impl h' = Some (FatFSImpl.this fs)) /\
            (res <> FR_OK ->
               r = FatFSImpl.convert_fatfs_error res /\ r <> OK /\
               is_open h' = false /\ fs_impl h' = fs_impl h))).
Proof.
  split; intros fs h path mode Hm; split.
  - intros Ho S L s. unfold LittleFSImpl.open. rewrite Hm, Ho. reflexivity.
  - intros Ho S L s s1 res file HL.
    rewrite (lfs_open_run L s fs h path mode Hm Ho HL).
    destruct (Z.eqb_spec res LFS_ERR_OK) as [Hok | Hno].
    + do 2 eexists. split; [reflexivity|]. split; [reflexivity|].
      split; [auto | contradiction].
    + do 2 eexists. split; [reflexivity|]. split; [reflexivity|].
      split; [contradiction|]. intros _.
      pose proof (convert_lfs_error_not_ok Hno). simpl. auto.
  - intros Ho S L s. unfold FatFSImpl.open. rewrite Hm, Ho. reflexivity.
  - intros Ho S L s s1 res fp HL.
    rewrite (fat_open_run L s fs h path mode Hm Ho HL).
    destruct (Z.eqb_spec res FR_OK) as [Hok | Hno].
    + do 2 eexists. split; [reflexivity|]. split; [reflexivity|].
      split; [auto | contradiction].
    + do 2 eexists. split; [reflexivity|]. split; [reflexivity|].
      split; [contradiction|]. intros _.
      pose proof (convert_fatfs_error_not_ok Hno). simpl. auto.
Qed.

End Lifecycle.

Section Ownership.
Context {lfsh : lfs_h} {ffh : ff_h}.

(** X8.  Opening a directory on a mounted adapter of either backend: an
    already open handle is refused with [ERROR_BAD_FILE] without a native
    call; a closed one leads to exactly one native directory open, which
    on native OK returns the handle open and stamped with the adapter's
    address and otherwise returns the translated status with the handle
    still closed. *)
Theorem opendir_contract :
  (forall (fs : LittleFSImpl.t) (d : DirHandle) (path : string),
     LittleFSImpl.mounted_ fs = true ->
     (dir_is_open d = true ->
        silent (LittleFSImpl.opendir fs d path) (ERROR_BAD_FILE, d)) /\
     (dir_is_open d = false ->
        forall (S : Type) (L : lib lfsE S) (s s1 : S) (res : Z) (dir : storage),
          L _ (lfs_dir_open (lfs_dir d) path) s = ((res, dir), s1) ->
          exists r d',
            run L (LittleFSImpl.opendir fs d path) s =
              (Some (r, d'), s1, [Ev (lfs_dir_open (lfs_dir d) path) (res, dir)]) /\
            dir_union d' = dir /\
            (res = LFS_ERR_OK ->
               r = OK /\ dir_is_open d' = true /\
               dir_fs_impl d' = Some (LittleFSImpl.this fs)) /\
            (res <> LFS_ERR_OK ->
               r = LittleFSImpl.convert_lfs_error res /\ r <> OK /\
               dir_is_open d' = false /\ dir_fs_impl d' = dir_fs_impl d))) /\
  (forall (fs : FatFSImpl.t) (d : DirHandle) (path : string),
     FatFSImpl.mounted_ fs = true ->
     (dir_is_open d = true ->
        silent (FatFSImpl.opendir fs d path) (ERROR_BAD_FILE, d)) /\
     (dir_is_open d = false ->
        forall (S : Type) (L : lib ffE S) (s s1 : S) (res : Z) (dp : storage),
          L _ (f_opendir (fat_dir d) path) s = ((res, dp), s1) ->
          exists r d',
            run L (FatFSImpl.opendir fs d path) s =
              (Some (r, d'), s1, [Ev (f_opendir (fat_dir d) path) (res, dp)]) /\
            dir_union d' = dp /\
            (res = FR_OK ->
               r = OK /\ dir_is_open d' = true /\
               dir_fs_impl d' = Some (FatFSImpl.this fs)) /\
            (res <> FR_OK ->
               r = FatFSImpl.convert_fatfs_error res /\ r <> OK /\
               dir_is_open d' = false /\ dir_fs_impl d' = dir_fs_impl d))).
Proof.
  split; intros fs d path Hm; split.
  - intros Ho S L s. unfold LittleFSImpl.opendir. rewrite Hm, Ho. reflexivity.
  - intros Ho S L s s1 res dir HL.
    unfold LittleFSImpl.opendir. rewrite Hm, Ho. simpl negb. cbv iota.
    rewrite (run_call L _ _ s HL).
    destruct (Z.eqb_spec res LFS_ERR_OK) as [Hok | Hno].
    + do 2 eexists. split; [reflexivity|]. split; [reflexivity|].
      split; [auto | contradiction].
    + do 2 eexists. split; [reflexivity|]. split; [reflexivity|].
      split; [contradiction|]. intros _.
      pose proof (convert_lfs_error_not_ok Hno). simpl. auto.
  - intros Ho S L s. unfold FatFSImpl.opendir. rewrite Hm, Ho. reflexivity.
  - intros Ho S L s s1 res dp HL.
    unfold FatFSImpl.opendir. rewrite Hm, Ho. simpl negb. cbv iota.
    rewrite (run_call L _ _ s HL).
    destruct (Z.eqb_spec res FR_OK) as [Hok | Hno].
    + do 2 eexists. split; [reflexivity|]. split; [reflexivity|].
      split; [auto | contradiction].
    + do 2 eexists. split; [reflexivity|]. split; [reflexivity|].
      split; [contradiction|]. intros _.
      pose proof (convert_fatfs_error_not_ok Hno). simpl. auto.
Qed.

(** X9.  A file handle opened with success is owned by the adapter that
    opened it and by no other: that adapter's handle check accepts it,
    while every file operation of any adapter at another address, of
    either backend, returns [ERROR_BAD_FILE] on it without a native
    call. *)
Theorem opened_handle_has_one_owner :
  (forall (S : Type) (L : lib lfsE S) (s s1 : S) (fs : LittleFSImpl.t)
          (h : FileHandle) (path : string) (mode : Z) (file : storage),
     LittleFSImpl.mounted_ fs = true -> is_open h = false ->
     L _ (lfs_file_open (lfs_file h) path (LittleFSImpl.convert_open_mode mode)) s =
       ((LFS_ERR_OK, file), s1) ->
     exists h',
       fst (fst (run L (LittleFSImpl.open fs h path mode) s)) = Some (OK, h') /\
       LittleFSImpl.bad_file fs h' = false /\
       (forall other : LittleFSImpl.t,
          LittleFSImpl.this other <> LittleFSImpl.this fs -> lfs_refuses other h') /\
       (forall other : FatFSImpl.t,
          FatFSImpl.this other <> LittleFSImpl.this fs -> fat_refuses other h')) /\
  (forall (S : Type) (L : lib ffE S) (s s1 : S) (fs : FatFSImpl.t)
          (h : FileHandle) (path : string) (mode : Z) (fp : storage),
     FatFSImpl.mounted_ fs = true -> is_open h = false ->
     L _ (f_open (fat_file h) path (FatFSImpl.convert_open_mode mode)) s =
       ((FR_OK, fp), s1) ->
     exists h',
       fst (fst (run L (FatFSImpl.open fs h path mode) s)) = Some (OK, h') /\
       FatFSImpl.bad_file fs h' = false /\
       (forall other : FatFSImpl.t,
          FatFSImpl.this other <> FatFSImpl.this fs -> fat_refuses other h') /\
       (forall other : LittleFSImpl.t,
          LittleFSImpl.this other <> FatFSImpl.this fs -> lfs_refuses other h')).
Proof.
  split.
  - intros S L s s1 fs h path mode file Hm Ho HL.
    rewrite (lfs_open_run L s fs h path mode Hm Ho HL). rewrite Z.eqb_refl.
    eexists. split; [reflexivity|]. split; [|split].
    + now apply lfs_bad_file_owned.
    + intros other Hne. apply lfs_file_ops_refuse. right. simpl. congruence.
    + intros other Hne. apply fat_file_ops_refuse. right. simpl. congruence.
  - intros S L s s1 fs h path mode fp Hm Ho HL.
    rewrite (fat_open_run L s fs h path mode Hm Ho HL). rewrite Z.eqb_refl.
    eexists. split; [reflexivity|]. split; [|split].
    + now apply fat_bad_file_owned.
    + intros other Hne. apply fat_file_ops_refuse. right. simpl. congruence.
    + intros other Hne. apply lfs_file_ops_refuse. right. simpl. congruence.
Qed.

(** X10.  Open, close, open again on one mounted adapter and one handle:
    if the first open succeeds, the close releases the handle whatever
    status it answers, and the second open is accepted, so the run makes
    exactly the three native calls open, close, open, each on the file
    object the previous call left. *)
Theorem closed_handle_reopens :
  (forall (S : Type) (L : lib lfsE S) (s s1 s2 s3 : S) (fs : LittleFSImpl.t)
          (h : FileHandle) (path : string) (mode rc r3 : Z) (f1 f2 f3 : storage),
     LittleFSImpl.mounted_ fs = true -> is_open h = false ->
     let flags := LittleFSImpl.convert_open_mode mode in
     L _ (lfs_file_open (lfs_file h) path flags) s = ((LFS_ERR_OK, f1), s1) ->
     L _ (lfs_file_close f1) s1 = ((rc, f2), s2) ->
     L _ (lfs_file_open f2 path flags) s2 = ((r3, f3), s3) ->
     run L ('(_, h1) <- LittleFSImpl.open fs h path mode ;;
            '(_, h2) <- LittleFSImpl.close fs h1 ;;
            LittleFSImpl.open fs h2 path mode) s =
       (Some (if r3 =? LFS_ERR_OK
              then (OK, mkFileHandle true (Some (LittleFSImpl.this fs)) f3)
              else (LittleFSImpl.convert_lfs_error r3, mkFileHandle false None f3)),
        s3,
        [Ev (lfs_file_open (lfs_file h) path flags) (LFS_ERR_OK, f1);
         Ev (lfs_file_close f1) (rc, f2);
         Ev (lfs_file_open f2 path flags) (r3, f3)])) /\
  (forall (S : Type) (L : lib ffE S) (s s1 s2 s3 : S) (fs : FatFSImpl.t)
          (h : FileHandle) (path : string) (mode rc r3 : Z) (f1 f2 f3 : storage),
     FatFSImpl.mounted_ fs = true -> is_open h = false ->
     let fat_mode := FatFSImpl.convert_open_mode mode in
     L _ (f_open (fat_file h) path fat_mode) s = ((FR_OK, f1), s1) ->
     L _ (f_close f1) s1 = ((rc, f2), s2) ->
     L _ (f_open f2 path fat_mode) s2 = ((r3, f3), s3) ->
     run L ('(_, h1) <- FatFSImpl.open fs h path mode ;;
            '(_, h2) <- FatFSImpl.close fs h1 ;;
            FatFSImpl.open fs h2 path mode) s =
       (Some (if r3 =? FR_OK
              then (OK, mkFileHandle true (Some (FatFSImpl.this fs)) f3)
              else (FatFSImpl.convert_fatfs_error r3, mkFileHandle false None f3)),
        s3,
        [Ev (f_open (fat_file h) path fat_mode) (FR_OK, f1);
         Ev (f_close f1) (rc, f2);
         Ev (f_open f2 path fat_mode) (r3, f3)])).
Proof.
  split.
  - intros S L s s1 s2 s3 fs h path mode rc r3 f1 f2 f3 Hm Ho flags H1 H2 H3.
    rewrite run_bind.
    rewrite (lfs_open_run L s fs h path mode Hm Ho H1). rewrite Z.eqb_refl.
    rewrite run_bind.
    rewrite (lfs_close_run L s1 fs (mkFileHandle true (Some (LittleFSImpl.this fs)) f1)
               eq_refl eq_refl H2).
    rewrite (lfs_open_run L s2 fs (mkFileHandle false None f2) path mode Hm eq_refl H3).
    destruct (r3 =? LFS_ERR_OK); reflexivity.
  - intros S L s s1 s2 s3 fs h path mode rc r3 f1 f2 f3 Hm Ho fat_mode H1 H2 H3.
    rewrite run_bind.
    rewrite (fat_open_run L s fs h path mode Hm Ho H1). rewrite Z.eqb_refl.
    rewrite run_bind.
    rewrite (fat_close_run L s1 fs (mkFileHandle true (Some (FatFSImpl.this fs)) f1)
               eq_refl eq_refl H2).
    rewrite (fat_open_run L s2 fs (mkFileHandle false None f2) path mode Hm eq_refl H3).
    destruct (r3 =? FR_OK); reflexivity.
Qed.

(** X11.  Handle operations do not consult the mount state: after a
    mounted adapter is unmounted, closing a file handle it still holds
    open is not refused but reaches the library, so the run makes the
    unmount call and then the native close, and returns the translated
    status of the close with the handle released. *)
Theorem handle_outlives_unmount :
  (forall (S : Type) (L : lib lfsE S) (s s1 s2 : S) (fs : LittleFSImpl.t)
          (h : FileHandle) (ru rc : Z) (file : storage),
     LittleFSImpl.mounted_ fs = true ->
     is_open h = true -> fs_impl h = Some (LittleFSImpl.this fs) ->
     L _ lfs_unmount s = (ru, s1) ->
     L _ (lfs_file_close (lfs_file h)) s1 = ((rc, file), s2) ->
     run L ('(_, fs1) <- LittleFSImpl.unmount fs ;; LittleFSImpl.close fs1 h) s =
       (Some (LittleFSImpl.convert_lfs_error rc, mkFileHandle false None file), s2,
        [Ev lfs_unmount ru; Ev (lfs_file_close (lfs_file h)) (rc, file)])) /\
  (forall (S : Type) (L : lib ffE S) (s s1 s2 : S) (fs : FatFSImpl.t)
          (h : FileHandle) (ru rc : Z) (fp : storage),
     FatFSImpl.mounted_ fs = true ->
     is_open h = true -> fs_impl h = Some (FatFSImpl.this fs) ->
     L _ (f_mount None (FatFSImpl.drive_path_ fs) 0) s = (ru, s1) ->
     L _ (f_close (fat_file h)) s1 = ((rc, fp), s2) ->
     run L ('(_, fs1) <- FatFSImpl.unmount fs ;; FatFSImpl.close fs1 h) s =
       (Some (FatFSImpl.convert_fatfs_error rc, mkFileHandle false None fp), s2,
        [Ev (f_mount None (FatFSImpl.drive_path_ fs) 0) ru;
         Ev (f_close (fat_file h)) (rc, fp)])).
Proof.
  split.
  - intros S L s s1 s2 fs h ru rc file Hm Ho Hf Hu Hc.
    rewrite run_bind. unfold LittleFSImpl.unmount at 1. rewrite Hm.
    simpl negb. cbv iota. rewrite (run_call L _ _ s Hu). simpl run at 1. cbv iota beta.
    rewrite (lfs_close_run L s1 (LittleFSImpl.set_mounted fs false) h Ho Hf Hc).
    reflexivity.
  - intros S L s s1 s2 fs h ru rc fp Hm Ho Hf Hu Hc.
    rewrite run_bind. unfold FatFSImpl.unmount at 1. rewrite Hm.
    simpl negb. cbv iota. rewrite (run_call L _ _ s Hu). simpl run at 1. cbv iota beta.
    rewrite (fat_close_run L s1 (FatFSImpl.set_mounted fs false) h Ho Hf Hc).
    reflexivity.
Qed.

End Ownership.

Lemma unmounted_adapter_refuses_witness :
  silent (LittleFSImpl.stat (lfsh := littlefs_h) lfs0 "/a.txt" FileInfo_new)
         (ERROR_NOT_MOUNTED, FileInfo_new) /\
  silent (FatFSImpl.open (ffh := fatfs_h) fat0 closed_handle "/a.txt" OpenMode.READ)
         (ERROR_NOT_MOUNTED, closed_handle).
Proof.
  destruct (@unmounted_adapter_refuses littlefs_h fatfs_h lfs0 fat0) as [Hlfs Hfat].
  destruct (Hlfs eq_refl) as (_ & _ & _ & _ & Hstat & _).
  destruct (Hfat eq_refl) as (Hopen & _).
  split; [apply Hstat | apply Hopen].
Defined.

Lemma open_contract_witness :
  silent (LittleFSImpl.open (lfsh := littlefs_h) lfs0_mounted fat_handle "/a.txt"
            OpenMode.READ)
         (ERROR_BAD_FILE, fat_handle) /\
  (exists r h',
     run scripted_ff
         (FatFSImpl.open (ffh := fatfs_h) fat0_mounted closed_handle "/a.txt"
            OpenMode.READ)
         (ff_script [4]) =
       (Some (r, h'), ff_script [], [Ev (f_open [] "/a.txt" 1) (4, [])]) /\
     r <> OK /\ is_open h' = false).
Proof.
  destruct (@open_contract littlefs_h fatfs_h) as [Hlfs Hfat].
  split.
  - destruct (Hlfs lfs0_mounted fat_handle "/a.txt"%string OpenMode.READ eq_refl)
      as [Hbusy _].
    exact (Hbusy eq_refl).
  - destruct (Hfat fat0_mounted closed_handle "/a.txt"%string OpenMode.READ eq_refl)
      as [_ Hfree].
    destruct (Hfree eq_refl one_file scripted_ff (ff_script [4]) (ff_script []) 4 []
                eq_refl) as (r & h' & Hrun & _ & _ & Hfail).
    assert (4 <> @FR_OK fatfs_h) as Hne by (simpl; lia).
    destruct (Hfail Hne) as (_ & Hr & Hclosed & _).
    exists r, h'. split; [exact Hrun|]. split; assumption.
Defined.

Lemma opendir_contract_witness :
  silent (FatFSImpl.opendir (ffh := fatfs_h) fat0_mounted fat_dirhandle "/")
         (ERROR_BAD_FILE, fat_dirhandle) /\
  (exists r d',
     run scripted_lfs
         (LittleFSImpl.opendir (lfsh := littlefs_h) lfs0_mounted closed_dirhandle "/")
         [0] =
       (Some (r, d'), [], [Ev (lfs_dir_open [] "/") (0, [])]) /\
     r = OK /\ dir_is_open d' = true /\ dir_fs_impl d' = Some 1%N).
Proof.
  destruct (@opendir_contract littlefs_h fatfs_h) as [Hlfs Hfat].
  split.
  - destruct (Hfat fat0_mounted fat_dirhandle "/"%string eq_refl) as [Hbusy _].
    exact (Hbusy eq_refl).
  - destruct (Hlfs lfs0_mounted closed_dirhandle "/"%string eq_refl) as [_ Hfree].
    destruct (Hfree eq_refl (list Z) scripted_lfs [0] [] 0 [] eq_refl)
      as (r & d' & Hrun & _ & Hok & _).
    exists r, d'. split; [exact Hrun | exact (Hok eq_refl)].
Defined.

Lemma opened_handle_has_one_owner_witness :
  exists h',
    fst (fst (run scripted_lfs
                (LittleFSImpl.open (lfsh := littlefs_h) lfs0_mounted closed_handle
                   "/a.txt" OpenMode.READ) [0])) = Some (OK, h') /\
    lfs_refuses (lfsh := littlefs_h) lfs_other h' /\
    fat_refuses (ffh := fatfs_h) fat0_mounted h'.
Proof.
  destruct (@opened_handle_has_one_owner littlefs_h fatfs_h) as [Hlfs _].
  destruct (Hlfs (list Z) scripted_lfs [0] [] lfs0_mounted closed_handle
              "/a.txt"%string OpenMode.READ [] eq_refl eq_refl eq_refl)
    as (h' & Hrun & _ & Hothers & Hfat).
  exists h'. split; [exact Hrun|]. split.
  - apply Hothers. simpl. discriminate.
  - apply Hfat. simpl. discriminate.
Defined.

Lemma closed_handle_reopens_witness :
  run scripted_lfs
      ('(_, h1) <- LittleFSImpl.open (lfsh := littlefs_h) lfs0_mounted closed_handle
                     "/a.txt" OpenMode.READ ;;
       '(_, h2) <- LittleFSImpl.close (lfsh := littlefs_h) lfs0_mounted h1 ;;
       LittleFSImpl.open (lfsh := littlefs_h) lfs0_mounted h2 "/a.txt" OpenMode.READ)
      [0; -5; 0] =
    (Some (OK, lfs_handle), [],
     [Ev (lfs_file_open [] "/a.txt" 1) (0, []); Ev (lfs_file_close []) (-5, []);
      Ev (lfs_file_open [] "/a.txt" 1) (0, [])]).
Proof.
  destruct (@closed_handle_reopens littlefs_h fatfs_h) as [Hlfs _].
  exact (Hlfs (list Z) scripted_lfs [0; -5; 0] [-5; 0] [0] [] lfs0_mounted
           closed_handle "/a.txt"%string OpenMode.READ (-5) 0 [] [] []
           eq_refl eq_refl eq_refl eq_refl eq_refl).
Defined.

Lemma handle_outlives_unmount_witness :
  run scripted_ff
      ('(_, fs1) <- FatFSImpl.unmount (ffh := fatfs_h) fat0_mounted ;;
       FatFSImpl.close (ffh := fatfs_h) fs1 fat_handle)
      (ff_script [0; 0]) =
    (Some (OK, closed_handle), ff_script [],
     [Ev (f_mount None "0:" 0) 0; Ev (f_close []) (0, [])]).
Proof.
  destruct (@handle_outlives_unmount littlefs_h fatfs_h) as [_ Hfat].
  exact (Hfat one_file scripted_ff (ff_script [0; 0]) (ff_script [0]) (ff_script [])
           fat0_mounted fat_handle 0 0 [] eq_refl eq_refl eq_refl eq_refl eq_refl).
Defined.

(** ** Reading, writing and positions *)

Section Transfers.
Context {lfsh : lfs_h} {ffh : ff_h}.


(** X13.  Reading or writing through a file handle the FAT adapter holds
    open makes exactly one native call, asking for the size converted to
    [UINT] (the size itself when it fits); the translated status is
    returned and the byte count is whatever the library reported, also
    when the status is an error. *)
Theorem fat_transfer_counts :
  (forall (S : Type) (L : lib ffE S) (s s1 : S) (fs : FatFSImpl.t)
          (h : FileHandle) (buffer data : list byte) (size bytes_read res br : Z)
          (fp : storage),
     is_open h = true -> fs_impl h = Some (FatFSImpl.this fs) ->
     L _ (f_read (fat_file h) (FatFSImpl.UINT size)) s = ((res, fp, data, br), s1) ->
     run L (FatFSImpl.read fs h buffer size bytes_read) s =
       (Some (FatFSImpl.convert_fatfs_error res, FatFSImpl.set_fat_file h fp, data, br),
        s1, [Ev (f_read (fat_file h) (FatFSImpl.UINT size)) (res, fp, data, br)]) /\
     (0 <= size < 2 ^ UINT_bits -> FatFSImpl.UINT size = size)) /\
  (forall (S : Type) (L : lib ffE S) (s s1 : S) (fs : FatFSImpl.t)
          (h : FileHandle) (buffer : list byte) (size bytes_written res bw : Z)
          (fp : storage),
     is_open h = true -> fs_impl h = Some (FatFSImpl.this fs) ->
     L _ (f_write (fat_file h) buffer (FatFSImpl.UINT size)) s = ((res, fp, bw), s1) ->
     run L (FatFSImpl.write fs h buffer size bytes_written) s =
       (Some (FatFSImpl.convert_fatfs_error res, FatFSImpl.set_fat_file h fp, bw),
        s1, [Ev (f_write (fat_file h) buffer (FatFSImpl.UINT size)) (res, fp, bw)]) /\
     (0 <= size < 2 ^ UINT_bits -> FatFSImpl.UINT size = size)).
Proof.
  split.
  - intros S L s s1 fs h buffer data size bytes_read res br fp Ho Hf HL. split.
    + unfold FatFSImpl.read. rewrite (fat_bad_file_owned fs h Ho Hf).
      rewrite (run_call L _ _ s HL). reflexivity.
    + intros Hsize. unfold FatFSImpl.UINT, wrap. now apply Z.mod_small.
  - intros S L s s1 fs h buffer size bytes_written res bw fp Ho Hf HL. split.
    + unfold FatFSImpl.write. rewrite (fat_bad_file_owned fs h Ho Hf).
      rewrite (run_call L _ _ s HL). reflexivity.
    + intros Hsize. unfold FatFSImpl.UINT, wrap. now apply Z.mod_small.
Qed.

(** X14.  Seeking through a file handle the flash-log adapter holds open:
    an origin that is none of SET, CUR, END is refused with
    [ERROR_INVALID] without a native call; each of the three origins
    leads to one native seek with the offset unchanged and the matching
    [LFS_SEEK_*] constant, whose non-negative answer is returned as [OK]
    and whose negative answer is returned translated. *)
Theorem lfs_seek_by_origin (fs : LittleFSImpl.t) (h : FileHandle) (offset origin : Z) :
  is_open h = true -> fs_impl h = Some (LittleFSImpl.this fs) ->
  (origin <> SeekOrigin.SET -> origin <> SeekOrigin.CUR -> origin <> SeekOrigin.END ->
     silent (LittleFSImpl.seek fs h offset origin) (ERROR_INVALID, h)) /\
  (forall whence : Z,
     origin = SeekOrigin.SET /\ whence = LFS_SEEK_SET \/
     origin = SeekOrigin.CUR /\ whence = LFS_SEEK_CUR \/
     origin = SeekOrigin.END /\ whence = LFS_SEEK_END ->
     forall (S : Type) (L : lib lfsE S) (s s1 : S) (res : Z) (file : storage),
       L _ (lfs_file_seek (lfs_file h) offset whence) s = ((res, file), s1) ->
       run L (LittleFSImpl.seek fs h offset origin) s =
         (Some (if 0 <=? res then OK else LittleFSImpl.convert_lfs_error res,
                LittleFSImpl.set_lfs_file h file), s1,
          [Ev (lfs_file_seek (lfs_file h) offset whence) (res, file)])).
Proof.
  intros Ho Hf. split.
  - intros H0 H1 H2 S L s. unfold LittleFSImpl.seek.
    rewrite (lfs_bad_file_owned fs h Ho Hf). simpl switch.
    apply Z.eqb_neq in H0, H1, H2. rewrite H0, H1, H2. reflexivity.
  - intros whence Hcase S L s s1 res file HL. unfold LittleFSImpl.seek.
    rewrite (lfs_bad_file_owned fs h Ho Hf).
    destruct Hcase as [[-> ->] | [[-> ->] | [-> ->]]];
      cbv [switch SeekOrigin.SET SeekOrigin.CUR SeekOrigin.END Z.eqb Pos.eqb];
      rewrite (run_call L _ _ s HL); destruct (0 <=? res); reflexivity.
Qed.

(** X15.  Seeking through a file handle the FAT adapter holds open with an
    origin that is none of SET, CUR, END: position and size are queried,
    no native seek is made, and [ERROR_INVALID] is returned with the
    handle unchanged. *)
Theorem fat_seek_invalid_origin (S : Type) (L : lib ffE S) (s s1 s2 : S)
    (fs : FatFSImpl.t) (h : FileHandle) (offset origin pos fsz : Z) :
  is_open h = true -> fs_impl h = Some (FatFSImpl.this fs) ->
  origin <> SeekOrigin.SET -> origin <> SeekOrigin.CUR -> origin <> SeekOrigin.END ->
  L _ (f_tell (fat_file h)) s = (pos, s1) ->
  L _ (f_size (fat_file h)) s1 = (fsz, s2) ->
  run L (FatFSImpl.seek fs h offset origin) s =
    (Some (ERROR_INVALID, h), s2,
     [Ev (f_tell (fat_file h)) pos; Ev (f_size (fat_file h)) fsz]).
Proof.
  intros Ho Hf H0 H1 H2 Htell Hsize.
  unfold FatFSImpl.seek. rewrite (fat_bad_file_owned fs h Ho Hf).
  rewrite (run_call L _ _ s Htell). rewrite (run_call L _ _ s1 Hsize).
  unfold FatFSImpl.seek_new_pos. simpl switch.
  apply Z.eqb_neq in H0, H1, H2. rewrite H0, H1, H2. reflexivity.
Qed.


(** X17.  Seeking from the start with a non-negative offset on a file
    handle the FAT adapter holds open queries position and size and then
    makes the native seek to exactly that offset. *)
Theorem fat_seek_set_exact (S : Type) (L : lib ffE S) (s s1 s2 s3 : S)
    (fs : FatFSImpl.t) (h : FileHandle) (offset pos fsz res : Z) (fp : storage) :
  is_open h = true -> fs_impl h = Some (FatFSImpl.this fs) ->
  32 <= FSIZE_bits ->
  0 <= offset < 2 ^ 31 ->
  L _ (f_tell (fat_file h)) s = (pos, s1) ->
  L _ (f_size (fat_file h)) s1 = (fsz, s2) ->
  L _ (f_lseek (fat_file h) offset) s2 = ((res, fp), s3) ->
  run L (FatFSImpl.seek fs h offset SeekOrigin.SET) s =
    (Some (FatFSImpl.convert_fatfs_error res, FatFSImpl.set_fat_file h fp), s3,
     [Ev (f_tell (fat_file h)) pos; Ev (f_size (fat_file h)) fsz;
      Ev (f_lseek (fat_file h) offset) (res, fp)]).
Proof.
  intros Ho Hf Hw Hoff Htell Hsize Hseek.
  pose proof (pow_FSIZE_bits Hw) as Hpow.
  assert (2 ^ 31 < 2 ^ 32) as H31 by (vm_compute; reflexivity).
  unfold FatFSImpl.seek. rewrite (fat_bad_file_owned fs h Ho Hf).
  rewrite (run_call L _ _ s Htell). rewrite (run_call L _ _ s1 Hsize).
  assert (FatFSImpl.seek_new_pos pos fsz offset SeekOrigin.SET = Some offset) as ->.
  { unfold FatFSImpl.seek_new_pos. simpl switch. rewrite Z.geb_leb.
    destruct (Z.leb_spec 0 offset); [|lia]. f_equal. apply FSIZE_t_small. lia. }
  rewrite (run_call L _ _ s2 Hseek). reflexivity.
Qed.

(** X18.  Telling the position.  The flash-log adapter makes one native
    call; a non-negative answer is returned as [OK] with the position
    set to it (as a 32-bit value), a negative answer is returned
    translated with the caller's position variable untouched.  The FAT
    adapter only queries the file object and always returns [OK], with the
    low 32 bits of the queried position. *)
Theorem tell_reports_position :
  (forall (S : Type) (L : lib lfsE S) (s s1 : S) (fs : LittleFSImpl.t)
          (h : FileHandle) (position res : Z) (file : storage),
     is_open h = true -> fs_impl h = Some (LittleFSImpl.this fs) ->
     L _ (lfs_file_tell (lfs_file h)) s = ((res, file), s1) ->
     exists r p,
       run L (LittleFSImpl.tell fs h position) s =
         (Some (r, LittleFSImpl.set_lfs_file h file, p), s1,
          [Ev (lfs_file_tell (lfs_file h)) (res, file)]) /\
       (0 <= res -> r = OK /\ p = res mod 2 ^ 32) /\
       (res < 0 -> r = LittleFSImpl.convert_lfs_error res /\ p = position)) /\
  (forall (S : Type) (L : lib ffE S) (s s1 : S) (fs : FatFSImpl.t)
          (h : FileHandle) (position pos : Z),
     is_open h = true -> fs_impl h = Some (FatFSImpl.this fs) ->
     L _ (f_tell (fat_file h)) s = (pos, s1) ->
     run L (FatFSImpl.tell fs h position) s =
       (Some (OK, h, pos mod 2 ^ 32), s1, [Ev (f_tell (fat_file h)) pos])).
Proof.
  split.
  - intros S L s s1 fs h position res file Ho Hf HL.
    unfold LittleFSImpl.tell. rewrite (lfs_bad_file_owned fs h Ho Hf).
    rewrite (run_call L _ _ s HL).
    destruct (Z.leb_spec 0 res); do 2 eexists;
      (split; [reflexivity|]); split; intros; try lia; auto.
  - intros S L s s1 fs h position pos Ho Hf HL.
    unfold FatFSImpl.tell. rewrite (fat_bad_file_owned fs h Ho Hf).
    rewrite (run_call L _ _ s HL). reflexivity.
Qed.

End Transfers.


Lemma fat_transfer_counts_witness :
  run scripted_ff
      (FatFSImpl.write (ffh := fatfs_h) fat0_mounted fat_handle [] 16 7)
      (ff_script [1]) =
    (Some (ERROR_IO, fat_handle, 0), ff_script [], [Ev (f_write [] [] 16) (1, [], 0)]).
Proof.
  destruct (@fat_transfer_counts fatfs_h) as [_ Hwrite].
  destruct (Hwrite one_file scripted_ff (ff_script [1]) (ff_script []) fat0_mounted
              fat_handle [] 16 7 1 0 [] eq_refl eq_refl eq_refl) as [Hrun _].
  exact Hrun.
Defined.

Lemma lfs_seek_by_origin_witness :
  silent (LittleFSImpl.seek (lfsh := littlefs_h) lfs0_mounted lfs_handle 5 3)
         (ERROR_INVALID, lfs_handle) /\
  run scripted_lfs
      (LittleFSImpl.seek (lfsh := littlefs_h) lfs0_mounted lfs_handle (-4) SeekOrigin.END)
      [96] =
    (Some (OK, lfs_handle), [], [Ev (lfs_file_seek [] (-4) 2) (96, [])]).
Proof.
  split.
  - destruct (@lfs_seek_by_origin littlefs_h lfs0_mounted lfs_handle 5 3
                eq_refl eq_refl) as [Hbad _].
    apply Hbad; unfold SeekOrigin.SET, SeekOrigin.CUR, SeekOrigin.END; lia.
  - destruct (@lfs_seek_by_origin littlefs_h lfs0_mounted lfs_handle (-4)
                SeekOrigin.END eq_refl eq_refl) as [_ Hgood].
    apply (Hgood 2 (or_intror (or_intror (conj eq_refl eq_refl)))
             (list Z) scripted_lfs [96] [] 96 [] eq_refl).
Defined.

Lemma fat_seek_invalid_origin_witness :
  run scripted_ff (FatFSImpl.seek (ffh := fatfs_h) fat0_mounted fat_handle 5 3) at4 =
    (Some (ERROR_INVALID, fat_handle), at4, [Ev (f_tell []) 4; Ev (f_size []) 100]).
Proof.
  assert (3 <> SeekOrigin.SET) as H0 by (unfold SeekOrigin.SET; lia).
  assert (3 <> SeekOrigin.CUR) as H1 by (unfold SeekOrigin.CUR; lia).
  assert (3 <> SeekOrigin.END) as H2 by (unfold SeekOrigin.END; lia).
  exact (@fat_seek_invalid_origin fatfs_h one_file scripted_ff at4 at4 at4
           fat0_mounted fat_handle 5 3 4 100 eq_refl eq_refl H0 H1 H2 eq_refl eq_refl).
Defined.


Lemma fat_seek_set_exact_witness :
  run scripted_ff
      (FatFSImpl.seek (ffh := fatfs_h) fat0_mounted fat_handle 50 SeekOrigin.SET) at4 =
    (Some (OK, fat_handle), at50,
     [Ev (f_tell []) 4; Ev (f_size []) 100; Ev (f_lseek [] 50) (0, [])]).
Proof.
  assert (32 <= @FSIZE_bits fatfs_h) as Hw by (simpl; lia).
  assert (0 <= 50 < 2 ^ 31) as Hoff by lia.
  exact (@fat_seek_set_exact fatfs_h one_file scripted_ff at4 at4 at4 at50
           fat0_mounted fat_handle 50 4 100 0 [] eq_refl eq_refl Hw Hoff
           eq_refl eq_refl eq_refl).
Defined.

Lemma tell_reports_position_witness :
  (exists r p,
     run scripted_lfs (LittleFSImpl.tell (lfsh := littlefs_h) lfs0_mounted lfs_handle 7)
         [-9] =
       (Some (r, lfs_handle, p), [], [Ev (lfs_file_tell []) (-9, [])]) /\
     r = ERROR_BAD_FILE /\ p = 7) /\
  run scripted_ff (FatFSImpl.tell fat0_mounted fat_handle 7) at60 =
    (Some (OK, fat_handle, 60), at60, [Ev (f_tell []) 60]).
Proof.
  destruct (@tell_reports_position littlefs_h) as [Hlfs Hfat].
  split.
  - destruct (Hlfs (list Z) scripted_lfs [-9] [] lfs0_mounted lfs_handle 7 (-9) []
                eq_refl eq_refl eq_refl) as (r & p & Hrun & _ & Hneg).
    assert (-9 < 0) as Hlt by lia.
    destruct (Hneg Hlt) as [Hr Hp].
    exists r, p. split; [exact Hrun|]. split; [exact Hr | exact Hp].
  - exact (Hfat one_file scripted_ff at60 at60 fat0_mounted fat_handle 7 60
             eq_refl eq_refl eq_refl).
Defined.

(** ** Space queries *)

Section Space.
Context {lfsh : lfs_h} {ffh : ff_h}.

Lemma uint32_small (x : Z) : 0 <= x < 2 ^ 32 -> uint32 x = x.
Proof.
  intros Hx. unfold uint32, wrap. now apply Z.mod_small.
Qed.

Lemma uint64_small (x : Z) : 0 <= x < 2 ^ 64 -> uint64 x = x.
Proof.
  intros Hx. unfold uint64, wrap. now apply Z.mod_small.
Qed.

(** X19.  Space on a mounted flash-log adapter whose configuration holds
    32-bit block count and block size.  The total is block count times
    block size, computed without a native call.  The free space comes
    from one [lfs_fs_size] call: a negative answer is returned translated
    with the caller's variable untouched; an answer of [used] blocks gives
    (block count - used) times block size, and 0 when [used] reaches or
    exceeds the block count.  So free never exceeds total, and free plus
    used bytes is the total whenever [used] is at most the block count. *)
Theorem lfs_space_accounting (S : Type) (L : lib lfsE S) (s s1 : S)
    (fs : LittleFSImpl.t) (config : lfs_config_t) (res free_bytes total_bytes : Z) :
  LittleFSImpl.mounted_ fs = true ->
  LittleFSImpl.config_ fs = Some config ->
  0 <= block_count config < 2 ^ 32 ->
  0 <= block_size config < 2 ^ 32 ->
  L _ lfs_fs_size s = (res, s1) ->
  let total := block_count config * block_size config in
  run L (LittleFSImpl.get_total_space fs total_bytes) s = (Some (OK, total), s, []) /\
  (res < 0 ->
     run L (LittleFSImpl.get_free_space fs free_bytes) s =
       (Some (LittleFSImpl.convert_lfs_error res, free_bytes), s1,
        [Ev lfs_fs_size res])) /\
  (0 <= res < 2 ^ 31 ->
     let free := Z.max 0 (block_count config - res) * block_size config in
     run L (LittleFSImpl.get_free_space fs free_bytes) s =
       (Some (OK, free), s1, [Ev lfs_fs_size res]) /\
     0 <= free <= total /\
     (res <= block_count config -> free + res * block_size config = total)).
Proof.
  intros Hm Hc Hcount Hsize HL total.
  assert (2 ^ 32 * 2 ^ 32 = 2 ^ 64) as H64 by reflexivity.
  assert (2 ^ 31 < 2 ^ 32) as H31 by (vm_compute; reflexivity).
  assert (0 <= total < 2 ^ 64) as Htotal by (unfold total; nia).
  split; [|split].
  - unfold LittleFSImpl.get_total_space. rewrite Hm, Hc. simpl negb. cbv iota.
    now rewrite uint64_small.
  - intros Hneg. unfold LittleFSImpl.get_free_space. rewrite Hm. simpl negb. cbv iota.
    rewrite (run_call L _ _ s HL).
    destruct (Z.leb_spec 0 res); [lia | reflexivity].
  - intros Hres free.
    assert (0 <= free <= total) as Hfree by (unfold free, total; nia).
    split; [|split; [exact Hfree | intros Hle; unfold free, total; nia]].
    unfold LittleFSImpl.get_free_space. rewrite Hm, Hc. simpl negb. cbv iota.
    rewrite (run_call L _ _ s HL).
    destruct (Z.leb_spec 0 res); [|lia]. cbv zeta.
    rewrite (uint32_small (x := res)) by lia.
    rewrite Z.gtb_ltb.
    destruct (Z.ltb_spec res (block_count config)) as [Hlt | Hge].
    + rewrite (uint32_small (x := block_count config - res)) by lia.
      assert (uint64 ((block_count config - res) * block_size config) = free) as ->.
      { unfold free. rewrite Z.max_r by lia. apply uint64_small.
        unfold free in Hfree. rewrite Z.max_r in Hfree by lia. lia. }
      reflexivity.
    + assert (free = 0) as -> by (unfold free; rewrite Z.max_l by lia; reflexivity).
      reflexivity.
Qed.

(** X20.  Space on a mounted FAT adapter comes from one [f_getfree] call
    on the drive path.  A status other than [FR_OK] is returned
    translated with the caller's variable untouched.  With [FR_OK], a
    32-bit free-cluster count and a 16-bit cluster size, free space is
    free clusters times cluster size times 512; total space is the same
    product for (FAT entries - 2) clusters, where fewer than 2 FAT
    entries wrap the 32-bit subtraction around. *)
Theorem fat_space_accounting (S : Type) (L : lib ffE S) (s s1 : S)
    (fs : FatFSImpl.t) (res free_clusters free_bytes total_bytes : Z) (fatfs : FATFS) :
  FatFSImpl.mounted_ fs = true ->
  L _ (f_getfree (FatFSImpl.drive_path_ fs)) s = ((res, free_clusters, fatfs), s1) ->
  (res <> FR_OK ->
     run L (FatFSImpl.get_free_space fs free_bytes) s =
       (Some (FatFSImpl.convert_fatfs_error res, free_bytes), s1,
        [Ev (f_getfree (FatFSImpl.drive_path_ fs)) (res, free_clusters, fatfs)]) /\
     run L (FatFSImpl.get_total_space fs total_bytes) s =
       (Some (FatFSImpl.convert_fatfs_error res, total_bytes), s1,
        [Ev (f_getfree (FatFSImpl.drive_path_ fs)) (res, free_clusters, fatfs)])) /\
  (res = FR_OK ->
     0 <= free_clusters < 2 ^ 32 ->
     0 <= csize fatfs < 2 ^ 16 ->
     0 <= n_fatent fatfs < 2 ^ 32 ->
     let total_clusters :=
       if n_fatent fatfs <? 2 then n_fatent fatfs - 2 + 2 ^ 32 else n_fatent fatfs - 2 in
     run L (FatFSImpl.get_free_space fs free_bytes) s =
       (Some (OK, free_clusters * csize fatfs * 512), s1,
        [Ev (f_getfree (FatFSImpl.drive_path_ fs)) (res, free_clusters, fatfs)]) /\
     run L (FatFSImpl.get_total_space fs total_bytes) s =
       (Some (OK, total_clusters * csize fatfs * 512), s1,
        [Ev (f_getfree (FatFSImpl.drive_path_ fs)) (res, free_clusters, fatfs)])).
Proof.
  intros Hm HL. split.
  - intros Hno. apply Z.eqb_neq in Hno.
    unfold FatFSImpl.get_free_space, FatFSImpl.get_total_space.
    rewrite Hm. simpl negb. cbv iota.
    rewrite !(run_call L _ _ s HL). rewrite Hno. split; reflexivity.
  - intros Hok Hfree Hcsize Hent total_clusters. apply Z.eqb_eq in Hok.
    assert (2 ^ 32 * 2 ^ 16 * 512 < 2 ^ 64) as H64 by (vm_compute; reflexivity).
    assert (2 ^ 32 * 2 ^ 16 < 2 ^ 64) as H48 by (vm_compute; reflexivity).
    assert (0 < 2 ^ 32) as H32 by (vm_compute; reflexivity).
    assert (uint32 (n_fatent fatfs - 2) = total_clusters) as Hclusters.
    { unfold total_clusters, uint32, wrap.
      destruct (Z.ltb_spec (n_fatent fatfs) 2).
      - symmetry. apply (Z.mod_unique _ _ (-1)); [left|]; lia.
      - apply Z.mod_small. lia. }
    assert (0 <= total_clusters < 2 ^ 32) as Htc.
    { unfold total_clusters. destruct (Z.ltb_spec (n_fatent fatfs) 2); lia. }
    unfold FatFSImpl.get_free_space, FatFSImpl.get_total_space.
    rewrite Hm. simpl negb. cbv iota.
    rewrite !(run_call L _ _ s HL). rewrite Hok. cbv zeta. rewrite Hclusters.
    rewrite (uint32_small (x := free_clusters)) by lia.
    rewrite (uint64_small (x := free_clusters * csize fatfs)) by nia.
    rewrite (uint64_small (x := free_clusters * csize fatfs * 512)) by nia.
    rewrite (uint64_small (x := total_clusters * csize fatfs)) by nia.
    rewrite (uint64_small (x := total_clusters * csize fatfs * 512)) by nia.
    split; reflexivity.
Qed.

End Space.

Lemma lfs_space_accounting_witness :
  run scripted_lfs (LittleFSImpl.get_total_space lfs0_mounted 0) [28] =
    (Some (OK, 524288), [28], []) /\
  run scripted_lfs (LittleFSImpl.get_free_space (lfsh := littlefs_h) lfs0_mounted 0)
      [28] =
    (Some (OK, 409600), [], [Ev lfs_fs_size 28]).
Proof.
  assert (0 <= block_count config0 < 2 ^ 32) as Hcount by (simpl; lia).
  assert (0 <= block_size config0 < 2 ^ 32) as Hsize by (simpl; lia).
  destruct (@lfs_space_accounting littlefs_h (list Z) scripted_lfs [28] []
              lfs0_mounted config0 28 0 0 eq_refl eq_refl Hcount Hsize eq_refl)
    as (Htotal & _ & Hfree).
  assert (0 <= 28 < 2 ^ 31) as Hres by lia.
  destruct (Hfree Hres) as (Hrun & _ & _).
  split; [exact Htotal | exact Hrun].
Defined.

Lemma fat_space_accounting_witness :
  run scripted_ff (FatFSImpl.get_total_space (ffh := fatfs_h) fat0_mounted 7)
      (ff_script []) =
    (Some (OK, 0), ff_script [], [Ev (f_getfree "0:") (0, 0, mk_FATFS 0 0)]) /\
  run scripted_ff (FatFSImpl.get_free_space (ffh := fatfs_h) fat0_mounted 7)
      (ff_script [3]) =
    (Some (ERROR_IO, 7), ff_script [], [Ev (f_getfree "0:") (3, 0, mk_FATFS 0 0)]).
Proof.
  split.
  - destruct (@fat_space_accounting fatfs_h one_file scripted_ff (ff_script [])
                (ff_script []) fat0_mounted 0 0 7 7 (mk_FATFS 0 0) eq_refl eq_refl)
      as [_ Hok].
    assert (0 <= 0 < 2 ^ 32) as H32 by lia.
    assert (0 <= csize (mk_FATFS 0 0) < 2 ^ 16) as H16 by (simpl; lia).
    assert (0 <= n_fatent (mk_FATFS 0 0) < 2 ^ 32) as Hent by (simpl; lia).
    destruct (Hok eq_refl H32 H16 Hent) as [_ Htotal]. exact Htotal.
  - destruct (@fat_space_accounting fatfs_h one_file scripted_ff (ff_script [3])
                (ff_script []) fat0_mounted 3 0 7 7 (mk_FATFS 0 0) eq_refl eq_refl)
      as [Hfail _].
    assert (3 <> @FR_OK fatfs_h) as Hne by (simpl; lia).
    destruct (Hfail Hne) as [Hfree _]. exact Hfree.
Defined.

(** ** File information *)

Lemma strncpy_length (n : nat) (src : string) :
  (String.length (strncpy n src) <= n)%nat.
Proof.
  revert src. induction n as [|n IH]; intros [|a rest]; simpl; try lia.
  specialize (IH rest). lia.
Qed.







Section FileInformation.
Context {lfsh : lfs_h} {ffh : ff_h}.


(** X22.  The modification time the FAT adapter reports packs a 16-bit
    date and a 16-bit time into one 32-bit value, date in the high half
    and time in the low half, and both can be read back from it. *)
Theorem packed_time_fields (fno : FILINFO) :
  0 <= fdate fno < 2 ^ 16 ->
  0 <= ftime fno < 2 ^ 16 ->
  FatFSImpl.packed_time fno = fdate fno * 2 ^ 16 + ftime fno /\
  0 <= FatFSImpl.packed_time fno < 2 ^ 32 /\
  Z.shiftr (FatFSImpl.packed_time fno) 16 = fdate fno /\
  Z.land (FatFSImpl.packed_time fno) (2 ^ 16 - 1) = ftime fno.
Proof.
  intros Hd Ht.
  assert (2 ^ 16 * 2 ^ 16 = 2 ^ 32) as H32 by reflexivity.
  assert (0 < 2 ^ 16) as H16 by reflexivity.
  assert (FatFSImpl.packed_time fno = fdate fno * 2 ^ 16 + ftime fno) as Hpacked.
  { unfold FatFSImpl.packed_time.
    rewrite (uint32_small (x := fdate fno)) by lia.
    rewrite Z.shiftl_mul_pow2 by lia.
    rewrite (uint32_small (x := fdate fno * 2 ^ 16)) by nia.
    assert (Z.land (fdate fno * 2 ^ 16) (ftime fno) = 0) as Hdisjoint.
    { apply Z.bits_inj'. intros n Hn. rewrite Z.land_spec, Z.bits_0.
      destruct (Z.lt_ge_cases n 16) as [Hlow | Hhigh].
      - rewrite Z.mul_pow2_bits_low by lia. reflexivity.
      - destruct (Z.eq_dec (ftime fno) 0) as [Hz | Hnz].
        + rewrite Hz, Z.bits_0. apply andb_false_r.
        + rewrite (Z.bits_above_log2 (ftime fno) n); [apply andb_false_r | lia |].
          assert (Z.log2 (ftime fno) < 16) by (apply Z.log2_lt_pow2; lia). lia. }
    rewrite <- Z.lxor_lor by exact Hdisjoint.
    rewrite <- Z.add_nocarry_lxor by exact Hdisjoint.
    apply uint32_small. nia. }
  rewrite Hpacked. split; [reflexivity|]. split; [nia|]. split.
  - rewrite Z.shiftr_div_pow2 by lia.
    rewrite Z.div_add_l by lia. rewrite Z.div_small by lia. lia.
  - change (2 ^ 16 - 1) with (Z.ones 16). rewrite Z.land_ones by lia.
    rewrite Z.add_comm, Z.mod_add by lia. apply Z.mod_small. lia.
Qed.

(** X23.  Reading a directory through a handle the adapter holds open
    makes one native call.  The end of the directory (answer 0 from
    littlefs; [FR_OK] with an empty name from FatFs) is returned as [OK]
    with the name set empty and the other fields of the caller's
    [FileInfo] untouched.  An entry is returned as [OK] with the entry's
    name cut to 63 characters.  An error is returned translated with the
    [FileInfo] untouched.  So a name that fits its 64-byte array before the
    call fits it after the call. *)
Theorem readdir_entries_and_end :
  (forall (S : Type) (L : lib lfsE S) (s s1 : S) (fs : LittleFSImpl.t)
          (d : DirHandle) (info : FileInfo) (res : Z) (dir : storage) (li : lfs_info),
     dir_is_open d = true -> dir_fs_impl d = Some (LittleFSImpl.this fs) ->
     L _ (lfs_dir_read (lfs_dir d)) s = ((res, dir, li), s1) ->
     (String.length (name info) <= 63)%nat ->
     exists r info',
       run L (LittleFSImpl.readdir fs d info) s =
         (Some (r, LittleFSImpl.set_lfs_dir d dir, info'), s1,
          [Ev (lfs_dir_read (lfs_dir d)) (res, dir, li)]) /\
       (String.length (name info') <= 63)%nat /\
       (res = 0 ->
          r = OK /\ name info' = EmptyString /\ size info' = size info /\
          is_directory info' = is_directory info /\
          modified_time info' = modified_time info) /\
       (0 < res ->
          r = OK /\ name info' = strncpy 63 (lfs_info_name li) /\
          size info' = lfs_info_size li mod 2 ^ 32 /\
          (is_directory info' = true <-> lfs_info_type li = LFS_TYPE_DIR) /\
          modified_time info' = 0) /\
       (res < 0 -> r = LittleFSImpl.convert_lfs_error res /\ info' = info)) /\
  (forall (S : Type) (L : lib ffE S) (s s1 : S) (fs : FatFSImpl.t)
          (d : DirHandle) (info : FileInfo) (res : Z) (dp : storage) (fno : FILINFO),
     dir_is_open d = true -> dir_fs_impl d = Some (FatFSImpl.this fs) ->
     L _ (f_readdir (fat_dir d)) s = ((res, dp, fno), s1) ->
     (String.length (name info) <= 63)%nat ->
     exists r info',
       run L (FatFSImpl.readdir fs d info) s =
         (Some (r, FatFSImpl.set_fat_dir d dp, info'), s1,
          [Ev (f_readdir (fat_dir d)) (res, dp, fno)]) /\
       (String.length (name info') <= 63)%nat /\
       (res = FR_OK -> fname fno = EmptyString ->
          r = OK /\ name info' = EmptyString /\ size info' = size info /\
          is_directory info' = is_directory info /\
          modified_time info' = modified_time info) /\
       (res = FR_OK -> fname fno <> EmptyString ->
          r = OK /\ name info' = strncpy 63 (fname fno) /\
          size info' = fsize fno mod 2 ^ 32 /\
          (is_directory info' = true <-> Z.land (fattrib fno) AM_DIR <> 0) /\
          modified_time info' = FatFSImpl.packed_time fno) /\
       (res <> FR_OK -> r = FatFSImpl.convert_fatfs_error res /\ info' = info)).
Proof.
  split.
  - intros S L s s1 fs d info res dir li Ho Hf HL Hlen.
    unfold LittleFSImpl.readdir. rewrite (lfs_bad_dir_owned fs d Ho Hf).
    rewrite (run_call L _ _ s HL).
    destruct (Z.ltb_spec 0 res) as [Hpos | Hnp].
    + do 2 eexists. split; [reflexivity|]. cbn [name size is_directory modified_time].
      split; [apply (strncpy_length 63)|].
      split; [intros; lia|]. split; [|intros; lia]. intros _.
      repeat split; try reflexivity; apply Z.eqb_eq.
    + destruct (Z.eqb_spec res 0) as [Hz | Hnz].
      * do 2 eexists. split; [reflexivity|]. cbn [name size is_directory modified_time].
        split; [simpl; lia|]. split; [|split; intros; lia]. intros _.
        repeat split; reflexivity.
      * do 2 eexists. split; [reflexivity|].
        split; [exact Hlen|]. split; [intros; lia|]. split; [intros; lia|].
        intros _. split; reflexivity.
  - intros S L s s1 fs d info res dp fno Ho Hf HL Hlen.
    unfold FatFSImpl.readdir. rewrite (fat_bad_dir_owned fs d Ho Hf).
    rewrite (run_call L _ _ s HL).
    destruct (Z.eqb_spec res FR_OK) as [Hok | Hno].
    + destruct (fname fno) as [|a rest] eqn:Hname.
      * do 2 eexists. split; [reflexivity|]. cbn [name size is_directory modified_time].
        split; [simpl; lia|]. split; [|split; [congruence | contradiction]].
        intros _ _. repeat split; reflexivity.
      * do 2 eexists. split; [reflexivity|]. cbn [name size is_directory modified_time].
        split; [apply (strncpy_length 63)|].
        split; [intros _ Habs; discriminate Habs|]. split; [|contradiction].
        intros _ _. split; [reflexivity|]. split; [reflexivity|].
        split; [reflexivity|]. split; [|reflexivity].
        rewrite negb_true_iff. apply Z.eqb_neq.
    + do 2 eexists. split; [reflexivity|].
      split; [exact Hlen|]. split; [contradiction|]. split; [contradiction|].
      intros _. split; reflexivity.
Qed.

End FileInformation.


Lemma packed_time_fields_witness :
  FatFSImpl.packed_time (mk_FILINFO 0 0x5A21 0x8C60 0 EmptyString) = 0x5A218C60.
Proof.
  assert (0 <= fdate (mk_FILINFO 0 0x5A21 0x8C60 0 EmptyString) < 2 ^ 16) as Hd
    by (simpl; lia).
  assert (0 <= ftime (mk_FILINFO 0 0x5A21 0x8C60 0 EmptyString) < 2 ^ 16) as Ht
    by (simpl; lia).
  destruct (packed_time_fields (mk_FILINFO 0 0x5A21 0x8C60 0 EmptyString) Hd Ht)
    as [Hpacked _].
  exact Hpacked.
Defined.

Lemma readdir_entries_and_end_witness :
  exists r info',
    run scripted_lfs
        (LittleFSImpl.readdir (lfsh := littlefs_h) lfs0_mounted lfs_dirhandle
           (mkFileInfo "old" 9 true 0)) [0] =
      (Some (r, lfs_dirhandle, info'), [],
       [Ev (lfs_dir_read []) (0, [], mk_lfs_info 0 0 EmptyString)]) /\
    r = OK /\ name info' = EmptyString /\ size info' = 9.
Proof.
  destruct (@readdir_entries_and_end littlefs_h fatfs_h) as [Hlfs _].
  assert (String.length (name (mkFileInfo "old" 9 true 0)) <= 63)%nat as Hlen
    by (simpl; lia).
  destruct (Hlfs (list Z) scripted_lfs [0] [] lfs0_mounted lfs_dirhandle
              (mkFileInfo "old" 9 true 0) 0 [] (mk_lfs_info 0 0 EmptyString)
              eq_refl eq_refl eq_refl Hlen)
    as (r & info' & Hrun & _ & Hend & _).
  destruct (Hend eq_refl) as (Hr & Hname & Hsize & _).
  exists r, info'. split; [exact Hrun|]. split; [exact Hr|]. split; assumption.
Defined.

(** ** Access flags and the narrowed return *)

Section AccessFlags.
Context {lfsh : lfs_h} {ffh : ff_h}.


Lemma lfs_layout :
  lfs_flags_above_byte = true ->
  (0 <= LFS_O_RDONLY < 256 /\ 0 <= LFS_O_WRONLY < 256 /\ 0 <= LFS_O_RDWR < 256) /\
  Z.land LFS_O_CREAT 255 = 0 /\ Z.land LFS_O_EXCL 255 = 0 /\
  Z.land LFS_O_TRUNC 255 = 0 /\ Z.land LFS_O_APPEND 255 = 0.
Proof.
  unfold lfs_flags_above_byte. simpl forallb. intros H.
  repeat (apply andb_true_iff in H; destruct H as [? H]).
  repeat match goal with
         | Hx : _ && _ = true |- _ => apply andb_true_iff in Hx; destruct Hx
         end.
  repeat match goal with
         | Hle : (_ <=? _) = true |- _ => apply Z.leb_le in Hle
         | Hlt : (_ <? _) = true |- _ => apply Z.ltb_lt in Hlt
         | Heq : (_ =? _) = true |- _ => apply Z.eqb_eq in Heq
         end.
  repeat split; assumption.
Qed.

Lemma land_255_byte (x : Z) : 0 <= x < 256 -> Z.land x 255 = x.
Proof.
  intros Hx. change 255 with (Z.ones 8). rewrite Z.land_ones by lia.
  apply Z.mod_small. change (2 ^ 8) with 256. lia.
Qed.

(** X25.  Where the access flags fit in a byte and the create, exclusive,
    truncate and append flags have no bit below bit 8, as in littlefs,
    the 8-bit return of the flash-log translator keeps the access flags
    only: the result is that of the mode's Read and Write bits alone, it
    is below 256, and it has none of the four higher flags. *)
Theorem lfs_open_mode_keeps_access_only (mode : Z) :
  lfs_flags_above_byte = true ->
  LittleFSImpl.convert_open_mode mode =
    LittleFSImpl.lfs_flags (Z.land mode (Z.lor OpenMode.READ OpenMode.WRITE)) /\
  0 <= LittleFSImpl.convert_open_mode mode < 256 /\
  (forall flag : Z,
     In flag [LFS_O_CREAT; LFS_O_EXCL; LFS_O_TRUNC; LFS_O_APPEND] -> flag <> 0 ->
     ~ has_flag (LittleFSImpl.convert_open_mode mode) flag).
Proof.
  intros Hlayout. apply lfs_layout in Hlayout.
  destruct Hlayout as ((Hrd & Hwr & Hrw) & Hcr & Hex & Htr & Hap).
  assert (0 <= LittleFSImpl.convert_open_mode mode < 256) as Hrange
    by apply uint8_range.
  split; [|split; [exact Hrange|]].
  - unfold LittleFSImpl.convert_open_mode, uint8, wrap.
    rewrite <- Z.land_ones by lia. change (Z.ones 8) with 255.
    rewrite !lfs_flags_bits. cbv zeta.
    change (Z.lor OpenMode.READ OpenMode.WRITE) with 3.
    rewrite !Z.land_spec.
    change (Z.testbit 3 0) with true. change (Z.testbit 3 1) with true.
    change (Z.testbit 3 2) with false. change (Z.testbit 3 3) with false.
    change (Z.testbit 3 4) with false. change (Z.testbit 3 5) with false.
    rewrite !andb_true_r, !andb_false_r.
    destruct (Z.testbit mode 0), (Z.testbit mode 1), (Z.testbit mode 2),
      (Z.testbit mode 3), (Z.testbit mode 4), (Z.testbit mode 5);
      rewrite ?Z.lor_0_l, ?Z.land_lnot_diag, ?Z.lor_0_l;
      rewrite ?Z.land_lor_distr_l, ?Hcr, ?Hex, ?Htr, ?Hap, ?Z.lor_0_r;
      try reflexivity; now apply land_255_byte.
  - intros flag Hin Hnz Hhas. unfold has_flag in Hhas.
    assert (Z.land flag 255 = 0) as Hhigh.
    { simpl in Hin. destruct Hin as [<- | [<- | [<- | [<- | []]]]]; assumption. }
    apply Hnz. rewrite <- Hhas.
    rewrite <- (land_255_byte Hrange).
    rewrite <- Z.land_assoc, (Z.land_comm 255 flag), Hhigh. apply Z.land_0_r.
Qed.

End AccessFlags.


Lemma lfs_open_mode_keeps_access_only_witness :
  LittleFSImpl.convert_open_mode (lfsh := littlefs_h)
    (OpenMode_or OpenMode.WRITE (OpenMode_or OpenMode.CREATE OpenMode.TRUNC)) =
    LittleFSImpl.lfs_flags (lfsh := littlefs_h) OpenMode.WRITE /\
  ~ has_flag (LittleFSImpl.convert_open_mode (lfsh := littlefs_h)
                (OpenMode_or OpenMode.WRITE (OpenMode_or OpenMode.CREATE OpenMode.TRUNC)))
             (@LFS_O_CREAT littlefs_h).
Proof.
  destruct (@lfs_open_mode_keeps_access_only littlefs_h
              (OpenMode_or OpenMode.WRITE (OpenMode_or OpenMode.CREATE OpenMode.TRUNC))
              eq_refl) as (Hsame & _ & Hnone).
  split; [exact Hsame|].
  apply Hnone; [left; reflexivity | simpl; lia].
Defined.

(** ** The rest of the error tables *)

Section ErrorTables.
Context {lfsh : lfs_h} {ffh : ff_h}.

(** X26.  Results the translators never produce, whatever the native
    status: the flash-log translator never yields [ERROR_NOT_MOUNTED] or
    [ERROR_NOT_SUPPORTED]; the FAT translator never yields
    [ERROR_NOT_DIR], [ERROR_IS_DIR], [ERROR_NO_EMPTY], [ERROR_FB_BIG],
    [ERROR_NO_SPC] or [ERROR_NOT_SUPPORTED]. *)
Theorem translation_never_yields (c : Z) :
  ~ In (LittleFSImpl.convert_lfs_error c) [ERROR_NOT_MOUNTED; ERROR_NOT_SUPPORTED] /\
  ~ In (FatFSImpl.convert_fatfs_error c)
       [ERROR_NOT_DIR; ERROR_IS_DIR; ERROR_NO_EMPTY; ERROR_FB_BIG; ERROR_NO_SPC;
        ERROR_NOT_SUPPORTED].
Proof.
  split.
  - unfold LittleFSImpl.convert_lfs_error.
    match goal with |- ~ In (switch ?x ?cs ?d) _ =>
      destruct (switch_cases x cs d) as [Hin | Hd] end.
    + intros Hbad. simpl in Hin, Hbad.
      repeat (destruct Hbad as [Hbad | Hbad];
              [rewrite <- Hbad in Hin;
               repeat (destruct Hin as [Hin | Hin]; [discriminate Hin|]);
               contradiction|]).
      contradiction.
    + rewrite Hd. simpl. intuition discriminate.
  - unfold FatFSImpl.convert_fatfs_error.
    match goal with |- ~ In (switch ?x ?cs ?d) _ =>
      destruct (switch_cases x cs d) as [Hin | Hd] end.
    + intros Hbad. simpl in Hin, Hbad.
      repeat (destruct Hbad as [Hbad | Hbad];
              [rewrite <- Hbad in Hin;
               repeat (destruct Hin as [Hin | Hin]; [discriminate Hin|]);
               contradiction|]).
      contradiction.
    + rewrite Hd. simpl. intuition discriminate.
Qed.

(** X27.  With the case labels of each switch pairwise distinct, every
    label is translated to the result written beside it: for littlefs the
    I/O, corrupt, no-entry, exists, not-a-directory, is-a-directory,
    not-empty, bad-file, too-big, no-space and invalid statuses; for FatFs
    the disk, internal, not-ready, no-file, no-path, invalid-name, exists,
    invalid-object, invalid-drive, not-enabled, no-filesystem,
    mkfs-aborted, timeout and invalid-parameter statuses. *)
Theorem error_tables_as_written :
  distinct lfs_error_labels = true ->
  distinct fatfs_error_labels = true ->
  (LittleFSImpl.convert_lfs_error LFS_ERR_IO = ERROR_IO /\
   LittleFSImpl.convert_lfs_error LFS_ERR_CORRUPT = ERROR_CORRUPT /\
   LittleFSImpl.convert_lfs_error LFS_ERR_NOENT = ERROR_NO_ENT /\
   LittleFSImpl.convert_lfs_error LFS_ERR_EXIST = ERROR_EXIST /\
   LittleFSImpl.convert_lfs_error LFS_ERR_NOTDIR = ERROR_NOT_DIR /\
   LittleFSImpl.convert_lfs_error LFS_ERR_ISDIR = ERROR_IS_DIR /\
   LittleFSImpl.convert_lfs_error LFS_ERR_NOTEMPTY = ERROR_NO_EMPTY /\
   LittleFSImpl.convert_lfs_error LFS_ERR_BADF = ERROR_BAD_FILE /\
   LittleFSImpl.convert_lfs_error LFS_ERR_FBIG = ERROR_FB_BIG /\
   LittleFSImpl.convert_lfs_error LFS_ERR_NOSPC = ERROR_NO_SPC /\
   LittleFSImpl.convert_lfs_error LFS_ERR_INVAL = ERROR_INVALID) /\
  (FatFSImpl.convert_fatfs_error FR_DISK_ERR = ERROR_IO /\
   FatFSImpl.convert_fatfs_error FR_INT_ERR = ERROR_CORRUPT /\
   FatFSImpl.convert_fatfs_error FR_NOT_READY = ERROR_IO /\
   FatFSImpl.convert_fatfs_error FR_NO_FILE = ERROR_NO_ENT /\
   FatFSImpl.convert_fatfs_error FR_NO_PATH = ERROR_NO_ENT /\
   FatFSImpl.convert_fatfs_error FR_INVALID_NAME = ERROR_INVALID /\
   FatFSImpl.convert_fatfs_error FR_EXIST = ERROR_EXIST /\
   FatFSImpl.convert_fatfs_error FR_INVALID_OBJECT = ERROR_BAD_FILE /\
   FatFSImpl.convert_fatfs_error FR_INVALID_DRIVE = ERROR_NOT_MOUNTED /\
   FatFSImpl.convert_fatfs_error FR_NOT_ENABLED = ERROR_NOT_MOUNTED /\
   FatFSImpl.convert_fatfs_error FR_NO_FILESYSTEM = ERROR_CORRUPT /\
   FatFSImpl.convert_fatfs_error FR_MKFS_ABORTED = ERROR_IO /\
   FatFSImpl.convert_fatfs_error FR_TIMEOUT = ERROR_IO /\
   FatFSImpl.convert_fatfs_error FR_INVALID_PARAMETER = ERROR_INVALID).
Proof.
  intros Hl Hf. apply distinct_NoDup in Hl. apply distinct_NoDup in Hf.
  split.
  - unfold LittleFSImpl.convert_lfs_error.
    repeat match goal with |- _ /\ _ => split end;
      apply switch_hit; simpl; auto 20.
  - unfold FatFSImpl.convert_fatfs_error.
    repeat match goal with |- _ /\ _ => split end;
      apply switch_hit; simpl; auto 30.
Qed.

(** X28.  With distinct case labels the flash-log translation loses
    nothing on the statuses it knows: two case labels with the same
    result are the same status. *)
Theorem lfs_translation_one_to_one (a b : Z) :
  distinct lfs_error_labels = true ->
  In a lfs_error_labels -> In b lfs_error_labels ->
  LittleFSImpl.convert_lfs_error a = LittleFSImpl.convert_lfs_error b ->
  a = b.
Proof.
  intros Hl Ha Hb. apply distinct_NoDup in Hl.
  assert (forall l r,
            In (l, r)
               [ (LFS_ERR_OK, OK); (LFS_ERR_IO, ERROR_IO);
                 (LFS_ERR_CORRUPT, ERROR_CORRUPT); (LFS_ERR_NOENT, ERROR_NO_ENT);
                 (LFS_ERR_EXIST, ERROR_EXIST); (LFS_ERR_NOTDIR, ERROR_NOT_DIR);
                 (LFS_ERR_ISDIR, ERROR_IS_DIR); (LFS_ERR_NOTEMPTY, ERROR_NO_EMPTY);
                 (LFS_ERR_BADF, ERROR_BAD_FILE); (LFS_ERR_FBIG, ERROR_FB_BIG);
                 (LFS_ERR_NOSPC, ERROR_NO_SPC); (LFS_ERR_NOMEM, ERROR_NO_MEM);
                 (LFS_ERR_INVAL, ERROR_INVALID) ] ->
            LittleFSImpl.convert_lfs_error l = r) as Htable.
  { intros l r Hin. unfold LittleFSImpl.convert_lfs_error.
    apply switch_hit; assumption. }
  simpl in Ha, Hb.
  repeat (destruct Ha as [Ha | Ha]; [subst a|]); try contradiction;
    repeat (destruct Hb as [Hb | Hb]; [subst b|]); try contradiction;
    try reflexivity;
    intros Heq;
    repeat match type of Heq with
           | context [LittleFSImpl.convert_lfs_error ?l] =>
               rewrite (Htable l _ ltac:(simpl; auto 20)) in Heq
           end;
    discriminate Heq.
Qed.

End ErrorTables.

Lemma error_tables_as_written_witness :
  LittleFSImpl.convert_lfs_error (lfsh := littlefs_h) (-84) = ERROR_CORRUPT /\
  FatFSImpl.convert_fatfs_error (ffh := fatfs_h) 13 = ERROR_CORRUPT.
Proof.
  destruct (@error_tables_as_written littlefs_h fatfs_h eq_refl eq_refl)
    as [(_ & Hlfs & _) (_ & _ & _ & _ & _ & _ & _ & _ & _ & _ & Hfat & _)].
  split; [exact Hlfs | exact Hfat].
Defined.

Lemma lfs_translation_one_to_one_witness :
  In (-28) (@lfs_error_labels littlefs_h) /\
  LittleFSImpl.convert_lfs_error (lfsh := littlefs_h) (-28) = ERROR_NO_SPC /\
  -28 = @LFS_ERR_NOSPC littlefs_h.
Proof.
  assert (In (-28) (@lfs_error_labels littlefs_h)) as Ha by (vm_compute; auto 20).
  assert (In (@LFS_ERR_NOSPC littlefs_h) (@lfs_error_labels littlefs_h)) as Hb
    by (vm_compute; auto 20).
  split; [exact Ha|]. split; [reflexivity|].
  exact (@lfs_translation_one_to_one littlefs_h (-28) (@LFS_ERR_NOSPC littlefs_h)
           eq_refl Ha Hb eq_refl).
Defined.

(** ** The drive path of the FAT adapter *)

(** X29.  The FAT adapter's constructor always leaves a drive path that
    fits the 8-byte member with its terminator: a given path shorter than
    8 characters is kept, and a null or longer one is replaced by "0:".
    The adapter starts unmounted. *)
Theorem fat_drive_path_fits (self : addr) (drive_path : option string) :
  let fs := FatFSImpl.new self drive_path in
  (String.length (FatFSImpl.drive_path_ fs) < 8)%nat /\
  FatFSImpl.mounted_ fs = false /\
  FatFSImpl.this fs = self /\
  (forall p : string,
     drive_path = Some p -> (String.length p < 8)%nat ->
     FatFSImpl.drive_path_ fs = p) /\
  (forall p : string,
     drive_path = Some p -> (8 <= String.length p)%nat ->
     FatFSImpl.drive_path_ fs = "0:"%string) /\
  (drive_path = None -> FatFSImpl.drive_path_ fs = "0:"%string).
Proof.
  intros fs. unfold fs, FatFSImpl.new. cbn [FatFSImpl.drive_path_ FatFSImpl.mounted_
                                            FatFSImpl.this].
  split; [|split; [reflexivity|split; [reflexivity|split; [|split]]]].
  - destruct drive_path as [p|]; [|simpl; lia].
    destruct (Z.ltb_spec (Z.of_nat (String.length p)) 8); [lia | simpl; lia].
  - intros p -> Hlen.
    destruct (Z.ltb_spec (Z.of_nat (String.length p)) 8); [reflexivity | lia].
  - intros p -> Hlen.
    destruct (Z.ltb_spec (Z.of_nat (String.length p)) 8); [lia | reflexivity].
  - intros ->. reflexivity.
Qed.

Lemma fat_drive_path_fits_witness :
  FatFSImpl.drive_path_ (FatFSImpl.new 2%N (Some "1:/sd"%string)) = "1:/sd"%string /\
  FatFSImpl.drive_path_ (FatFSImpl.new 2%N (Some "sdcard0:/"%string)) = "0:"%string.
Proof.
  split.
  - destruct (fat_drive_path_fits 2%N (Some "1:/sd"%string))
      as (_ & _ & _ & Hkept & _).
    apply (Hkept "1:/sd"%string eq_refl). simpl. lia.
  - destruct (fat_drive_path_fits 2%N (Some "sdcard0:/"%string))
      as (_ & _ & _ & _ & Hdefault & _).
    apply (Hdefault "sdcard0:/"%string eq_refl). simpl. lia.
Defined.

(** ** Removing *)

Section Removing.
Context {lfsh : lfs_h} {ffh : ff_h}.

(** X30.  [rmdir] is [remove] in both adapters: on a mounted adapter
    either one makes the single native call [lfs_remove] (or [f_unlink])
    on the path as given and returns its translated status, without any
    check of its own that the path names a directory or a file. *)
Theorem rmdir_is_remove :
  (forall (fs : LittleFSImpl.t) (path : string),
     LittleFSImpl.rmdir fs path = LittleFSImpl.remove fs path) /\
  (forall (S : Type) (L : lib lfsE S) (s s1 : S) (fs : LittleFSImpl.t)
          (path : string) (res : Z),
     LittleFSImpl.mounted_ fs = true ->
     L _ (lfs_remove path) s = (res, s1) ->
     run L (LittleFSImpl.rmdir fs path) s =
       (Some (LittleFSImpl.convert_lfs_error res), s1, [Ev (lfs_remove path) res])) /\
  (forall (fs : FatFSImpl.t) (path : string),
     FatFSImpl.rmdir fs path = FatFSImpl.remove fs path) /\
  (forall (S : Type) (L : lib ffE S) (s s1 : S) (fs : FatFSImpl.t)
          (path : string) (res : Z),
     FatFSImpl.mounted_ fs = true ->
     L _ (f_unlink path) s = (res, s1) ->
     run L (FatFSImpl.rmdir fs path) s =
       (Some (FatFSImpl.convert_fatfs_error res), s1, [Ev (f_unlink path) res])).
Proof.
  split; [reflexivity|]. split; [|split; [reflexivity|]].
  - intros S L s s1 fs path res Hm HL. unfold LittleFSImpl.rmdir.
    rewrite Hm. simpl negb. cbv iota. rewrite (run_call L _ _ s HL). reflexivity.
  - intros S L s s1 fs path res Hm HL. unfold FatFSImpl.rmdir.
    rewrite Hm. simpl negb. cbv iota. rewrite (run_call L _ _ s HL). reflexivity.
Qed.

End Removing.

Lemma rmdir_is_remove_witness :
  run scripted_lfs (LittleFSImpl.rmdir (lfsh := littlefs_h) lfs0_mounted "/a.txt") [0] =
    (Some OK, [], [Ev (lfs_remove "/a.txt") 0]) /\
  run scripted_ff (FatFSImpl.rmdir (ffh := fatfs_h) fat0_mounted "/a.txt")
      (ff_script [7]) =
    (Some ERROR_INVALID, ff_script [], [Ev (f_unlink "/a.txt") 7]).
Proof.
  destruct (@rmdir_is_remove littlefs_h fatfs_h) as (_ & Hlfs & _ & Hfat).
  split.
  - exact (Hlfs (list Z) scripted_lfs [0] [] lfs0_mounted "/a.txt"%string 0
             eq_refl eq_refl).
  - exact (Hfat one_file scripted_ff (ff_script [7]) (ff_script []) fat0_mounted
             "/a.txt"%string 7 eq_refl eq_refl).
Defined.
